(** * ai_diffusion/model.py: generation dispatch, job life cycle, live loop
      and recording pipeline

    A shallow embedding of [Model], [UpscaleWorkspace] and [LiveWorkspace].
    Python objects that are shared and mutated ([Job], [ControlLayer]) live
    in a store and are addressed by reference; methods are computations in a
    state-and-exception monad over the whole program state; coroutines are
    resumable values that the event loop steps from one [await] to the next. *)

From Stdlib Require Import ZArith List String DecimalString Bool Lia.
From Stdlib Require Import Floats.SpecFloat.
Import ListNotations.

Local Open Scope string_scope.
Local Open Scope list_scope.
Local Open Scope Z_scope.

(** ** Python numbers *)

(** A Python [float] is an IEEE 754 binary64 value. *)
Definition float := spec_float.

Module Float.
Definition prec : Z := 53.
Definition emax : Z := 1024.
(** [float(n)] for a Python int [n]. *)
Definition of_int (n : Z) : float := binary_normalize prec emax n 0 false.
Definition zero : float := of_int 0.
Definition one : float := of_int 1.
Definition div : float -> float -> float := SFdiv prec emax.
Definition pred : float -> float := SFpred prec emax.
(** [a == b] and [a < b]; both are false when an operand is NaN. *)
Definition eqb : float -> float -> bool := SFeqb.
Definition ltb : float -> float -> bool := SFltb.
End Float.

(** ** Geometry and images (image.py) *)

Module Extent.
Record t := mk { width : Z; height : Z }.
End Extent.

Module Bounds.
Record t := mk { x : Z; y : Z; width : Z; height : Z }.
Definition extent (b : t) : Extent.t := Extent.mk (width b) (height b).
(** [Bounds(x, y, *extent)] *)
Definition of_extent (x y : Z) (e : Extent.t) : t :=
  mk x y (Extent.width e) (Extent.height e).
End Bounds.

(** Pixel data is opaque; an image is known by a handle and its extent. *)
Record Image := { image_data : Z; image_extent : Extent.t }.

(** A mask carries the bounds it covers; [_generate] rewrites them. *)
Record Mask := { mask_bounds : Bounds.t; mask_data : Z }.

Definition with_mask_bounds (b : Bounds.t) (m : Mask) : Mask :=
  {| mask_bounds := b; mask_data := mask_data m |}.

(** A [krita.Node] handle. *)
Record Node := { uniqueId : Z; node_type : string }.

(** ** Enumerations *)

Module Workspace.
Inductive t := generation | upscaling | live.
Definition eqb (a b : t) : bool :=
  match a, b with
  | generation, generation | upscaling, upscaling | live, live => true
  | _, _ => false
  end.
End Workspace.

Module JobKind.
Inductive t := diffusion | control_layer | upscaling | live_preview.
End JobKind.

Module JobState.
Inductive t := queued | executing | finished | cancelled.
Definition eqb (a b : t) : bool :=
  match a, b with
  | queued, queued | executing, executing
  | finished, finished | cancelled, cancelled => true
  | _, _ => false
  end.
End JobState.

Module ClientEvent.
Inductive t := progress | finished | interrupted | error.
Definition t_eq_dec_finished (e : t) : {e = finished} + {e <> finished}.
Proof. destruct e; (now left) || (right; discriminate). Defined.
End ClientEvent.

Module ControlMode.
Inductive t := reference | blur | pose | other (name : string).
Definition is_pose (m : t) : bool :=
  match m with pose => true | _ => false end.
Definition projected (m : t) : bool :=
  match m with reference | blur => true | _ => false end.
End ControlMode.

Module SDVersion.
Inductive t := sd15 | sdxl.
End SDVersion.

(** ** Conditioning and work items (workflow.py) *)

Definition Style := string.

(** The image of one control input, cropped to the request bounds. *)
Record Control := { control_mode : ControlMode.t; control_image : Image }.

Module Conditioning.
Record t := mk {
  prompt : string;
  negative_prompt : string;
  control : list Control;
  area : option Bounds.t }.
Definition with_area (a : option Bounds.t) (c : t) : t :=
  mk (prompt c) (negative_prompt c) (control c) a.
End Conditioning.

(** Modelled from the spec: the workflow builder is an external collaborator
    ([buildGenerate/refine/inpaint/refineRegion], [buildUpscale*],
    [buildControlImage]) that is pure and deterministic; a work item is
    therefore recorded as the builder call that made it.  The item's [seed]
    attribute, which [_generate] reads and rewrites, starts as the seed the
    builder was given. *)
Module Workflow.
Inductive graph :=
| generate (style : Style) (extent : Extent.t) (cond : Conditioning.t)
    (is_live : bool)
| refine (style : Style) (image : Image) (cond : Conditioning.t)
    (strength : float) (is_live : bool)
| inpaint (style : Style) (image : Image) (mask : Mask)
    (cond : Conditioning.t)
| refine_region (style : Style) (image : Image) (mask : Mask)
    (cond : Conditioning.t) (strength : float) (is_live : bool)
| upscale_tiled (image : Image) (upscaler : string) (factor : float)
    (style : Style) (strength : float)
| upscale_simple (image : Image) (upscaler : string) (factor : float)
| create_control_image (image : Image) (mode : ControlMode.t)
    (bounds : option Bounds.t).
Record t := mk { nodes : graph; seed : Z }.
Definition with_seed (s : Z) (w : t) : t := mk (nodes w) s.
End Workflow.

(** The four generation operations of [_generate]. *)
Inductive Mode := mode_generate | mode_refine | mode_inpaint | mode_refine_region.

Definition mode_of (w : Workflow.t) : option Mode :=
  match Workflow.nodes w with
  | Workflow.generate _ _ _ _ => Some mode_generate
  | Workflow.refine _ _ _ _ _ => Some mode_refine
  | Workflow.inpaint _ _ _ _ => Some mode_inpaint
  | Workflow.refine_region _ _ _ _ _ _ => Some mode_refine_region
  | _ => None
  end.

(** ** Jobs (jobs.py) and control layers (control.py) *)

(** A reference to a Python object in one of the stores below. *)
Definition ref := nat.

Module ControlLayer.
Record t := mk { mode : ControlMode.t; layer : Node; layer_id : option Z }.
Definition with_layer_id (i : Z) (c : t) : t := mk (mode c) (layer c) (Some i).
End ControlLayer.

Module JobParams.
Record t := mk {
  bounds : Bounds.t;
  prompt : string;
  negative_prompt : string;
  strength : float;
  seed : Z }.
End JobParams.

Module Job.
Record t := mk {
  id : option string;
  kind : JobKind.t;
  state : JobState.t;
  params : JobParams.t;
  control : option ref;
  results : list Image }.
Definition with_id (i : option string) (j : t) : t :=
  mk i (kind j) (state j) (params j) (control j) (results j).
Definition with_state (s : JobState.t) (j : t) : t :=
  mk (id j) (kind j) s (params j) (control j) (results j).
Definition with_results (r : list Image) (j : t) : t :=
  mk (id j) (kind j) (state j) (params j) (control j) r.
End Job.

Module JobQueue.
(** [JobQueue.Item]: a selected result of a job. *)
Record Item := mk_item { job : string; image : Z }.
(** [_entries] holds references: a job stays the same object while its
    state and results change, and after it has left the queue. *)
Record t := mk { entries : list ref; selection : option Item }.
Definition with_entries (e : list ref) (q : t) : t := mk e (selection q).
Definition with_selection (s : option Item) (q : t) : t := mk (entries q) s.
End JobQueue.

(** ** Messages of the remote worker (client.py) *)

Module ClientMessage.
Record t := mk {
  event : ClientEvent.t;
  job_id : string;
  progress : float;
  images : option (list Image);
  result : option string;
  error : option string }.
End ClientMessage.

(** ** Settings (settings.py) *)

Module Settings.
Record t := mk {
  selection_grow : Z;
  selection_feather : Z;
  selection_padding : Z;
  batch_size : Z;
  auto_preview : bool;
  new_seed_after_apply : bool }.
End Settings.

Record UpscaleParams := {
  up_upscaler : string;
  up_factor : float;
  up_use_diffusion : bool;
  up_strength : float;
  up_target_extent : Extent.t;
  up_seed : Z }.

(** ** Coroutines

    A coroutine is either not yet started or suspended at one of its
    [await]s, with the local variables that are still live there. *)
Inductive Coroutine :=
| co_generate (bounds : Bounds.t) (conditioning : Conditioning.t)
    (strength : float) (image : option Image) (mask : option Mask)
    (seed : Z) (count : Z) (is_live : bool)
| co_generate_enqueue (job : Workflow.t) (job_kind : JobKind.t)
    (pos neg : string) (bounds : Bounds.t) (strength : float)
    (seed : Z) (i : Z) (count : Z)
| co_upscale_image (job : ref) (image : Image) (params : UpscaleParams)
| co_upscale_enqueue (job : ref)
| co_generate_control_layer (job : ref) (image : Image)
    (mode : ControlMode.t) (bounds : option Bounds.t)
| co_control_enqueue (job : ref)
| co_insert_frames (layer : Node) (frames : list (Image * Bounds.t))
| co_insert_process_events (layer : Node) (frames : list (Image * Bounds.t))
| co_insert_wait (layer : Node) (restore : Node)
    (frames : list (Image * Bounds.t)).

(** What the event loop hands to a coroutine when it runs it again. *)
Inductive Resumption :=
| started
| enqueued (job_id : string)
| network_error (message url : string) (code : Z)
| events_processed
| polled.

(** ** Observable calls into the collaborators *)

Inductive HostCall :=
| insert_layer (name : string) (content : option (Image * Bounds.t))
    (make_active : bool) (below : option Node) (created : Node)
| insert_vector_layer (name : string) (svg : string) (created : Node)
| set_layer_content (layer : Node) (image : Image) (bounds : Bounds.t)
| move_to_top (layer : Node)
| hide_layer (layer : Node)
| resize (extent : Extent.t)
| setName (layer : Node) (name : string)
| setLocked (layer : Node) (locked : bool)
| remove (layer : Node)
| enableAnimation (layer : Node)
| setPinnedToTimeline (layer : Node) (pinned : bool)
| trigger (action : string).

(** What is written to the client log: the report of a message for an
    unknown job, and the text of a failure. *)
Inductive LogEntry :=
| message_for_unknown_job (message : ClientMessage.t)
| failure (text : string).

Inductive Effect :=
| logged (entry : LogEntry)
| clear_queue
| interrupt
| enqueue (work : Workflow.t)
| run (task : Coroutine)
| host (call : HostCall).

(** ** The host document (document.py) *)

(** Arguments of [create_mask_from_selection]; [None] is an argument left at
    its default. *)
Record SelectionArgs := {
  sel_grow : float;
  sel_feather : float;
  sel_padding : float;
  sel_min_size : option Z;
  sel_square : option bool;
  sel_multiple : option Z }.

(** Modelled from the spec: the host document is an external collaborator.
    Its state is what the orchestration reads back ([extent], [is_active],
    the active layer, the nodes that still have a parent, the timeline cursor
    and end, the keyframes), and its answers that depend on pixels or on the
    selection are functions the host supplies. *)
Module Document.
Record t := mk {
  extent : Extent.t;
  is_active : bool;
  color_mode : bool * option string;
  active_layer : Node;
  nodes : list Node;
  next_id : Z;
  current_time : Z;
  end_time : Z;
  keyframes : list (Node * Z);
  mask_from_selection : SelectionArgs -> option Mask * option Bounds.t;
  mask_from_layer : float -> bool -> option Mask * Bounds.t * option Bounds.t;
  image : Bounds.t -> list Node -> Image;
  control_image : ControlLayer.t -> Bounds.t -> Control;
  last_keyframe : Node -> Z }.

Definition with_extent (v : Extent.t) (d : t) : t :=
  mk v (is_active d) (color_mode d) (active_layer d) (nodes d) (next_id d)
     (current_time d) (end_time d) (keyframes d) (mask_from_selection d)
     (mask_from_layer d) (image d) (control_image d) (last_keyframe d).
Definition with_active_layer (v : Node) (d : t) : t :=
  mk (extent d) (is_active d) (color_mode d) v (nodes d) (next_id d)
     (current_time d) (end_time d) (keyframes d) (mask_from_selection d)
     (mask_from_layer d) (image d) (control_image d) (last_keyframe d).
Definition with_nodes (v : list Node) (d : t) : t :=
  mk (extent d) (is_active d) (color_mode d) (active_layer d) v (next_id d)
     (current_time d) (end_time d) (keyframes d) (mask_from_selection d)
     (mask_from_layer d) (image d) (control_image d) (last_keyframe d).
Definition with_next_id (v : Z) (d : t) : t :=
  mk (extent d) (is_active d) (color_mode d) (active_layer d) (nodes d) v
     (current_time d) (end_time d) (keyframes d) (mask_from_selection d)
     (mask_from_layer d) (image d) (control_image d) (last_keyframe d).
Definition with_current_time (v : Z) (d : t) : t :=
  mk (extent d) (is_active d) (color_mode d) (active_layer d) (nodes d)
     (next_id d) v (end_time d) (keyframes d) (mask_from_selection d)
     (mask_from_layer d) (image d) (control_image d) (last_keyframe d).
Definition with_end_time (v : Z) (d : t) : t :=
  mk (extent d) (is_active d) (color_mode d) (active_layer d) (nodes d)
     (next_id d) (current_time d) v (keyframes d) (mask_from_selection d)
     (mask_from_layer d) (image d) (control_image d) (last_keyframe d).
Definition with_keyframes (v : list (Node * Z)) (d : t) : t :=
  mk (extent d) (is_active d) (color_mode d) (active_layer d) (nodes d)
     (next_id d) (current_time d) (end_time d) v (mask_from_selection d)
     (mask_from_layer d) (image d) (control_image d) (last_keyframe d).
End Document.

Definition node_eqb (a b : Node) : bool := uniqueId a =? uniqueId b.

(** ** The remote worker client (client.py, connection.py) *)

Record Client := {
  default_upscaler : string;
  sd_version : Style -> SDVersion.t }.

(** ** Model, UpscaleWorkspace, LiveWorkspace: the attributes *)

Module Model.
Record t := mk {
  _layer : option Node;
  workspace : Workspace.t;
  style : Style;
  prompt : string;
  negative_prompt : string;
  control : list ref;
  strength : float;
  batch_count : Z;
  seed : Z;
  fixed_seed : bool;
  progress : float;
  jobs : JobQueue.t;
  error : string }.

Definition with_layer (v : option Node) (m : t) : t :=
  mk v (workspace m) (style m) (prompt m) (negative_prompt m) (control m)
     (strength m) (batch_count m) (seed m) (fixed_seed m) (progress m)
     (jobs m) (error m).
Definition with_workspace (v : Workspace.t) (m : t) : t :=
  mk (_layer m) v (style m) (prompt m) (negative_prompt m) (control m)
     (strength m) (batch_count m) (seed m) (fixed_seed m) (progress m)
     (jobs m) (error m).
Definition with_seed (v : Z) (m : t) : t :=
  mk (_layer m) (workspace m) (style m) (prompt m) (negative_prompt m)
     (control m) (strength m) (batch_count m) v (fixed_seed m) (progress m)
     (jobs m) (error m).
Definition with_progress (v : float) (m : t) : t :=
  mk (_layer m) (workspace m) (style m) (prompt m) (negative_prompt m)
     (control m) (strength m) (batch_count m) (seed m) (fixed_seed m) v
     (jobs m) (error m).
Definition with_jobs (v : JobQueue.t) (m : t) : t :=
  mk (_layer m) (workspace m) (style m) (prompt m) (negative_prompt m)
     (control m) (strength m) (batch_count m) (seed m) (fixed_seed m)
     (progress m) v (error m).
Definition with_error (v : string) (m : t) : t :=
  mk (_layer m) (workspace m) (style m) (prompt m) (negative_prompt m)
     (control m) (strength m) (batch_count m) (seed m) (fixed_seed m)
     (progress m) (jobs m) v.
End Model.

Module UpscaleWorkspace.
Record t := mk {
  upscaler : string;
  factor : float;
  use_diffusion : bool;
  strength : float }.
End UpscaleWorkspace.

Module LiveWorkspace.
Record t := mk {
  _is_active : bool;
  _is_recording : bool;
  strength : float;
  has_result : bool;
  _result : option Image;
  _result_bounds : option Bounds.t;
  _recording_layer : option Node;
  _keyframes : list (Image * Bounds.t) }.

Definition with_is_active (v : bool) (l : t) : t :=
  mk v (_is_recording l) (strength l) (has_result l) (_result l)
     (_result_bounds l) (_recording_layer l) (_keyframes l).
Definition with_is_recording (v : bool) (l : t) : t :=
  mk (_is_active l) v (strength l) (has_result l) (_result l)
     (_result_bounds l) (_recording_layer l) (_keyframes l).
Definition with_result (i : Image) (b : Bounds.t) (l : t) : t :=
  mk (_is_active l) (_is_recording l) (strength l) true (Some i) (Some b)
     (_recording_layer l) (_keyframes l).
Definition with_recording_layer (v : option Node) (l : t) : t :=
  mk (_is_active l) (_is_recording l) (strength l) (has_result l)
     (_result l) (_result_bounds l) v (_keyframes l).
Definition with_keyframes (v : list (Image * Bounds.t)) (l : t) : t :=
  mk (_is_active l) (_is_recording l) (strength l) (has_result l)
     (_result l) (_result_bounds l) (_recording_layer l) v.
End LiveWorkspace.

(** ** The program state *)

Record World := mk_world {
  settings : Settings.t;
  client : Client;
  job_objects : list Job.t;
  control_objects : list ControlLayer.t;
  document : Document.t;
  model : Model.t;
  upscale : UpscaleWorkspace.t;
  live : LiveWorkspace.t;
  tasks : list Coroutine;
  effects : list Effect;
  entropy : nat -> Z;
  draws : nat }.

Definition with_job_objects (v : list Job.t) (w : World) : World :=
  mk_world (settings w) (client w) v (control_objects w) (document w)
    (model w) (upscale w) (live w) (tasks w) (effects w) (entropy w) (draws w).
Definition with_control_objects (v : list ControlLayer.t) (w : World) : World :=
  mk_world (settings w) (client w) (job_objects w) v (document w) (model w)
    (upscale w) (live w) (tasks w) (effects w) (entropy w) (draws w).
Definition with_document (v : Document.t) (w : World) : World :=
  mk_world (settings w) (client w) (job_objects w) (control_objects w) v
    (model w) (upscale w) (live w) (tasks w) (effects w) (entropy w) (draws w).
Definition with_model (v : Model.t) (w : World) : World :=
  mk_world (settings w) (client w) (job_objects w) (control_objects w)
    (document w) v (upscale w) (live w) (tasks w) (effects w) (entropy w)
    (draws w).
Definition with_live (v : LiveWorkspace.t) (w : World) : World :=
  mk_world (settings w) (client w) (job_objects w) (control_objects w)
    (document w) (model w) (upscale w) v (tasks w) (effects w) (entropy w)
    (draws w).
Definition with_tasks (v : list Coroutine) (w : World) : World :=
  mk_world (settings w) (client w) (job_objects w) (control_objects w)
    (document w) (model w) (upscale w) (live w) v (effects w) (entropy w)
    (draws w).
Definition with_effects (v : list Effect) (w : World) : World :=
  mk_world (settings w) (client w) (job_objects w) (control_objects w)
    (document w) (model w) (upscale w) (live w) (tasks w) v (entropy w)
    (draws w).
Definition with_draws (v : nat) (w : World) : World :=
  mk_world (settings w) (client w) (job_objects w) (control_objects w)
    (document w) (model w) (upscale w) (live w) (tasks w) (effects w)
    (entropy w) v.

(** ** State and exceptions

    A raised exception carries the state at the point of the [raise]: what
    was mutated before stays mutated. *)

Inductive Exception :=
| AssertionError (message : string)
| IndexError
| ValueError
| RecursionError
| NetworkError (message url : string) (code : Z)
| ReferenceError.

Inductive Outcome (A : Type) :=
| Ok (a : A) (w : World)
| Raised (e : Exception) (w : World).
Arguments Ok {A} a w.
Arguments Raised {A} e w.

Definition M (A : Type) : Type := World -> Outcome A.

Definition ret {A} (a : A) : M A := fun w => Ok a w.
Definition bind {A B} (c : M A) (k : A -> M B) : M B :=
  fun w => match c w with
           | Ok a w' => k a w'
           | Raised e w' => Raised e w'
           end.
Definition raise {A} (e : Exception) : M A := fun w => Raised e w.
Definition get : M World := fun w => Ok w w.
Definition gets {A} (f : World -> A) : M A := fun w => Ok (f w) w.
Definition modify (f : World -> World) : M unit := fun w => Ok tt (f w).

Declare Scope py_scope.
Delimit Scope py_scope with py.
Notation "x <- c ;; k" := (bind c (fun x => k))
  (at level 61, c at next level, right associativity) : py_scope.
Notation "c ;; k" := (bind c (fun _ => k))
  (at level 61, right associativity) : py_scope.
Local Open Scope py_scope.

Definition assert (b : bool) (message : string) : M unit :=
  if b then ret tt else raise (AssertionError message).
Definition when (b : bool) (c : M unit) : M unit :=
  if b then c else ret tt.

(** [for x in xs: body x] *)
Fixpoint for_each {A} (xs : list A) (body : A -> M unit) : M unit :=
  match xs with
  | [] => ret tt
  | x :: rest => body x ;; for_each rest body
  end.

(** The state an outcome leaves behind, whether it returned or raised. *)
Definition state_of {A} (o : Outcome A) : World :=
  match o with Ok _ w => w | Raised _ w => w end.

Definition returned {A} (o : Outcome A) : bool :=
  match o with Ok _ _ => true | Raised _ _ => false end.

Definition effect (e : Effect) : M unit :=
  modify (fun w => with_effects (effects w ++ [e]) w).

Definition update_model (f : Model.t -> Model.t) : M unit :=
  modify (fun w => with_model (f (model w)) w).
Definition update_live (f : LiveWorkspace.t -> LiveWorkspace.t) : M unit :=
  modify (fun w => with_live (f (live w)) w).
Definition update_document (f : Document.t -> Document.t) : M unit :=
  modify (fun w => with_document (f (document w)) w).
Definition update_jobs (f : JobQueue.t -> JobQueue.t) : M unit :=
  update_model (fun m => Model.with_jobs (f (Model.jobs m)) m).

(** ** The object stores

    [ReferenceError] stands for the use of a reference that no allocation
    returned; the methods below only use references they were handed. *)

Definition job_at (r : ref) (w : World) : option Job.t :=
  nth_error (job_objects w) r.

Definition read_job (r : ref) : M Job.t :=
  fun w => match job_at r w with
           | Some j => Ok j w
           | None => Raised ReferenceError w
           end.

Fixpoint replace_at {A} (n : nat) (f : A -> A) (l : list A) : list A :=
  match l, n with
  | [], _ => []
  | a :: rest, O => f a :: rest
  | a :: rest, S n' => a :: replace_at n' f rest
  end.

Definition write_job (r : ref) (f : Job.t -> Job.t) : M unit :=
  modify (fun w => with_job_objects (replace_at r f (job_objects w)) w).

Definition new_job (j : Job.t) : M ref :=
  fun w => Ok (List.length (job_objects w))
              (with_job_objects (job_objects w ++ [j]) w).

Definition control_at (r : ref) (w : World) : option ControlLayer.t :=
  nth_error (control_objects w) r.

Definition read_control (r : ref) : M ControlLayer.t :=
  fun w => match control_at r w with
           | Some c => Ok c w
           | None => Raised ReferenceError w
           end.

Definition write_control (r : ref) (f : ControlLayer.t -> ControlLayer.t)
  : M unit :=
  modify (fun w => with_control_objects (replace_at r f (control_objects w)) w).

(** [for c in self.control]: the control layers of the model, in order. *)
Fixpoint lookup_all {A} (store : list A) (rs : list ref) : list A :=
  match rs with
  | [] => []
  | r :: rest =>
      match nth_error store r with
      | Some a => a :: lookup_all store rest
      | None => lookup_all store rest
      end
  end.

Definition controls (w : World) : list ControlLayer.t :=
  lookup_all (control_objects w) (Model.control (model w)).

(** ** JobQueue (jobs.py) *)

Definition entries (w : World) : list ref :=
  JobQueue.entries (Model.jobs (model w)).

Definition id_eqb (a b : option string) : bool :=
  match a, b with
  | Some x, Some y => String.eqb x y
  | None, None => true
  | _, _ => false
  end.

Definition has_state (s : JobState.t) (w : World) (r : ref) : bool :=
  match job_at r w with
  | Some j => JobState.eqb (Job.state j) s
  | None => false
  end.

(** Modelled from the spec: [JobQueue.find], the job id lookup of the event
    router: the first tracked job with that id, [None] when there is none. *)
Definition find (job_id : string) (w : World) : option ref :=
  List.find (fun r => match job_at r w with
                      | Some j => id_eqb (Job.id j) (Some job_id)
                      | None => false
                      end) (entries w).

(** Modelled from the spec: [JobQueue.any_executing], whether a tracked job
    is in the executing state. *)
Definition any_executing (w : World) : bool :=
  existsb (has_state JobState.executing w) (entries w).

(** Modelled from the spec: the insertions of [JobQueue]; a new job record
    is queued, has no results, and goes to the end of the collection. *)
Definition _add (j : Job.t) : M ref :=
  r <- new_job j ;;
  update_jobs (fun q => JobQueue.with_entries (JobQueue.entries q ++ [r]) q) ;;
  ret r.

Definition add (kind : JobKind.t) (id : string) (prompt negative : string)
    (bounds : Bounds.t) (strength : float) (seed : Z) : M ref :=
  _add (Job.mk (Some id) kind JobState.queued
          (JobParams.mk bounds prompt negative strength seed) None []).

Definition add_control (control : ref) (bounds : Bounds.t) : M ref :=
  _add (Job.mk None JobKind.control_layer JobState.queued
          (JobParams.mk bounds "" "" Float.one 0) (Some control) []).

Definition add_upscale (bounds : Bounds.t) (seed : Z) : M ref :=
  _add (Job.mk None JobKind.upscaling JobState.queued
          (JobParams.mk bounds "" "" Float.one seed) None []).

Fixpoint remove_first (r : ref) (l : list ref) : option (list ref) :=
  match l with
  | [] => None
  | a :: rest =>
      if Nat.eqb a r then Some rest
      else match remove_first r rest with
           | Some rest' => Some (a :: rest')
           | None => None
           end
  end.

(** Modelled from the spec: [JobQueue.remove] takes the job object out of
    the collection; like Python's [remove] it raises [ValueError] when the
    object is not in it. *)
Definition remove_job (r : ref) : M unit :=
  w <- get ;;
  match remove_first r (entries w) with
  | Some rest => update_jobs (JobQueue.with_entries rest)
  | None => raise ValueError
  end.

(** Modelled from the spec: [JobQueue.set_results] attaches the images as
    the job's result sequence. *)
Definition set_results (r : ref) (images : list Image) : M unit :=
  write_job r (Job.with_results images).

(** Modelled from the spec: [JobQueue.notify_started]: a queued job becomes
    executing. *)
Definition notify_started (r : ref) : M unit :=
  j <- read_job r ;;
  when (JobState.eqb (Job.state j) JobState.queued)
       (write_job r (Job.with_state JobState.executing)).

(** Modelled from the spec: [JobQueue.notify_cancelled]: the job becomes
    cancelled. *)
Definition notify_cancelled (r : ref) : M unit :=
  write_job r (Job.with_state JobState.cancelled).

(** ** Calls into the host document *)

Definition attached (n : Node) (d : Document.t) : bool :=
  existsb (node_eqb n) (Document.nodes d).

Definition hasKeyframeAtTime (layer : Node) (time : Z) (d : Document.t) : bool :=
  existsb (fun k => node_eqb (fst k) layer && (snd k =? time))
          (Document.keyframes d).

Definition fresh_node (type : string) : M Node :=
  w <- get ;;
  let n := {| uniqueId := Document.next_id (document w); node_type := type |} in
  update_document (fun d =>
    Document.with_nodes (n :: Document.nodes d)
      (Document.with_next_id (Document.next_id d + 1) d)) ;;
  ret n.

(** Modelled from the spec: [Document.insert_layer(name, image, bounds,
    make_active, below)] puts a new layer into the document, which becomes
    the active layer unless [make_active] is false. *)
Definition doc_insert_layer (name : string) (content : option (Image * Bounds.t))
    (make_active : bool) (below : option Node) : M Node :=
  n <- fresh_node "paintlayer" ;;
  effect (host (insert_layer name content make_active below n)) ;;
  when make_active (update_document (Document.with_active_layer n)) ;;
  ret n.

Definition doc_insert_vector_layer (name svg : string) : M Node :=
  n <- fresh_node "vectorlayer" ;;
  effect (host (insert_vector_layer name svg n)) ;;
  update_document (Document.with_active_layer n) ;;
  ret n.

Definition doc_resize (e : Extent.t) : M unit :=
  effect (host (resize e)) ;;
  update_document (Document.with_extent e).

Definition node_remove (n : Node) : M unit :=
  effect (host (remove n)) ;;
  update_document (fun d =>
    Document.with_nodes
      (filter (fun k => negb (node_eqb k n)) (Document.nodes d)) d).

(** Modelled from the spec: [RestoreActiveLayer(doc)] remembers the active
    layer when the block is entered and makes it active again when the block
    is left, by its end or by an exception. *)
Definition RestoreActiveLayer {A} (body : M A) : M A :=
  fun w =>
    let previous := Document.active_layer (document w) in
    let restore w' :=
      with_document (Document.with_active_layer previous (document w')) w' in
    match body w with
    | Ok a w' => Ok a (restore w')
    | Raised e w' => Raised e (restore w')
    end.

(** ** The event loop (eventloop.py) *)

(** Modelled from the spec: [eventloop.run(coroutine)] hands the coroutine
    to the event loop as an independent task; its body starts when the loop
    first resumes it, after the caller has returned.  Every task of this
    module is wrapped in [_report_errors], which is applied when the task is
    resumed; see [resume]. *)
Definition eventloop_run (c : Coroutine) : M unit :=
  effect (run c) ;;
  modify (fun w => with_tasks (tasks w ++ [c]) w).

(** ** Model: errors, progress, the current image *)

Definition report_progress (value : float) : M unit :=
  update_model (Model.with_progress value).

Definition clear_error : M unit :=
  w <- get ;;
  when (negb (String.eqb (Model.error (model w)) ""))
       (update_model (Model.with_error "")).

Definition _get_current_image (bounds : Bounds.t) : M Image :=
  w <- get ;;
  let exclude :=
    map ControlLayer.layer
      (filter (fun c => negb (ControlMode.projected (ControlLayer.mode c)))
              (controls w)) in
  let exclude :=
    match Model._layer (model w) with
    | Some l => exclude ++ [l]
    | None => exclude
    end in
  ret (Document.image (document w) bounds exclude).

Definition generate_live : M unit :=
  w <- get ;;
  let ver := sd_version (client w) (Model.style (model w)) in
  let s := settings w in
  let '(mask, _) :=
    Document.mask_from_selection (document w)
      {| sel_grow := Float.div (Float.of_int (Settings.selection_feather s))
                               (Float.of_int 200);
         sel_feather := Float.div (Float.of_int (Settings.selection_feather s))
                                  (Float.of_int 100);
         sel_padding := Float.div (Float.of_int (Settings.selection_padding s))
                                  (Float.of_int 100);
         sel_min_size := Some (match ver with
                               | SDVersion.sd15 => 512
                               | _ => 1024
                               end);
         sel_square := Some true;
         sel_multiple := None |} in
  let bounds :=
    match mask with
    | None => Bounds.of_extent 0 0 (Document.extent (document w))
    | Some m => mask_bounds m
    end in
  image <- (if match mask with Some _ => true | None => false end
               || Float.ltb (LiveWorkspace.strength (live w)) Float.one
            then i <- _get_current_image bounds ;; ret (Some i)
            else ret None) ;;
  let control := map (fun c => Document.control_image (document w) c bounds)
                     (controls w) in
  let cond := Conditioning.mk (Model.prompt (model w))
                (Model.negative_prompt (model w)) control None in
  let generator :=
    co_generate bounds cond (LiveWorkspace.strength (live w)) image mask
      (Model.seed (model w)) 1 true in
  clear_error ;;
  eventloop_run generator.

(** ** LiveWorkspace *)

Definition is_active (w : World) : bool := LiveWorkspace._is_active (live w).
Definition is_recording (w : World) : bool :=
  LiveWorkspace._is_recording (live w).

Definition _add_recording_layer (restore_active : bool) : M Node :=
  w <- get ;;
  when (match LiveWorkspace._recording_layer (live w) with
        | Some l => negb (attached l (document w))
        | None => false
        end)
       (update_live (LiveWorkspace.with_recording_layer None)) ;;
  w <- get ;;
  match LiveWorkspace._recording_layer (live w) with
  | Some l => ret l
  | None =>
      let block :=
        l <- doc_insert_layer
               (String.append "[Recording] " (Model.prompt (model w)))
               None true (Some (Document.active_layer (document w))) ;;
        update_live (LiveWorkspace.with_recording_layer (Some l)) ;;
        effect (host (enableAnimation l)) ;;
        effect (host (setPinnedToTimeline l true)) ;;
        ret l in
      if restore_active then RestoreActiveLayer block else block
  end.

Definition _insert_frames : M unit :=
  w <- get ;;
  match LiveWorkspace._keyframes (live w) with
  | [] => ret tt
  | frames =>
      layer <- _add_recording_layer false ;;
      eventloop_run (co_insert_frames layer frames) ;;
      update_live (LiveWorkspace.with_keyframes [])
  end.

(** The interpreter's bound on nested calls; [toggle] and [toggle_record]
    call each other through the property setters. *)
Definition recursion_limit : nat := 1000.

Fixpoint toggle (depth : nat) (active : bool) : M unit :=
  match depth with
  | O => raise RecursionError
  | S depth =>
      w <- get ;;
      when (negb (Bool.eqb (is_active w) active))
        (update_live (LiveWorkspace.with_is_active active) ;;
         if active then generate_live
         else toggle_record depth false)
  end
with toggle_record (depth : nat) (active : bool) : M unit :=
  match depth with
  | O => raise RecursionError
  | S depth =>
      w <- get ;;
      when (negb (Bool.eqb (is_recording w) active))
        (update_live (LiveWorkspace.with_is_recording active) ;;
         toggle depth active ;;
         if active then _add_recording_layer true ;; ret tt
         else _insert_frames)
  end.

(** [self.is_active = v] and [self.is_recording = v] go through the setters
    named in the property declarations. *)
Definition set_is_active (v : bool) : M unit := toggle recursion_limit v.
Definition set_is_recording (v : bool) : M unit :=
  toggle_record recursion_limit v.

Definition set_result (value : Image) (bounds : Bounds.t) : M unit :=
  update_live (LiveWorkspace.with_result value bounds) ;;
  w <- get ;;
  when (is_recording w)
    (update_live (fun l =>
       LiveWorkspace.with_keyframes
         (LiveWorkspace._keyframes l ++ [(value, bounds)]) l)).

Definition handle_job_finished (job : ref) : M unit :=
  j <- read_job job ;;
  match Job.kind j with
  | JobKind.live_preview =>
      match Job.results j with
      | first :: _ => set_result first (JobParams.bounds (Job.params j))
      | [] => ret tt
      end ;;
      w <- get ;;
      set_is_active (LiveWorkspace._is_active (live w)
                     && Document.is_active (document w)) ;;
      w <- get ;;
      when (is_active w) generate_live
  | _ => ret tt
  end.

(** ** Model.report_error *)

Definition report_error (message : string) : M unit :=
  update_model (Model.with_error message) ;;
  set_is_active false.

(** Modelled from the spec: [JobQueue.notify_finished]: the job becomes
    finished and [job_finished] is emitted; its slot is
    [LiveWorkspace.handle_job_finished], connected in
    [LiveWorkspace.__init__]. *)
Definition notify_finished (r : ref) : M unit :=
  write_job r (Job.with_state JobState.finished) ;;
  handle_job_finished r.

(** ** Model: preview, post-processing, the event router *)

(** [xs[i]] for a Python list. *)
Definition py_index {A} (xs : list A) (i : Z) : M A :=
  let n := Z.of_nat (List.length xs) in
  let k := if i <? 0 then i + n else i in
  if (0 <=? k) && (k <? n)
  then match nth_error xs (Z.to_nat k) with
       | Some a => ret a
       | None => raise IndexError
       end
  else raise IndexError.

Definition show_preview (job_id : string) (index : Z) (name_prefix : string)
  : M unit :=
  w <- get ;;
  match find job_id w with
  | None => raise (AssertionError "Cannot show preview, invalid job id")
  | Some job =>
      j <- read_job job ;;
      let name :=
        String.append "["
          (String.append name_prefix
             (String.append "] " (JobParams.prompt (Job.params j)))) in
      when (match Model._layer (model w) with
            | Some l => negb (attached l (document w))
            | None => false
            end)
           (update_model (Model.with_layer None)) ;;
      w <- get ;;
      match Model._layer (model w) with
      | Some l =>
          effect (host (setName l name)) ;;
          image <- py_index (Job.results j) index ;;
          effect (host (set_layer_content l image
                          (JobParams.bounds (Job.params j)))) ;;
          effect (host (move_to_top l))
      | None =>
          image <- py_index (Job.results j) index ;;
          l <- doc_insert_layer name
                 (Some (image, JobParams.bounds (Job.params j))) false None ;;
          update_model (Model.with_layer (Some l)) ;;
          effect (host (setLocked l true))
      end
  end.

Definition hide_preview : M unit :=
  w <- get ;;
  match Model._layer (model w) with
  | Some l => effect (host (hide_layer l))
  | None => ret tt
  end.

Definition update_preview : M unit :=
  w <- get ;;
  match JobQueue.selection (Model.jobs (model w)) with
  | Some selection =>
      show_preview (JobQueue.job selection) (JobQueue.image selection) "Preview"
  | None => hide_preview
  end.

Definition item_eqb (a b : option JobQueue.Item) : bool :=
  match a, b with
  | Some i, Some j =>
      String.eqb (JobQueue.job i) (JobQueue.job j)
      && (JobQueue.image i =? JobQueue.image j)
  | None, None => true
  | _, _ => false
  end.

(** [signal.emit()] of a [pyqtSignal] with one connected slot: the slot
    runs before [emit] returns, and what it has done to the state stays
    done; an exception raised by the slot is handed to the interpreter's
    exception hook and does not reach the emitter, which goes on after the
    [emit]. *)
Definition emit (slot : M unit) : M unit :=
  fun w =>
    match slot w with
    | Ok _ w' => Ok tt w'
    | Raised _ w' => Ok tt w'
    end.

(** Modelled from the spec: [JobQueue.select] makes a result of a job the
    selection; when that changes the selection, [selection_changed] is
    emitted, whose slot is [Model.update_preview], connected in
    [Model.__init__]. *)
Definition select (job_id : string) (index : Z) : M unit :=
  w <- get ;;
  let item := Some (JobQueue.mk_item job_id index) in
  when (negb (item_eqb (JobQueue.selection (Model.jobs (model w))) item))
    (update_jobs (JobQueue.with_selection item) ;;
     emit update_preview).

Definition truthy (s : option string) : bool :=
  match s with
  | Some t => negb (String.eqb t "")
  | None => false
  end.

Section Orchestration.

(** Pure helpers of modules that are used here but defined elsewhere:
    [workflow.compute_bounds], [Bounds.apply_crop], [Bounds.minimum_size],
    [Extent.__mul__] and the pose decoding
    [Pose.from_open_pose_json(result)], scaled to an extent and rendered
    with [to_svg]. *)
Variable compute_bounds : Extent.t -> option Bounds.t -> float -> Bounds.t.
Variable apply_crop : Bounds.t -> Bounds.t -> Bounds.t.
Variable minimum_size : Bounds.t -> Z -> Extent.t -> Bounds.t.
Variable extent_mul : Extent.t -> float -> Extent.t.
Variable pose_svg : string -> Extent.t -> string.

Definition add_control_layer (job : ref) (result : option string) : M Node :=
  j <- read_job job ;;
  assert (match Job.kind j, Job.control j with
          | JobKind.control_layer, Some _ => true
          | _, _ => false
          end) "" ;;
  match Job.control j with
  | None => raise (AssertionError "")
  | Some cr =>
      control <- read_control cr ;;
      let params := Job.params j in
      match ControlMode.is_pose (ControlLayer.mode control), result with
      | true, Some json =>
          doc_insert_vector_layer (JobParams.prompt params)
            (pose_svg json (Bounds.extent (JobParams.bounds params)))
      | _, _ =>
          match Job.results j with
          | first :: _ =>
              doc_insert_layer (JobParams.prompt params)
                (Some (first, JobParams.bounds params)) true None
          | [] =>
              (* Execution was cached and no image was produced *)
              w <- get ;; ret (Document.active_layer (document w))
          end
      end
  end.

Definition add_upscale_layer (job : ref) : M unit :=
  j <- read_job job ;;
  assert (match Job.kind j with JobKind.upscaling => true | _ => false end)
         "" ;;
  assert (0 <? Z.of_nat (List.length (Job.results j)))
         "Upscaling job did not produce an image" ;;
  w <- get ;;
  match Model._layer (model w) with
  | Some l => node_remove l ;; update_model (Model.with_layer None)
  | None => ret tt
  end ;;
  doc_resize (Bounds.extent (JobParams.bounds (Job.params j))) ;;
  first <- py_index (Job.results j) 0 ;;
  doc_insert_layer (JobParams.prompt (Job.params j))
    (Some (first, JobParams.bounds (Job.params j))) true None ;;
  ret tt.

(** [handle_message], once the job of the message has been found. *)
Definition handle_message_of_job (message : ClientMessage.t) (job : ref)
  : M unit :=
  match ClientMessage.event message with
  | ClientEvent.progress =>
      notify_started job ;;
      report_progress (ClientMessage.progress message)
  | ClientEvent.finished =>
      match ClientMessage.images message with
      | Some (i :: rest) => set_results job (i :: rest)
      | _ => ret tt
      end ;;
      j <- read_job job ;;
      match Job.kind j with
      | JobKind.control_layer =>
          match Job.control j with
          | None => raise (AssertionError "")
          | Some cr =>
              l <- add_control_layer job (ClientMessage.result message) ;;
              write_control cr (ControlLayer.with_layer_id (uniqueId l))
          end
      | JobKind.upscaling => add_upscale_layer job
      | _ => ret tt
      end ;;
      update_model (Model.with_progress Float.one) ;;
      notify_finished job ;;
      match Job.kind j with
      | JobKind.diffusion =>
          w <- get ;;
          match Job.id j with
          | Some id =>
              when (Settings.auto_preview (settings w)
                    && match Model._layer (model w) with
                       | None => true
                       | Some _ => false
                       end
                    && truthy (Job.id j))
                   (select id 0)
          | None => ret tt
          end
      | _ => remove_job job
      end
  | ClientEvent.interrupted =>
      notify_cancelled job ;;
      report_progress Float.zero
  | ClientEvent.error =>
      notify_cancelled job ;;
      report_error
        (String.append "Server execution error: "
           match ClientMessage.error message with
           | Some e => e
           | None => "None"
           end)
  end.

Definition handle_message (message : ClientMessage.t) : M unit :=
  w <- get ;;
  match find (ClientMessage.job_id message) w with
  | None => effect (logged (message_for_unknown_job message))
  | Some job => handle_message_of_job message job
  end.

Definition cancel (active queued : bool) : M unit :=
  when queued
    (w <- get ;;
     let to_remove := filter (has_state JobState.queued w) (entries w) in
     when (0 <? Z.of_nat (List.length to_remove))
       (effect clear_queue ;;
        for_each to_remove remove_job)) ;;
  w <- get ;;
  when (active && any_executing w) (effect interrupt).

(** [workflow.generate_seed()]: the next value of the random source. *)
Definition workflow_generate_seed : M Z :=
  w <- get ;;
  modify (with_draws (S (draws w))) ;;
  ret (entropy w (draws w)).

Definition generate_seed : M unit :=
  s <- workflow_generate_seed ;;
  update_model (Model.with_seed s).

Definition percent (n : Z) : float :=
  Float.div (Float.of_int n) (Float.of_int 100).

Definition generate : M unit :=
  w <- get ;;
  let '(ok, msg) := Document.color_mode (document w) in
  if negb ok && truthy msg then
    report_error (match msg with Some s => s | None => "" end)
  else
    let m := model w in
    let s := settings w in
    let extent := Document.extent (document w) in
    let '(mask, image_bounds, selection_bounds) :=
      if String.eqb (node_type (Document.active_layer (document w)))
                    "selectionmask"
      then Document.mask_from_layer (document w)
             (percent (Settings.selection_padding s))
             (Float.eqb (Model.strength m) Float.one)
      else
        let '(mask, selection_bounds) :=
          Document.mask_from_selection (document w)
            {| sel_grow := percent (Settings.selection_grow s);
               sel_feather := percent (Settings.selection_feather s);
               sel_padding := percent (Settings.selection_padding s);
               sel_min_size := Some 64;
               sel_square := None;
               sel_multiple := None |} in
        (mask,
         compute_bounds extent (option_map mask_bounds mask)
           (Model.strength m),
         selection_bounds) in
    image <- (if match mask with Some _ => true | None => false end
                 || Float.ltb (Model.strength m) Float.one
              then i <- _get_current_image image_bounds ;; ret (Some i)
              else ret None) ;;
    let selection_bounds :=
      match selection_bounds with
      | Some b =>
          Some (minimum_size (apply_crop b image_bounds) 64
                  (Bounds.extent image_bounds))
      | None => None
      end in
    let control :=
      map (fun c => Document.control_image (document w) c image_bounds)
          (controls w) in
    let conditioning :=
      Conditioning.mk (Model.prompt m) (Model.negative_prompt m) control
        (if Float.eqb (Model.strength m) Float.one
         then selection_bounds else None) in
    seed <- (if Model.fixed_seed m then ret (Model.seed m)
             else workflow_generate_seed) ;;
    let generator :=
      co_generate image_bounds conditioning (Model.strength m) image mask
        seed (Model.batch_count m) false in
    clear_error ;;
    eventloop_run generator.

Definition target_extent (w : World) : Extent.t :=
  extent_mul (Document.extent (document w))
             (UpscaleWorkspace.factor (upscale w)).

Definition params : M UpscaleParams :=
  w <- get ;;
  seed <- (if Model.fixed_seed (model w) then ret (Model.seed (model w))
           else workflow_generate_seed) ;;
  ret {| up_upscaler := UpscaleWorkspace.upscaler (upscale w);
         up_factor := UpscaleWorkspace.factor (upscale w);
         up_use_diffusion := UpscaleWorkspace.use_diffusion (upscale w);
         up_strength := UpscaleWorkspace.strength (upscale w);
         up_target_extent := target_extent w;
         up_seed := seed |}.

Definition upscale_image : M unit :=
  p <- params ;;
  w <- get ;;
  let image :=
    Document.image (document w)
      (Bounds.of_extent 0 0 (Document.extent (document w))) [] in
  job <- add_upscale (Bounds.of_extent 0 0 (target_extent w)) (up_seed p) ;;
  clear_error ;;
  eventloop_run (co_upscale_image job image p).

Definition generate_control_layer (control : ref) : M (option ref) :=
  w <- get ;;
  let '(ok, msg) := Document.color_mode (document w) in
  if negb ok && truthy msg then
    report_error (match msg with Some s => s | None => "" end) ;;
    ret None
  else
    let image :=
      Document.image (document w)
        (Bounds.of_extent 0 0 (Document.extent (document w))) [] in
    let '(mask, _) :=
      Document.mask_from_selection (document w)
        {| sel_grow := Float.zero;
           sel_feather := Float.zero;
           sel_padding := Float.div Float.one (Float.of_int 4);
           sel_min_size := None;
           sel_square := None;
           sel_multiple := Some 64 |} in
    let bounds := option_map mask_bounds mask in
    job <- add_control control (Bounds.of_extent 0 0 (image_extent image)) ;;
    c <- read_control control ;;
    let generator :=
      co_generate_control_layer job image (ControlLayer.mode c) bounds in
    clear_error ;;
    eventloop_run generator ;;
    ret (Some job).

Definition set_workspace (workspace : Workspace.t) : M unit :=
  w <- get ;;
  when (Workspace.eqb (Model.workspace (model w)) Workspace.live)
       (set_is_active false) ;;
  update_model (Model.with_workspace workspace).

(** ** The coroutines *)

(** The choice of operation in [_generate]: the chain of tests on
    [image], [mask], [strength] and [is_live], with its assertions. *)
Definition _generate_job (style : Style) (bounds : Bounds.t)
    (conditioning : Conditioning.t) (strength : float)
    (image : option Image) (mask : option Mask) (seed : Z) (is_live : bool)
  : M Workflow.t :=
  match image, mask with
  | None, None =>
      assert (Float.eqb strength Float.one) "" ;;
      ret (Workflow.mk
             (Workflow.generate style (Bounds.extent bounds) conditioning
                is_live) seed)
  | _, _ =>
      if match mask with None => true | Some _ => false end
         && Float.ltb strength Float.one
      then
        match image with
        | Some img =>
            ret (Workflow.mk
                   (Workflow.refine style img conditioning strength is_live)
                   seed)
        | None => raise (AssertionError "")
        end
      else if Float.eqb strength Float.one && negb is_live
      then
        match image, mask with
        | Some img, Some m =>
            ret (Workflow.mk (Workflow.inpaint style img m conditioning) seed)
        | _, _ => raise (AssertionError "")
        end
      else
        match image, mask with
        | Some img, Some m =>
            ret (Workflow.mk
                   (Workflow.refine_region style img m conditioning strength
                      is_live) seed)
        | _, _ => raise (AssertionError "")
        end
  end.

(** The head of [for i in range(count)]: either the loop is over, or the
    coroutine sends the work item and waits for the worker's answer. *)
Definition _generate_loop (job : Workflow.t) (job_kind : JobKind.t)
    (pos neg : string) (bounds : Bounds.t) (strength : float) (seed : Z)
    (i count : Z) : M (option Coroutine) :=
  if i <? count then
    effect (enqueue job) ;;
    ret (Some (co_generate_enqueue job job_kind pos neg bounds strength seed
                 i count))
  else ret None.

(** [mask.bounds] relative to the cropped image. *)
Definition mask_bounds_rel (m : Mask) (bounds : Bounds.t) : Bounds.t :=
  Bounds.mk (Bounds.x (mask_bounds m) - Bounds.x bounds)
            (Bounds.y (mask_bounds m) - Bounds.y bounds)
            (Extent.width (Bounds.extent (mask_bounds m)))
            (Extent.height (Bounds.extent (mask_bounds m))).

Definition _generate (bounds : Bounds.t) (conditioning : Conditioning.t)
    (strength : float) (image : option Image) (mask : option Mask)
    (seed : Z) (count : Z) (is_live : bool) : M (option Coroutine) :=
  w <- get ;;
  let style := Model.style (model w) in
  when (negb (any_executing w)) (update_model (Model.with_progress Float.zero)) ;;
  let '(bounds, mask) :=
    match mask with
    | Some m =>
        (mask_bounds m, Some (with_mask_bounds (mask_bounds_rel m bounds) m))
    | None => (bounds, None)
    end in
  job <- _generate_job style bounds conditioning strength image mask seed
           is_live ;;
  let job_kind :=
    if is_live then JobKind.live_preview else JobKind.diffusion in
  _generate_loop job job_kind (Conditioning.prompt conditioning)
    (Conditioning.negative_prompt conditioning) bounds strength seed 0 count.

(** The rest of one iteration, after [client.enqueue] has returned. *)
Definition _generate_enqueued (job : Workflow.t) (job_kind : JobKind.t)
    (pos neg : string) (bounds : Bounds.t) (strength : float) (seed : Z)
    (i count : Z) (job_id : string) : M (option Coroutine) :=
  add job_kind job_id pos neg bounds strength (Workflow.seed job) ;;
  w <- get ;;
  let job :=
    Workflow.with_seed (seed + (i + 1) * Settings.batch_size (settings w))
      job in
  _generate_loop job job_kind pos neg bounds strength seed (i + 1) count.

(** A builder that takes no seed leaves the item's seed at -1. *)
Definition _upscale_image (job : ref) (image : Image) (p : UpscaleParams)
  : M (option Coroutine) :=
  w <- get ;;
  let upscaler :=
    if String.eqb (up_upscaler p) "" then default_upscaler (client w)
    else up_upscaler p in
  let work :=
    if up_use_diffusion p then
      Workflow.mk
        (Workflow.upscale_tiled image upscaler (up_factor p)
           (Model.style (model w)) (up_strength p)) (up_seed p)
    else
      Workflow.mk
        (Workflow.upscale_simple image (up_upscaler p) (up_factor p)) (-1) in
  effect (enqueue work) ;;
  ret (Some (co_upscale_enqueue job)).

Definition _generate_control_layer (job : ref) (image : Image)
    (mode : ControlMode.t) (bounds : option Bounds.t)
  : M (option Coroutine) :=
  let work := Workflow.mk (Workflow.create_control_image image mode bounds)
                          (-1) in
  effect (enqueue work) ;;
  ret (Some (co_control_enqueue job)).

(** [job.id = await client.enqueue(work)], once the answer is there. *)
Definition assign_id (job : ref) (job_id : string) : M (option Coroutine) :=
  write_job job (Job.with_id (Some job_id)) ;;
  ret None.

(** The body of the [for frame in frames] loop of
    [_insert_frames_into_timeline], up to its [await], and what follows
    the loop. *)
Definition _insert_frames_loop (layer restore : Node)
    (frames : list (Image * Bounds.t)) : M (option Coroutine) :=
  match frames with
  | (image, bounds) :: rest =>
      effect (host (set_layer_content layer image bounds)) ;;
      effect (host (trigger "add_duplicate_frame")) ;;
      ret (Some (co_insert_wait layer restore rest))
  | [] =>
      update_document (Document.with_active_layer restore) ;;
      update_document (fun d =>
        Document.with_end_time (Document.current_time d) d) ;;
      ret None
  end.

Definition _insert_frames_into_timeline (layer : Node)
    (frames : list (Image * Bounds.t)) : M (option Coroutine) :=
  update_document (fun d =>
    Document.with_current_time (Document.last_keyframe d layer) d) ;;
  ret (Some (co_insert_process_events layer frames)).

Definition _insert_frames_entered (layer : Node)
    (frames : list (Image * Bounds.t)) : M (option Coroutine) :=
  w <- get ;;
  let restore := Document.active_layer (document w) in
  update_document (Document.with_active_layer layer) ;;
  _insert_frames_loop layer restore frames.

(** [await eventloop.wait_until(lambda: layer.hasKeyframeAtTime(
    doc.current_time))] and the rest of the iteration.  Modelled from the
    spec: the wait has no timeout; the coroutine stays suspended until
    the host shows a keyframe at the cursor. *)
Definition _insert_frames_polled (layer restore : Node)
    (frames : list (Image * Bounds.t)) : M (option Coroutine) :=
  w <- get ;;
  if hasKeyframeAtTime layer (Document.current_time (document w))
       (document w)
  then
    update_document (fun d =>
      Document.with_current_time (Document.current_time d + 1) d) ;;
    _insert_frames_loop layer restore frames
  else ret (Some (co_insert_wait layer restore frames)).

(** [str(e)] *)
Definition str (e : Exception) : string :=
  match e with
  | AssertionError message => message
  | IndexError => "list index out of range"
  | ValueError => "value not in collection"
  | RecursionError => "maximum recursion depth exceeded"
  | NetworkError message _ _ => message
  | ReferenceError => "invalid reference"
  end.

(** Modelled from the spec: [util.log_error] writes the failure to the
    log and returns the text shown to the user. *)
Definition log_error (e : Exception) : M string :=
  let message := String.append "Error: " (str e) in
  effect (logged (failure message)) ;;
  ret message.

(** [_report_errors(parent, coro)], applied to one run of the coroutine
    from a resumption to its next [await] or its end: an exception ends
    the task and is reported. *)
Definition _report_errors (coro : M (option Coroutine))
  : M (option Coroutine) :=
  fun w =>
    match coro w with
    | Ok next w' => Ok next w'
    | Raised (NetworkError message url code) w' =>
        (text <- log_error (NetworkError message url code) ;;
         report_error
           (String.append text
              (String.append " [url="
                 (String.append url
                    (String.append ", code="
                       (String.append
                          (NilZero.string_of_int (Z.to_int code)) "]"))))) ;;
         ret None) w'
    | Raised e w' =>
        (text <- log_error e ;;
         report_error text ;;
         ret None) w'
    end.

(** One run of a coroutine.  A resumption that is not the one the
    coroutine waits for leaves it suspended where it is. *)
Definition resume_coroutine (c : Coroutine) (r : Resumption)
  : M (option Coroutine) :=
  match c, r with
  | co_generate bounds conditioning strength image mask seed count is_live,
    started =>
      _generate bounds conditioning strength image mask seed count is_live
  | co_generate_enqueue job job_kind pos neg bounds strength seed i count,
    enqueued job_id =>
      _generate_enqueued job job_kind pos neg bounds strength seed i count
        job_id
  | co_upscale_image job image p, started => _upscale_image job image p
  | co_upscale_enqueue job, enqueued job_id => assign_id job job_id
  | co_generate_control_layer job image mode bounds, started =>
      _generate_control_layer job image mode bounds
  | co_control_enqueue job, enqueued job_id => assign_id job job_id
  | co_generate_enqueue _ _ _ _ _ _ _ _ _, network_error message url code
  | co_upscale_enqueue _, network_error message url code
  | co_control_enqueue _, network_error message url code =>
      raise (NetworkError message url code)
  | co_insert_frames layer frames, started =>
      _insert_frames_into_timeline layer frames
  | co_insert_process_events layer frames, events_processed =>
      _insert_frames_entered layer frames
  | co_insert_wait layer restore frames, polled =>
      _insert_frames_polled layer restore frames
  | _, _ => ret (Some c)
  end.

Definition resume (c : Coroutine) (r : Resumption) : M (option Coroutine) :=
  _report_errors (resume_coroutine c r).

(** Run a coroutine through a series of resumptions, as long as it has
    not ended. *)
Fixpoint resume_all (c : Coroutine) (rs : list Resumption)
  : M (option Coroutine) :=
  match rs with
  | [] => ret (Some c)
  | r :: rest =>
      next <- resume c r ;;
      match next with
      | Some c' => resume_all c' rest
      | None => ret None
      end
  end.

(** ** The reactive system *)

Fixpoint delete_at {A} (n : nat) (l : list A) : list A :=
  match l, n with
  | [], _ => []
  | _ :: rest, O => rest
  | a :: rest, S n' => a :: delete_at n' rest
  end.

(** The event loop resumes its [k]-th task. *)
Definition run_task (k : nat) (r : Resumption) : M unit :=
  w <- get ;;
  match nth_error (tasks w) k with
  | None => ret tt
  | Some c =>
      next <- resume c r ;;
      modify (fun w' =>
        with_tasks
          (match next with
           | Some c' => replace_at k (fun _ => c') (tasks w')
           | None => delete_at k (tasks w')
           end) w')
  end.

(** What happens to the program from outside: the connection delivers a
    message of the worker, the event loop runs a task, or the host
    changes the document. *)
Inductive Event :=
| delivered (message : ClientMessage.t)
| resumed (k : nat) (r : Resumption)
| host_changed (change : Document.t -> Document.t).

(** An exception that leaves a handler ends that handler; the state it
    had reached stays. *)
Definition react (e : Event) (w : World) : World :=
  match e with
  | delivered message => state_of (handle_message message w)
  | resumed k r => state_of (run_task k r w)
  | host_changed change => with_document (change (document w)) w
  end.

Definition react_all (es : list Event) (w : World) : World :=
  fold_left (fun w e => react e w) es w.

End Orchestration.

(** ** Concrete states, for evaluating the definitions *)

Module Example.
Definition layer1 : Node := {| uniqueId := 1; node_type := "paintlayer" |}.
Definition layer2 : Node := {| uniqueId := 2; node_type := "paintlayer" |}.

Definition picture : Image :=
  {| image_data := 1; image_extent := Extent.mk 512 512 |}.
Definition picture2 : Image :=
  {| image_data := 2; image_extent := Extent.mk 512 512 |}.
Definition canvas : Bounds.t := Bounds.mk 0 0 512 512.
Definition region : Bounds.t := Bounds.mk 100 120 64 96.
Definition selection_mask : Mask :=
  {| mask_bounds := Bounds.mk 130 160 32 48; mask_data := 3 |}.
Definition cond : Conditioning.t := Conditioning.mk "a cat" "blurry" [] None.

Definition doc : Document.t :=
  Document.mk (Extent.mk 512 512) true (true, None) layer1 [layer1] 10 0 100
    []
    (fun _ => (None, None))
    (fun _ _ => (None, canvas, None))
    (fun b _ => {| image_data := 0; image_extent := Bounds.extent b |})
    (fun c b => {| control_mode := ControlLayer.mode c;
                   control_image :=
                     {| image_data := 0; image_extent := Bounds.extent b |} |})
    (fun _ => 0).

Definition the_settings : Settings.t := Settings.mk 5 5 7 10 true false.

Definition the_model : Model.t :=
  Model.mk None Workspace.generation "style" "a cat" "blurry" [] Float.one 1
    42 true Float.zero (JobQueue.mk [] None) "".

Definition world : World :=
  mk_world the_settings
    {| default_upscaler := "upscaler"; sd_version := fun _ => SDVersion.sd15 |}
    [] [] doc the_model
    (UpscaleWorkspace.mk "" (Float.of_int 2) true Float.one)
    (LiveWorkspace.mk false false Float.one false None None None [])
    [] [] (fun n => Z.of_nat n) 0.

(** A state that tracks the given jobs, in this order. *)
Definition tracking (jobs : list Job.t) (w : World) : World :=
  with_model
    (Model.with_jobs (JobQueue.mk (seq 0 (List.length jobs)) None) (model w))
    (with_job_objects jobs w).

Definition job (id : string) (kind : JobKind.t) (state : JobState.t)
    (results : list Image) : Job.t :=
  Job.mk (Some id) kind state (JobParams.mk canvas "a cat" "" Float.one 42)
    None results.
End Example.

Module ExampleMessages.
Definition finished_without_images (job_id : string) : ClientMessage.t :=
  ClientMessage.mk ClientEvent.finished job_id Float.one None None None.
Definition no_pose : string -> Extent.t -> string := fun _ _ => "".
End ExampleMessages.

Module ExampleQueues.
(** One job executing and one finished, none queued. *)
Definition busy : World :=
  Example.tracking
    [Example.job "a" JobKind.diffusion JobState.executing [];
     Example.job "b" JobKind.diffusion JobState.finished [Example.picture]]
    Example.world.
(** Two queued jobs around an executing one. *)
Definition waiting : World :=
  Example.tracking
    [Example.job "a" JobKind.diffusion JobState.queued [];
     Example.job "b" JobKind.diffusion JobState.executing [];
     Example.job "c" JobKind.diffusion JobState.queued []]
    Example.world.
End ExampleQueues.

Module ExampleLive.
(** A finished live-preview job with one result, tracked while the live
    workspace is active. *)
Definition live_job : Job.t :=
  Example.job "live" JobKind.live_preview JobState.finished [Example.picture].
Definition running : World :=
  with_live (LiveWorkspace.mk true false Float.one false None None None [])
    (Example.tracking [live_job] Example.world).
(** Two events: the task of the first live request starts, then the worker
    reports progress for a job that is not tracked. *)
Definition before_any_result : list Event :=
  [resumed 0%nat started;
   delivered
     (ClientMessage.mk ClientEvent.progress "other" Float.zero None None None)].
(** Later events: the answer of the worker to the first request, and the
    finished message for that job, with an image. *)
Definition afterwards : list Event :=
  [resumed 0%nat (enqueued "live");
   delivered
     (ClientMessage.mk ClientEvent.finished "live" Float.one
        (Some [Example.picture]) None None)].
End ExampleLive.

Module ExampleErrors.
(** An active live session that retains an old error, tracks a job, and
    has control layer 0 in its store. *)
Definition control0 : ControlLayer.t :=
  ControlLayer.mk ControlMode.blur Example.layer2 None.
Definition stale : World :=
  with_control_objects [control0]
    (with_model (Model.with_error "old error" (model ExampleLive.running))
       ExampleLive.running).
Definition waiting_task : Coroutine := co_upscale_enqueue 0%nat.
Definition server_error : ClientMessage.t :=
  ClientMessage.mk ClientEvent.error "live" Float.zero None None
    (Some "out of memory").
Definition identity_bounds : Extent.t -> option Bounds.t -> float -> Bounds.t :=
  fun e _ _ => Bounds.of_extent 0 0 e.
Definition crop : Bounds.t -> Bounds.t -> Bounds.t := fun b _ => b.
Definition at_least : Bounds.t -> Z -> Extent.t -> Bounds.t := fun b _ _ => b.
Definition scale : Extent.t -> float -> Extent.t := fun e _ => e.
End ExampleErrors.

Module ExampleWorkspace.
(** The live workspace is shown; the session is active and recording, with
    one captured frame. *)
Definition recording : World :=
  with_live
    (LiveWorkspace.mk true true Float.one true (Some Example.picture)
       (Some Example.canvas) None [(Example.picture, Example.canvas)])
    (with_model (Model.with_workspace Workspace.live Example.the_model)
       Example.world).
(** The generation workspace is shown while the session is active. *)
Definition elsewhere : World :=
  with_live (LiveWorkspace.mk true false Float.one false None None None [])
    Example.world.
End ExampleWorkspace.

Module ExampleRecording.
(** Recording has just been switched off with two captured frames in the
    buffer, A then B. *)
Definition frames : list (Image * Bounds.t) :=
  [(Example.picture, Example.canvas); (Example.picture2, Example.region)].
(** The drain waits for the keyframe of a frame it has written. *)
Definition waiting : Coroutine :=
  co_insert_wait Example.layer1 Example.layer1
    [(Example.picture2, Example.region)].
End ExampleRecording.

Module ExampleFinished.
(** One executing job of the given kind, without results, is tracked;
    auto-preview is enabled and there is no preview layer. *)
Definition executing (kind : JobKind.t) : World :=
  Example.tracking [Example.job "a" kind JobState.executing []] Example.world.
(** The same for a control-layer job, which refers to control layer 0. *)
Definition control_job : Job.t :=
  Job.mk (Some "a") JobKind.control_layer JobState.executing
    (JobParams.mk Example.canvas "" "" Float.one 0) (Some 0%nat) [].
Definition executing_control : World :=
  with_control_objects [ExampleErrors.control0]
    (Example.tracking [control_job] Example.world).
End ExampleFinished.

Module ExampleEvents.
Definition progress_half : ClientMessage.t :=
  ClientMessage.mk ClientEvent.progress "a" (percent 50) None None None.
Definition interrupted_a : ClientMessage.t :=
  ClientMessage.mk ClientEvent.interrupted "a" Float.zero None None None.
(** A finished message that carries two images. *)
Definition finished_with_images (job_id : string) : ClientMessage.t :=
  ClientMessage.mk ClientEvent.finished job_id Float.one
    (Some [Example.picture; Example.picture2]) None None.
End ExampleEvents.

Module ExampleUpscale.
(** An executing upscaling job for twice the canvas is tracked while a
    preview layer is shown. *)
Definition doubled : Bounds.t := Bounds.mk 0 0 1024 1024.
Definition upscale_job : Job.t :=
  Job.mk (Some "a") JobKind.upscaling JobState.executing
    (JobParams.mk doubled "" "" Float.one 42) None [].
Definition tracked : World := Example.tracking [upscale_job] Example.world.
Definition previewing : World :=
  with_model (Model.with_layer (Some Example.layer1) (model tracked)) tracked.
End ExampleUpscale.

Module ExampleColorMode.
(** The document is in a colour mode the worker cannot use. *)
Definition indexed : World :=
  with_document
    (Document.mk (Extent.mk 512 512) true (false, Some "Unsupported color mode")
       Example.layer1 [Example.layer1] 10 0 100 []
       (fun _ => (None, None))
       (fun _ _ => (None, Example.canvas, None))
       (fun b _ => {| image_data := 0; image_extent := Bounds.extent b |})
       (fun c b => {| control_mode := ControlLayer.mode c;
                      control_image :=
                        {| image_data := 0;
                           image_extent := Bounds.extent b |} |})
       (fun _ => 0))
    ExampleErrors.stale.
End ExampleColorMode.

Module ExampleControl.
(** A finished message for the control-layer job that carries one image
    and no pose. *)
Definition finished_with_image : ClientMessage.t :=
  ClientMessage.mk ClientEvent.finished "a" Float.one
    (Some [Example.picture]) None None.
End ExampleControl.

(** ** Words of the specification, for comparison with the code *)

(** The records of a batch: the [k]-th, [k+1]-th, ... job of a request, one
    per id handed out by the worker, with seeds [seed + i * stride]. *)
Definition batch_jobs (kind : JobKind.t) (pos neg : string) (bounds : Bounds.t)
    (strength : float) (seed stride : Z) (k : nat) (ids : list string)
  : list Job.t :=
  map (fun p =>
         Job.mk (Some (snd p)) kind JobState.queued
           (JobParams.mk bounds pos neg strength
              (seed + Z.of_nat (fst p) * stride)) None [])
      (combine (seq k (List.length ids)) ids).

(** The work items sent for them. *)
Definition batch_sent (job : Workflow.t) (seed stride : Z) (k n : nat)
  : list Effect :=
  map (fun i => enqueue (Workflow.with_seed (seed + Z.of_nat i * stride) job))
      (seq k n).

(** The mask a work item was built with. *)
Definition workflow_mask (w : Workflow.t) : option Mask :=
  match Workflow.nodes w with
  | Workflow.inpaint _ _ m _ => Some m
  | Workflow.refine_region _ _ m _ _ _ => Some m
  | _ => None
  end.

(** What is left to do after a run of a coroutine, given the resumptions
    still to come. *)
Definition continue (next : option Coroutine) (rs : list Resumption)
  : M (option Coroutine) :=
  match next with
  | Some c => resume_all c rs
  | None => ret None
  end.

(** The state in which [_generate] chooses its operation: the progress
    indicator is reset unless a job is executing. *)
Definition progress_reset (w : World) : World :=
  state_of (when (negb (any_executing w))
                 (update_model (Model.with_progress Float.zero)) w).

(** The bounds of the job records and the mask handed to the workflow
    builder, after the reframing at the start of [_generate]. *)
Definition job_bounds (bounds : Bounds.t) (mask : option Mask) : Bounds.t :=
  match mask with
  | Some m => mask_bounds m
  | None => bounds
  end.

Definition job_mask (bounds : Bounds.t) (mask : option Mask) : option Mask :=
  option_map (fun m => with_mask_bounds (mask_bounds_rel m bounds) m) mask.

Definition job_kind_of (is_live : bool) : JobKind.t :=
  if is_live then JobKind.live_preview else JobKind.diffusion.


(** The number of queue-clear requests made to the remote worker so far. *)
Definition is_clear_queue (e : Effect) : bool :=
  match e with clear_queue => true | _ => false end.

Definition clear_requests (w : World) : nat :=
  List.length (filter is_clear_queue (effects w)).

(** The number of live requests submitted so far: the tasks handed to the
    event loop that run [_generate] with [is_live=True]. *)
Definition is_live_request (e : Effect) : bool :=
  match e with
  | run (co_generate _ _ _ _ _ _ _ true) => true
  | _ => false
  end.

Definition live_requests (w : World) : nat :=
  List.length (filter is_live_request (effects w)).

(** A computation keeps [Pre] and submits no live request: from a state
    where [Pre] holds it leaves, by returning or by raising, a state where
    [Pre] holds and as many live requests have been submitted as before. *)
Definition keeps (Pre : World -> Prop) {A} (c : M A) : Prop :=
  forall w,
    Pre w ->
    Pre (state_of (c w))
    /\ live_requests (state_of (c w)) = live_requests w.

(** The kinds of the job objects; a job never changes its kind. *)
Definition kinds (w : World) : list JobKind.t := map Job.kind (job_objects w).

(** A change of state that touches neither the active flag, nor the kind of
    a job, nor the live requests. *)
Definition quiet (f : World -> World) : Prop :=
  forall w,
    is_active (f w) = is_active w
    /\ kinds (f w) = kinds w
    /\ live_requests (f w) = live_requests w.

(** [check_color_mode] reports a problem with a message. *)
Definition color_mode_fails (w : World) : bool :=
  negb (fst (Document.color_mode (document w)))
  && truthy (snd (Document.color_mode (document w))).

(** From [w] to [w'] one task was handed to the event loop and nothing was
    sent to the worker, and in [w'] no error message is retained. *)
Definition started_without_error (w w' : World) : Prop :=
  exists c,
    tasks w' = tasks w ++ [c]
    /\ effects w' = effects w ++ [run c]
    /\ Model.error (model w') = "".

(** A coroutine suspended in [client.enqueue]. *)
Definition awaits_enqueue (c : Coroutine) : bool :=
  match c with
  | co_generate_enqueue _ _ _ _ _ _ _ _ _
  | co_upscale_enqueue _
  | co_control_enqueue _ => true
  | _ => false
  end.

(** The live workspace is toggled off. *)
Definition inactive (w : World) : Prop := is_active w = false.

(** The job object behind a reference has this kind. *)
Definition has_kind (r : ref) (k : JobKind.t) (w : World) : Prop :=
  nth_error (kinds w) r = Some k.

Definition is_live_preview (k : JobKind.t) : bool :=
  match k with JobKind.live_preview => true | _ => false end.

(** The event delivers a finished message for a tracked live-preview
    job. *)
Definition finishes_live_job (e : Event) (w : World) : bool :=
  match e with
  | delivered message =>
      match ClientMessage.event message with
      | ClientEvent.finished =>
          match find (ClientMessage.job_id message) w with
          | Some r =>
              match job_at r w with
              | Some j => is_live_preview (Job.kind j)
              | None => false
              end
          | None => false
          end
      | _ => false
      end
  | _ => false
  end.

(** No event of the series, at the state it arrives in, finishes a
    live-preview job. *)
Fixpoint no_live_job_finishes (pose_svg : string -> Extent.t -> string)
    (es : list Event) (w : World) : Prop :=
  match es with
  | [] => True
  | e :: rest =>
      finishes_live_job e w = false
      /\ no_live_job_finishes pose_svg rest (react pose_svg e w)
  end.

(** ** Driving the recording drain *)







(** [if message.images:] is not taken: no images, or an empty collection. *)
Definition without_images (message : ClientMessage.t) : Prop :=
  ClientMessage.images message = None \/ ClientMessage.images message = Some [].

(** The ids of the job objects. *)
Definition ids (w : World) : list (option string) := map Job.id (job_objects w).

(** ** Further methods of the module *)

(** [LiveWorkspace.copy_result_to_layer] *)
Definition copy_result_to_layer : M unit :=
  w <- get ;;
  match LiveWorkspace._result (live w), LiveWorkspace._result_bounds (live w)
  with
  | Some result, Some bounds =>
      doc_insert_layer (String.append "[Live] " (Model.prompt (model w)))
        (Some (result, bounds)) true None ;;
      when (Settings.new_seed_after_apply (settings w)) generate_seed
  | _, _ => raise (AssertionError "")
  end.

(** [Model.history]: the tracked jobs that are finished. *)
Definition history (w : World) : list ref :=
  filter (has_state JobState.finished w) (entries w).

(** [Model.has_error] *)
Definition has_error (w : World) : bool :=
  negb (String.eqb (Model.error (model w)) "").

(** Recording is on only in an active session. *)
Definition recording_while_active (w : World) : Prop :=
  is_recording w = true -> is_active w = true.

(** The work items sent to the worker so far, oldest first. *)
Definition sent_work (w : World) : list Workflow.t :=
  flat_map (fun e => match e with enqueue work => [work] | _ => [] end)
           (effects w).

(** The message [_report_errors] passes to [report_error] for an
    exception. *)
Definition reported_text (e : Exception) : string :=
  match e with
  | NetworkError message url code =>
      String.append (String.append "Error: " message)
        (String.append " [url="
           (String.append url
              (String.append ", code="
                 (String.append (NilZero.string_of_int (Z.to_int code)) "]"))))
  | _ => String.append "Error: " (str e)
  end.

(** The arguments [generate] passes to [create_mask_from_selection]. *)
Definition generate_selection_args (s : Settings.t) : SelectionArgs :=
  {| sel_grow := percent (Settings.selection_grow s);
     sel_feather := percent (Settings.selection_feather s);
     sel_padding := percent (Settings.selection_padding s);
     sel_min_size := Some 64;
     sel_square := None;
     sel_multiple := None |}.

(** The arguments [generate_live] passes to it. *)
Definition live_selection_args (w : World) : SelectionArgs :=
  {| sel_grow := Float.div
                   (Float.of_int (Settings.selection_feather (settings w)))
                   (Float.of_int 200);
     sel_feather := Float.div
                      (Float.of_int (Settings.selection_feather (settings w)))
                      (Float.of_int 100);
     sel_padding := Float.div
                      (Float.of_int (Settings.selection_padding (settings w)))
                      (Float.of_int 100);
     sel_min_size := Some (match sd_version (client w) (Model.style (model w))
                           with
                           | SDVersion.sd15 => 512
                           | _ => 1024
                           end);
     sel_square := Some true;
     sel_multiple := None |}.

(** The interrupts requested from the worker so far. *)
Definition is_interrupt (e : Effect) : bool :=
  match e with
  | interrupt => true
  | _ => false
  end.

Definition interrupt_requests (w : World) : nat :=
  List.length (filter is_interrupt (effects w)).

(** The work item [_upscale_image] builds. *)
Definition upscale_work (image : Image) (p : UpscaleParams) (w : World)
  : Workflow.t :=
  if up_use_diffusion p then
    Workflow.mk
      (Workflow.upscale_tiled image
         (if String.eqb (up_upscaler p) "" then default_upscaler (client w)
          else up_upscaler p)
         (up_factor p) (Model.style (model w)) (up_strength p)) (up_seed p)
  else
    Workflow.mk (Workflow.upscale_simple image (up_upscaler p) (up_factor p))
      (-1).

(** The arguments [generate_control_layer] passes to
    [create_mask_from_selection], and the image it reads. *)
Definition control_selection_args : SelectionArgs :=
  {| sel_grow := Float.zero;
     sel_feather := Float.zero;
     sel_padding := Float.div Float.one (Float.of_int 4);
     sel_min_size := None;
     sel_square := None;
     sel_multiple := Some 64 |}.

Definition whole_image (w : World) : Image :=
  Document.image (document w)
    (Bounds.of_extent 0 0 (Document.extent (document w))) [].
(** * Properties *)

(** ** Generic facts *)

Lemma ltb_not_eqb (a b : float) :
  Float.ltb a b = true -> Float.eqb a b = false.
Proof.
  unfold Float.ltb, Float.eqb, SFltb, SFeqb.
  destruct (SFcompare a b) as [[ | | ] | ]; intros H; congruence.
Qed.

Lemma eqb_not_ltb (a b : float) :
  Float.eqb a b = true -> Float.ltb a b = false.
Proof.
  unfold Float.ltb, Float.eqb, SFltb, SFeqb.
  destruct (SFcompare a b) as [[ | | ] | ]; intros H; congruence.
Qed.

(** ** Mode selection *)

Lemma generate_job_cases :
  forall style bounds cond strength image mask seed is_live w,
    _generate_job style bounds cond strength image mask seed is_live w =
      match image, mask with
      | None, None =>
          if Float.eqb strength Float.one
          then Ok (Workflow.mk
                     (Workflow.generate style (Bounds.extent bounds) cond
                        is_live) seed) w
          else Raised (AssertionError "") w
      | Some img, None =>
          if Float.ltb strength Float.one
          then Ok (Workflow.mk
                     (Workflow.refine style img cond strength is_live) seed) w
          else Raised (AssertionError "") w
      | Some img, Some m =>
          if Float.eqb strength Float.one && negb is_live
          then Ok (Workflow.mk (Workflow.inpaint style img m cond) seed) w
          else Ok (Workflow.mk
                     (Workflow.refine_region style img m cond strength is_live)
                     seed) w
      | None, Some _ => Raised (AssertionError "") w
      end.
Proof.
  intros style bounds cond strength [img | ] [m | ] seed is_live w;
    unfold _generate_job, bind, assert, ret, raise;
    destruct (Float.eqb strength Float.one) eqn:E1;
    destruct (Float.ltb strength Float.one) eqn:E2;
    destruct is_live; reflexivity.
Qed.

(** C1. For every image, mask, strength and live flag the choice made in
    [_generate] is the one of the decision table: without image and mask,
    [generate] at strength exactly 1.0; with an image and no mask, [refine]
    at strength below 1; with image and mask, [inpaint] at strength exactly
    1.0 when not live and [refine_region] otherwise.  The tests are exact
    comparisons with 1.0.  Everything else fails an assertion and changes
    nothing, in particular a mask without an image, and a strength below 1
    without an image. *)
Theorem generate_selects_mode :
  forall style bounds cond strength image mask seed is_live w,
    _generate_job style bounds cond strength image mask seed is_live w =
      match image, mask with
      | None, None =>
          if Float.eqb strength Float.one
          then Ok (Workflow.mk
                     (Workflow.generate style (Bounds.extent bounds) cond
                        is_live) seed) w
          else Raised (AssertionError "") w
      | Some img, None =>
          if Float.ltb strength Float.one
          then Ok (Workflow.mk
                     (Workflow.refine style img cond strength is_live) seed) w
          else Raised (AssertionError "") w
      | Some img, Some m =>
          if Float.eqb strength Float.one && negb is_live
          then Ok (Workflow.mk (Workflow.inpaint style img m cond) seed) w
          else Ok (Workflow.mk
                     (Workflow.refine_region style img m cond strength is_live)
                     seed) w
      | None, Some _ => Raised (AssertionError "") w
      end
    /\ (image = None -> Float.ltb strength Float.one = true ->
        _generate_job style bounds cond strength image mask seed is_live w =
          Raised (AssertionError "") w).
Proof.
  intros style bounds cond strength image mask seed is_live w.
  split; [apply generate_job_cases | ].
  intros -> L. rewrite generate_job_cases.
  destruct mask; [reflexivity | ].
  now rewrite (ltb_not_eqb _ _ L).
Qed.

(** The table of C1 at a request with an image and a mask: not live, the
    strength just below 1.0 already selects [refine_region]; without the
    image the assertion fails. *)
Lemma generate_selects_mode_witness :
  (option_map mode_of
     (match _generate_job "s" Example.canvas Example.cond
              (Float.pred Float.one) (Some Example.picture)
              (Some Example.selection_mask) 7 false Example.world with
      | Ok job _ => Some job
      | Raised _ _ => None
      end) = Some (Some mode_refine_region))
  /\ (Float.ltb (Float.pred Float.one) Float.one = true
      /\ _generate_job "s" Example.canvas Example.cond
           (Float.pred Float.one) None (Some Example.selection_mask) 7 false
           Example.world =
         Raised (AssertionError "") Example.world).
Proof.
  split.
  - rewrite (proj1 (generate_selects_mode "s" Example.canvas Example.cond
                      (Float.pred Float.one) (Some Example.picture)
                      (Some Example.selection_mask) 7 false Example.world)).
    reflexivity.
  - split; [reflexivity | ].
    apply (proj2 (generate_selects_mode "s" Example.canvas Example.cond
                    (Float.pred Float.one) None (Some Example.selection_mask)
                    7 false Example.world));
      reflexivity.
Defined.

(** ** Dispatch of a batch *)

Lemma generate_job_pure :
  forall style bounds cond strength image mask seed is_live w job w',
    _generate_job style bounds cond strength image mask seed is_live w =
      Ok job w' ->
    w' = w /\ Workflow.seed job = seed
    /\ forall w2,
        _generate_job style bounds cond strength image mask seed is_live w2 =
          Ok job w2.
Proof.
  intros style bounds cond strength image mask seed is_live w job w' H.
  rewrite generate_job_cases in H.
  assert (G : forall w2,
    _generate_job style bounds cond strength image mask seed is_live w2 =
      Ok job w2 /\ w' = w /\ Workflow.seed job = seed).
  { intros w2. rewrite generate_job_cases.
    destruct image, mask;
      repeat match type of H with
             | context [if ?b then _ else _] => destruct b
             end;
      inversion H; subst; auto. }
  destruct (G w) as (_ & ? & ?). repeat split; auto.
  intros w2. apply G.
Qed.

Lemma with_seed_same (job : Workflow.t) :
  Workflow.with_seed (Workflow.seed job) job = job.
Proof. now destruct job. Qed.

(** One iteration of the loop of [_generate], from the head of the loop
    through the worker's answer back to the head of the loop. *)
Lemma generate_loop_step :
  forall job kind pos neg bounds strength seed i count job_id rs w,
    i < count ->
    (next <- _generate_loop job kind pos neg bounds strength seed i count ;;
     continue next (enqueued job_id :: rs)) w =
    (next <- _generate_loop
               (Workflow.with_seed
                  (seed + (i + 1) * Settings.batch_size (settings w)) job)
               kind pos neg bounds strength seed (i + 1) count ;;
     continue next rs)
      (state_of
         ((effect (enqueue job) ;;
           add kind job_id pos neg bounds strength (Workflow.seed job)) w)).
Proof.
  intros job kind pos neg bounds strength seed i count job_id rs w Hi.
  unfold _generate_loop at 1.
  apply Z.ltb_lt in Hi. rewrite Hi.
  unfold bind at 1. unfold bind at 1.
  unfold effect at 1. unfold modify at 1. unfold ret at 1.
  unfold continue at 1. cbn [resume_all].
  unfold resume, resume_coroutine, _generate_enqueued.
  unfold _report_errors, _generate_loop.
  destruct (i + 1 <? count); reflexivity.
Qed.

Lemma with_seed_twice (a b : Z) (job : Workflow.t) :
  Workflow.with_seed a (Workflow.with_seed b job) = Workflow.with_seed a job.
Proof. reflexivity. Qed.

Lemma batch_sent_with_seed (s : Z) (job : Workflow.t) seed stride k n :
  batch_sent (Workflow.with_seed s job) seed stride k n =
  batch_sent job seed stride k n.
Proof. reflexivity. Qed.

Lemma sent_and_added :
  forall job kind job_id pos neg bounds strength seed w,
    let w2 :=
      state_of ((effect (enqueue job) ;;
                 add kind job_id pos neg bounds strength seed) w) in
    job_objects w2 =
      job_objects w ++
      [Job.mk (Some job_id) kind JobState.queued
         (JobParams.mk bounds pos neg strength seed) None []]
    /\ entries w2 = entries w ++ [List.length (job_objects w)]
    /\ effects w2 = effects w ++ [enqueue job]
    /\ settings w2 = settings w
    /\ tasks w2 = tasks w
    /\ live w2 = live w
    /\ document w2 = document w.
Proof. intros. repeat split; reflexivity. Qed.

(** The whole loop, given one answer of the worker for each item that is
    still to be sent. *)
Lemma generate_loop_run :
  forall kind pos neg bounds strength seed count ids k w job,
    count = Z.of_nat (k + List.length ids) ->
    Workflow.seed job = seed + Z.of_nat k * Settings.batch_size (settings w) ->
    exists w',
      (next <- _generate_loop job kind pos neg bounds strength seed
                 (Z.of_nat k) count ;;
       continue next (map enqueued ids)) w = Ok None w'
      /\ job_objects w' =
           job_objects w ++
           batch_jobs kind pos neg bounds strength seed
             (Settings.batch_size (settings w)) k ids
      /\ entries w' =
           entries w ++ seq (List.length (job_objects w)) (List.length ids)
      /\ effects w' =
           effects w ++
           batch_sent job seed (Settings.batch_size (settings w)) k
             (List.length ids)
      /\ settings w' = settings w
      /\ tasks w' = tasks w
      /\ live w' = live w
      /\ document w' = document w.
Proof.
  intros kind pos neg bounds strength seed count ids.
  induction ids as [ | job_id rest IH]; intros k w job Hc Hs.
  - exists w. cbn [List.length] in *.
    unfold _generate_loop, bind.
    replace (Z.of_nat k <? count) with false
      by (symmetry; apply Z.ltb_ge; lia).
    unfold batch_jobs, batch_sent. cbn.
    rewrite !app_nil_r. repeat split; reflexivity.
  - cbn [map List.length] in *.
    rewrite generate_loop_step by lia.
    set (w2 := state_of _).
    destruct (IH (S k) w2
                (Workflow.with_seed
                   (seed + (Z.of_nat k + 1) * Settings.batch_size (settings w))
                   job))
      as (w' & Hrun & Hobj & Hent & Heff & Hset & Htasks & Hlive & Hdoc).
    { lia. }
    { cbn [Workflow.seed Workflow.with_seed].
      replace (settings w2) with (settings w) by reflexivity. f_equal. lia. }
    exists w'.
    replace (Z.of_nat (S k)) with (Z.of_nat k + 1) in Hrun by lia.
    split; [exact Hrun | ].
    destruct (sent_and_added job kind job_id pos neg bounds strength
                (Workflow.seed job) w)
      as (Hobj2 & Hent2 & Heff2 & Hset2 & Htasks2 & Hlive2 & Hdoc2).
    fold w2 in Hobj2, Hent2, Heff2, Hset2, Htasks2, Hlive2, Hdoc2.
    rewrite Hset2 in *.
    repeat split; try congruence.
    + rewrite Hobj, Hobj2, <- app_assoc. f_equal.
      unfold batch_jobs. cbn [seq map combine List.length fst snd app].
      now rewrite Hs.
    + rewrite Hent, Hent2, Hobj2, length_app, <- app_assoc.
      cbn [List.length seq app]. do 3 f_equal. lia.
    + rewrite Heff, Heff2, <- app_assoc. f_equal.
      unfold batch_sent. cbn [seq map app].
      now rewrite <- Hs, with_seed_same.
Qed.

Lemma generate_start :
  forall bounds cond strength image mask seed count is_live rs w job,
    _generate_job (Model.style (model w)) (job_bounds bounds mask) cond
      strength image (job_mask bounds mask) seed is_live w = Ok job w ->
    resume_all (co_generate bounds cond strength image mask seed count is_live)
      (started :: rs) w =
    (next <- _generate_loop job (job_kind_of is_live)
               (Conditioning.prompt cond) (Conditioning.negative_prompt cond)
               (job_bounds bounds mask) strength seed 0 count ;;
     continue next rs) (progress_reset w).
Proof.
  intros bounds cond strength image mask seed count is_live rs w job H.
  destruct (generate_job_pure _ _ _ _ _ _ _ _ _ _ _ H) as (_ & _ & P).
  cbn [resume_all]. unfold resume, resume_coroutine, _generate.
  unfold bind at 1. unfold _report_errors.
  unfold bind at 1. unfold get at 1.
  unfold bind at 1. unfold progress_reset.
  destruct (when (negb (any_executing w))
              (update_model (Model.with_progress Float.zero)) w)
    as [[] w1 | e w1] eqn:E.
  2:{ unfold when, update_model, modify, ret in E.
      destruct (negb (any_executing w)); discriminate. }
  cbn [state_of].
  destruct mask as [m | ]; cbn [job_bounds job_mask option_map] in *;
    unfold bind at 1; rewrite (P w1);
    unfold _generate_loop, job_kind_of, bind;
    destruct (0 <? count); reflexivity.
Qed.

Lemma progress_reset_frame (w : World) :
  job_objects (progress_reset w) = job_objects w
  /\ entries (progress_reset w) = entries w
  /\ effects (progress_reset w) = effects w
  /\ settings (progress_reset w) = settings w
  /\ tasks (progress_reset w) = tasks w
  /\ live (progress_reset w) = live w
  /\ document (progress_reset w) = document w.
Proof.
  unfold progress_reset, when.
  destruct (negb (any_executing w)); repeat split; reflexivity.
Qed.

Lemma lookup_all_appended {A} (new old : list A) :
  lookup_all (old ++ new) (seq (List.length old) (List.length new)) = new.
Proof.
  revert old. induction new as [ | a new IH]; intros old; [reflexivity | ].
  cbn [List.length seq lookup_all].
  rewrite nth_error_app2, Nat.sub_diag by lia. cbn [nth_error].
  f_equal.
  replace (old ++ a :: new) with ((old ++ [a]) ++ new)
    by (now rewrite <- app_assoc).
  replace (S (List.length old)) with (List.length (old ++ [a]))
    by (rewrite length_app; cbn; lia).
  apply IH.
Qed.

(** A request whose operation can be chosen, answered by the worker with
    one id per item, runs to its end; this is the state it leaves. *)
Lemma generate_run :
  forall bounds cond strength image mask seed ids is_live w job,
    _generate_job (Model.style (model w)) (job_bounds bounds mask) cond
      strength image (job_mask bounds mask) seed is_live w = Ok job w ->
    exists w',
      resume_all
        (co_generate bounds cond strength image mask seed
           (Z.of_nat (List.length ids)) is_live)
        (started :: map enqueued ids) w = Ok None w'
      /\ job_objects w' =
           job_objects w ++
           batch_jobs (job_kind_of is_live) (Conditioning.prompt cond)
             (Conditioning.negative_prompt cond) (job_bounds bounds mask)
             strength seed (Settings.batch_size (settings w)) 0 ids
      /\ entries w' =
           entries w ++ seq (List.length (job_objects w)) (List.length ids)
      /\ effects w' =
           effects w ++
           batch_sent job seed (Settings.batch_size (settings w)) 0
             (List.length ids).
Proof.
  intros bounds cond strength image mask seed ids is_live w job H.
  rewrite (generate_start _ _ _ _ _ _ _ _ _ _ _ H).
  destruct (progress_reset_frame w) as (F1 & F2 & F3 & F4 & _).
  destruct (generate_job_pure _ _ _ _ _ _ _ _ _ _ _ H) as (_ & Hseed & _).
  destruct (generate_loop_run (job_kind_of is_live) (Conditioning.prompt cond)
              (Conditioning.negative_prompt cond) (job_bounds bounds mask)
              strength seed (Z.of_nat (List.length ids)) ids 0
              (progress_reset w) job)
    as (w' & Hrun & Hobj & Hent & Heff & _).
  { reflexivity. }
  { rewrite Hseed. cbn. lia. }
  exists w'. cbn [Z.of_nat] in Hrun.
  rewrite F1, F2, F3, F4 in *. auto.
Qed.

Lemma batch_jobs_length kind pos neg bounds strength seed stride k ids :
  List.length (batch_jobs kind pos neg bounds strength seed stride k ids) =
  List.length ids.
Proof.
  unfold batch_jobs.
  rewrite length_map, length_combine, length_seq. apply Nat.min_id.
Qed.

Lemma batch_jobs_bounds kind pos neg bounds strength seed stride k ids :
  Forall (fun j => JobParams.bounds (Job.params j) = bounds)
         (batch_jobs kind pos neg bounds strength seed stride k ids).
Proof.
  unfold batch_jobs. apply Forall_map. apply Forall_forall.
  intros p _. reflexivity.
Qed.

(** C2. A request with an image and a mask: the work items sent to the
    worker carry the mask with its bounds made relative to the request
    bounds (offset subtracted, extent kept), and every job recorded for
    the request has the mask's original, absolute bounds, not the request
    bounds. *)
Theorem generate_swaps_mask_bounds :
  forall bounds cond strength img m seed ids is_live w,
  exists w' works refs,
    resume_all
      (co_generate bounds cond strength (Some img) (Some m) seed
         (Z.of_nat (List.length ids)) is_live)
      (started :: map enqueued ids) w = Ok None w'
    /\ effects w' = effects w ++ map enqueue works
    /\ List.length works = List.length ids
    /\ Forall (fun work =>
                 workflow_mask work =
                   Some {| mask_bounds :=
                             Bounds.mk
                               (Bounds.x (mask_bounds m) - Bounds.x bounds)
                               (Bounds.y (mask_bounds m) - Bounds.y bounds)
                               (Bounds.width (mask_bounds m))
                               (Bounds.height (mask_bounds m));
                           mask_data := mask_data m |}) works
    /\ entries w' = entries w ++ refs
    /\ List.length refs = List.length ids
    /\ List.length (lookup_all (job_objects w') refs) = List.length ids
    /\ Forall (fun j => JobParams.bounds (Job.params j) = mask_bounds m)
              (lookup_all (job_objects w') refs).
Proof.
  intros bounds cond strength img m seed ids is_live w.
  assert (J : exists job,
    _generate_job (Model.style (model w)) (job_bounds bounds (Some m)) cond
      strength (Some img) (job_mask bounds (Some m)) seed is_live w = Ok job w
    /\ workflow_mask job =
         Some (with_mask_bounds (mask_bounds_rel m bounds) m)).
  { rewrite generate_job_cases. cbn [job_mask option_map].
    destruct (Float.eqb strength Float.one && negb is_live);
      eexists; split; reflexivity. }
  destruct J as (job & Hjob & Hmask).
  destruct (generate_run _ _ _ _ _ _ ids _ _ _ Hjob)
    as (w' & Hrun & Hobj & Hent & Heff).
  exists w',
    (map (fun i =>
            Workflow.with_seed
              (seed + Z.of_nat i * Settings.batch_size (settings w)) job)
         (seq 0 (List.length ids))),
    (seq (List.length (job_objects w)) (List.length ids)).
  split; [exact Hrun | ].
  split; [rewrite Heff; unfold batch_sent; now rewrite map_map | ].
  split; [now rewrite length_map, length_seq | ].
  split.
  { apply Forall_map, Forall_forall. intros i _.
    unfold workflow_mask in *. cbn [Workflow.nodes Workflow.with_seed].
    exact Hmask. }
  split; [exact Hent | ].
  split; [apply length_seq | ].
  rewrite Hobj.
  rewrite <- (batch_jobs_length (job_kind_of is_live) (Conditioning.prompt cond)
                (Conditioning.negative_prompt cond)
                (job_bounds bounds (Some m)) strength seed
                (Settings.batch_size (settings w)) 0 ids) at 1 3.
  rewrite lookup_all_appended.
  split; [apply batch_jobs_length | apply batch_jobs_bounds].
Qed.

(** C3. A request whose operation can be chosen, with batch count N, and
    answered by the worker with N job ids: exactly N jobs are recorded, at
    the end of the collection and in the order of submission; the i-th has
    the i-th id and the seed [seed + i * batch_size]; all have the same
    bounds, prompt, negative prompt and strength. *)
Theorem generate_records_batch :
  forall bounds cond strength image mask seed ids is_live w job,
    _generate_job (Model.style (model w)) (job_bounds bounds mask) cond
      strength image (job_mask bounds mask) seed is_live w = Ok job w ->
    exists w' refs,
      resume_all
        (co_generate bounds cond strength image mask seed
           (Z.of_nat (List.length ids)) is_live)
        (started :: map enqueued ids) w = Ok None w'
      /\ entries w' = entries w ++ refs
      /\ List.length refs = List.length ids
      /\ lookup_all (job_objects w') refs =
           map (fun p =>
                  Job.mk (Some (snd p)) (job_kind_of is_live) JobState.queued
                    (JobParams.mk (job_bounds bounds mask)
                       (Conditioning.prompt cond)
                       (Conditioning.negative_prompt cond) strength
                       (seed + Z.of_nat (fst p)
                               * Settings.batch_size (settings w)))
                    None [])
               (combine (seq 0 (List.length ids)) ids).
Proof.
  intros bounds cond strength image mask seed ids is_live w job H.
  destruct (generate_run _ _ _ _ _ _ ids _ _ _ H)
    as (w' & Hrun & Hobj & Hent & _).
  exists w', (seq (List.length (job_objects w)) (List.length ids)).
  split; [exact Hrun | ].
  split; [exact Hent | ].
  split; [apply length_seq | ].
  rewrite Hobj.
  rewrite <- (batch_jobs_length (job_kind_of is_live) (Conditioning.prompt cond)
                (Conditioning.negative_prompt cond) (job_bounds bounds mask)
                strength seed (Settings.batch_size (settings w)) 0 ids) at 1.
  apply lookup_all_appended.
Qed.

(** C3 on a text-only request with batch count 3. *)
Lemma generate_records_batch_witness :
  _generate_job (Model.style (model Example.world))
    (job_bounds Example.canvas None) Example.cond Float.one None
    (job_mask Example.canvas None) 42 false Example.world =
    Ok (Workflow.mk
          (Workflow.generate "style" (Extent.mk 512 512) Example.cond false)
          42) Example.world
  /\ exists w' refs,
      resume_all
        (co_generate Example.canvas Example.cond Float.one None None 42
           (Z.of_nat (List.length ["a"; "b"; "c"])) false)
        (started :: map enqueued ["a"; "b"; "c"]) Example.world = Ok None w'
      /\ entries w' = entries Example.world ++ refs
      /\ List.length refs = List.length ["a"; "b"; "c"]
      /\ lookup_all (job_objects w') refs =
           map (fun p =>
                  Job.mk (Some (snd p)) (job_kind_of false) JobState.queued
                    (JobParams.mk (job_bounds Example.canvas None)
                       (Conditioning.prompt Example.cond)
                       (Conditioning.negative_prompt Example.cond) Float.one
                       (42 + Z.of_nat (fst p)
                             * Settings.batch_size (settings Example.world)))
                    None [])
               (combine (seq 0 (List.length ["a"; "b"; "c"])) ["a"; "b"; "c"]).
Proof.
  split; [reflexivity | ].
  apply (generate_records_batch Example.canvas Example.cond Float.one None None
           42 ["a"; "b"; "c"] false Example.world
           (Workflow.mk
              (Workflow.generate "style" (Extent.mk 512 512) Example.cond false)
              42)).
  reflexivity.
Defined.

(** ** The event router *)

(** C5. A message whose job id is not tracked: [handle_message] returns
    normally and the only difference between the states before and after is
    one more line in the log. *)
Theorem unknown_job_is_only_logged :
  forall pose_svg message w,
    find (ClientMessage.job_id message) w = None ->
    handle_message pose_svg message w =
      Ok tt (with_effects
               (effects w ++ [logged (message_for_unknown_job message)]) w)
    /\ forall w', handle_message pose_svg message w = Ok tt w' ->
         model w' = model w /\ job_objects w' = job_objects w
         /\ control_objects w' = control_objects w /\ live w' = live w
         /\ upscale w' = upscale w /\ document w' = document w
         /\ tasks w' = tasks w /\ settings w' = settings w.
Proof.
  intros pose_svg message w H.
  assert (E : handle_message pose_svg message w =
              Ok tt (with_effects
                       (effects w ++ [logged (message_for_unknown_job message)])
                       w)).
  { unfold handle_message, bind, get. now rewrite H. }
  split; [exact E | ].
  intros w' E'. rewrite E in E'. inversion E'; subst.
  repeat split; reflexivity.
Qed.

Lemma unknown_job_is_only_logged_witness :
  find (ClientMessage.job_id (ExampleMessages.finished_without_images "x"))
       Example.world = None
  /\ handle_message ExampleMessages.no_pose
       (ExampleMessages.finished_without_images "x") Example.world =
     Ok tt (with_effects
              [logged (message_for_unknown_job
                         (ExampleMessages.finished_without_images "x"))]
              Example.world).
Proof.
  split; [reflexivity | ].
  apply (unknown_job_is_only_logged ExampleMessages.no_pose
           (ExampleMessages.finished_without_images "x") Example.world).
  reflexivity.
Defined.

(** *** Finished events without images *)

Lemma find_some_job (job_id : string) (w : World) (r : ref) :
  find job_id w = Some r ->
  In r (entries w)
  /\ exists j, job_at r w = Some j /\ Job.id j = Some job_id.
Proof.
  unfold find. intros H. apply find_some in H. destruct H as [Hin Hp].
  split; [exact Hin | ].
  destruct (job_at r w) as [j | ]; [ | discriminate].
  exists j. split; [reflexivity | ].
  destruct (Job.id j) as [i | ]; cbn in Hp; [ | discriminate].
  apply String.eqb_eq in Hp. now subst.
Qed.

Lemma remove_first_in (r : ref) (l : list ref) :
  In r l -> exists rest, remove_first r l = Some rest.
Proof.
  induction l as [ | a l IH]; [contradiction | ].
  cbn [remove_first]. intros [-> | Hin].
  - rewrite Nat.eqb_refl. eauto.
  - destruct (Nat.eqb a r); [eauto | ].
    destruct (IH Hin) as (rest & ->). eauto.
Qed.

Lemma nth_error_replace_at {A} (f : A -> A) (l : list A) (r : nat) :
  nth_error (replace_at r f l) r = option_map f (nth_error l r).
Proof.
  revert r. induction l as [ | a l IH]; intros [ | r]; cbn; auto.
Qed.

Lemma nth_error_replace_at_other {A} (f : A -> A) (l : list A) (r r' : nat) :
  r <> r' -> nth_error (replace_at r f l) r' = nth_error l r'.
Proof.
  revert r r'. induction l as [ | a l IH]; intros [ | r] [ | r'] H; cbn; auto.
  congruence.
Qed.

Lemma list_find_ext {A} (p q : A -> bool) (l : list A) :
  (forall a, p a = q a) -> List.find p l = List.find q l.
Proof.
  intros H. induction l as [ | a l IH]; [reflexivity | ].
  cbn [List.find]. now rewrite H, IH.
Qed.

Lemma find_same_ids (job_id : string) (w w' : World) :
  ids w' = ids w -> entries w' = entries w -> find job_id w' = find job_id w.
Proof.
  unfold find, ids, job_at. intros Hi He. rewrite He.
  apply list_find_ext. intros r.
  assert (E : option_map Job.id (nth_error (job_objects w') r) =
              option_map Job.id (nth_error (job_objects w) r))
    by (rewrite <- !nth_error_map; now rewrite Hi).
  destruct (nth_error (job_objects w') r), (nth_error (job_objects w) r);
    cbn in E; congruence.
Qed.

Section Finished.

Variable pose_svg : string -> Extent.t -> string.

(** A finished event without images for an upscaling job without results
    fails the assertion of [add_upscale_layer]; nothing has changed. *)
Lemma finished_upscaling_without_results (message : ClientMessage.t)
    (job : ref) (j : Job.t) (w : World) :
  ClientMessage.event message = ClientEvent.finished ->
  without_images message ->
  find (ClientMessage.job_id message) w = Some job ->
  job_at job w = Some j ->
  Job.kind j = JobKind.upscaling ->
  Job.results j = [] ->
  handle_message pose_svg message w =
    Raised (AssertionError "Upscaling job did not produce an image") w.
Proof.
  intros He Hi Hf Hj Hk Hr.
  unfold handle_message, bind, get. rewrite Hf.
  unfold handle_message_of_job. rewrite He.
  assert (S : match ClientMessage.images message with
              | Some (i :: rest) => set_results job (i :: rest)
              | _ => ret tt
              end w = Ok tt w)
    by (destruct Hi as [-> | ->]; reflexivity).
  unfold bind at 1. rewrite S.
  unfold bind at 1. unfold read_job at 1. rewrite Hj, Hk.
  unfold bind at 1. unfold bind at 1.
  unfold add_upscale_layer, bind, read_job. rewrite Hj, Hk, Hr. reflexivity.
Qed.

(** A finished event without images for a control-layer job without
    results returns: the control layer is given the id of the active layer,
    the job is finished, and nothing is inserted into the document. *)
Lemma finished_control_layer_without_results (message : ClientMessage.t)
    (job cr : ref) (j : Job.t) (c : ControlLayer.t) (w : World) :
  ClientMessage.event message = ClientEvent.finished ->
  without_images message ->
  find (ClientMessage.job_id message) w = Some job ->
  job_at job w = Some j ->
  Job.kind j = JobKind.control_layer ->
  Job.control j = Some cr ->
  control_at cr w = Some c ->
  Job.results j = [] ->
  ControlMode.is_pose (ControlLayer.mode c) = false
    \/ ClientMessage.result message = None ->
  exists w',
    handle_message pose_svg message w = Ok tt w'
    /\ job_at job w' = Some (Job.with_state JobState.finished j)
    /\ control_at cr w' =
         Some (ControlLayer.with_layer_id
                 (uniqueId (Document.active_layer (document w))) c)
    /\ Model.progress (model w') = Float.one
    /\ effects w' = effects w
    /\ document w' = document w.
Proof.
  intros He Hi Hf Hj Hk Hc Hcr Hr Hp.
  destruct (find_some_job _ _ _ Hf) as (Hin & _).
  destruct (remove_first_in _ _ Hin) as (rest & Hrm).
  assert (S : match ClientMessage.images message with
              | Some (i :: rest) => set_results job (i :: rest)
              | _ => ret tt
              end w = Ok tt w)
    by (destruct Hi as [-> | ->]; reflexivity).
  assert (A : add_control_layer pose_svg job (ClientMessage.result message) w =
              Ok (Document.active_layer (document w)) w).
  { unfold add_control_layer, bind, read_job, read_control, assert.
    rewrite Hj, Hk, Hc. cbn. rewrite Hcr, Hr.
    destruct Hp as [-> | ->]; [reflexivity | ].
    destruct (ControlMode.is_pose (ControlLayer.mode c)); reflexivity. }
  cbv beta iota delta [handle_message bind get]. rewrite Hf.
  cbv beta iota delta [handle_message_of_job bind]. rewrite He, S.
  cbv beta iota delta [read_job]. rewrite Hj, Hk, Hc, A.
  cbv beta iota delta [write_control update_model modify notify_finished
                         write_job bind].
  set (w3 := with_job_objects _ _).
  assert (J3 : job_at job w3 = Some (Job.with_state JobState.finished j)).
  { unfold w3, job_at in *. cbn [job_objects with_job_objects with_model
      with_control_objects]. now rewrite nth_error_replace_at, Hj. }
  cbv beta iota delta [handle_job_finished bind read_job]. rewrite J3.
  cbn [Job.kind Job.with_state]. rewrite Hk.
  cbv beta iota delta [ret remove_job bind get].
  replace (entries w3) with (entries w) by reflexivity. rewrite Hrm.
  eexists. split; [reflexivity | ].
  split; [exact J3 | ].
  split.
  { unfold control_at in *. cbn. now rewrite nth_error_replace_at, Hcr. }
  repeat split; reflexivity.
Qed.

End Finished.

(** ** Cancelling *)

Lemma remove_first_skip (r : ref) (pre rest : list ref) :
  Forall (fun a => a <> r) pre ->
  remove_first r (pre ++ r :: rest) = Some (pre ++ rest).
Proof.
  induction 1 as [ | a pre Ha _ IH]; cbn [app remove_first].
  - now rewrite Nat.eqb_refl.
  - destruct (Nat.eqb_spec a r) as [-> | _]; [contradiction | ].
    now rewrite IH.
Qed.

Lemma remove_job_present (r : ref) (pre rest : list ref) (w : World) :
  Forall (fun a => a <> r) pre ->
  entries w = pre ++ r :: rest ->
  exists w',
    remove_job r w = Ok tt w'
    /\ entries w' = pre ++ rest
    /\ job_objects w' = job_objects w
    /\ effects w' = effects w.
Proof.
  intros Hpre He. unfold remove_job, bind, get.
  rewrite He, remove_first_skip by assumption.
  eexists. split; [reflexivity | ]. repeat split; reflexivity.
Qed.

(** Removing, in order, the tracked jobs that satisfy [p] leaves the others
    in their order. *)
Lemma for_each_remove (p : ref -> bool) :
  forall l kept w,
    Forall (fun a => p a = false) kept ->
    entries w = kept ++ l ->
    exists w',
      for_each (filter p l) remove_job w = Ok tt w'
      /\ entries w' = kept ++ filter (fun a => negb (p a)) l
      /\ job_objects w' = job_objects w
      /\ effects w' = effects w.
Proof.
  induction l as [ | a l IH]; intros kept w Hk He.
  - exists w. cbn. repeat split; auto.
  - cbn [filter]. destruct (p a) eqn:Pa; cbn [negb].
    + destruct (remove_job_present a kept l w) as (w1 & R & E1 & O1 & F1).
      { eapply Forall_impl; [ | exact Hk]. cbn. intros b Hb ->. congruence. }
      { exact He. }
      destruct (IH kept w1 Hk E1) as (w' & R' & E' & O' & F').
      exists w'. cbn [for_each]. unfold bind. rewrite R.
      repeat split; congruence.
    + destruct (IH (kept ++ [a]) w) as (w' & R' & E' & O' & F').
      { apply Forall_app. split; [exact Hk | now constructor]. }
      { now rewrite <- app_assoc. }
      exists w'. rewrite <- app_assoc in E'. repeat split; assumption.
Qed.

Lemma existsb_filter_length {A} (p : A -> bool) (l : list A) :
  existsb p l = (0 <? Z.of_nat (List.length (filter p l))).
Proof.
  induction l as [ | a l IH]; [reflexivity | ].
  cbn [existsb filter].
  destruct (p a); cbn [orb List.length].
  - symmetry. apply Z.ltb_lt. lia.
  - exact IH.
Qed.

Lemma filter_none_keeps_all {A} (p : A -> bool) (l : list A) :
  filter p l = [] -> filter (fun a => negb (p a)) l = l.
Proof.
  induction l as [ | a l IH]; [reflexivity | ].
  cbn [filter]. destruct (p a); [discriminate | ].
  cbn [negb]. intros N. now rewrite IH.
Qed.

Lemma clear_requests_app (w w' : World) (es : list Effect) :
  effects w' = effects w ++ es ->
  clear_requests w' =
    (clear_requests w + List.length (filter is_clear_queue es))%nat.
Proof.
  intros E. unfold clear_requests. now rewrite E, filter_app, length_app.
Qed.

(** C7, as the code has it.  [cancel] with [queued=True] returns normally;
    afterwards the tracked jobs are those that were not queued, in their
    order, and no job object has changed; a queue-clear was requested once
    when at least one job was queued, and not at all when none was. *)
Theorem cancel_queued_removes_queued_jobs :
  forall active w,
  exists w',
    cancel active true w = Ok tt w'
    /\ entries w' =
         filter (fun r => negb (has_state JobState.queued w r)) (entries w)
    /\ job_objects w' = job_objects w
    /\ clear_requests w' =
         (clear_requests w
          + if existsb (has_state JobState.queued w) (entries w)
            then 1 else 0)%nat.
Proof.
  intros active w.
  pose proof (existsb_filter_length (has_state JobState.queued w) (entries w))
    as Q.
  unfold cancel. cbn [when]. unfold bind at 1. unfold bind at 1.
  unfold get at 1. rewrite <- Q.
  destruct (existsb (has_state JobState.queued w) (entries w)) eqn:Any.
  - cbn [when]. unfold bind at 1. unfold effect, modify.
    set (w0 := with_effects (effects w ++ [clear_queue]) w).
    destruct (for_each_remove (has_state JobState.queued w) (entries w) [] w0)
      as (w2 & R2 & E2 & O2 & F2); [constructor | reflexivity | ].
    rewrite R2. unfold bind, get.
    exists (state_of (when (active && any_executing w2) (effect interrupt) w2)).
    destruct (active && any_executing w2); cbn [when state_of];
      unfold effect, modify, ret; cbn [state_of];
      (split; [reflexivity | ]); (split; [exact E2 | ]);
      (split; [exact O2 | ]).
    + erewrite (clear_requests_app w) with (es := [clear_queue; interrupt]);
        [reflexivity | ].
      cbn [effects with_effects]. rewrite F2. unfold w0.
      cbn [effects with_effects]. now rewrite <- app_assoc.
    + erewrite (clear_requests_app w) with (es := [clear_queue]);
        [reflexivity | ].
      rewrite F2. reflexivity.
  - cbn [when]. unfold ret at 1. unfold bind, get.
    assert (N : filter (has_state JobState.queued w) (entries w) = []).
    { destruct (filter (has_state JobState.queued w) (entries w)) eqn:Fl;
        [reflexivity | ].
      cbn [List.length] in Q. symmetry in Q. apply Z.ltb_ge in Q. lia. }
    pose proof (filter_none_keeps_all _ _ N) as K.
    exists (state_of (when (active && any_executing w) (effect interrupt) w)).
    destruct (active && any_executing w); cbn [when state_of];
      unfold effect, modify, ret; cbn [state_of];
      (split; [reflexivity | ]); (split; [now rewrite K | ]);
      (split; [reflexivity | ]).
    + erewrite (clear_requests_app w) with (es := [interrupt]);
        [reflexivity | reflexivity].
    + lia.
Qed.

(** C7 as stated fails where no tracked job is queued: no queue-clear is
    requested, and no job is removed. *)
Lemma cancel_without_queued_jobs :
  cancel false true ExampleQueues.busy = Ok tt ExampleQueues.busy
  /\ clear_requests (state_of (cancel false true ExampleQueues.busy)) = 0%nat.
Proof. split; reflexivity. Qed.

(** ** What the handlers and tasks leave alone *)

Lemma live_requests_effect (e : Effect) (w : World) :
  is_live_request e = false ->
  live_requests (with_effects (effects w ++ [e]) w) = live_requests w.
Proof.
  intros H. unfold live_requests. cbn [effects with_effects].
  rewrite filter_app, length_app. cbn [filter]. rewrite H. cbn. lia.
Qed.

Lemma kinds_replace_at (r : ref) (f : Job.t -> Job.t) (l : list Job.t) :
  (forall j, Job.kind (f j) = Job.kind j) ->
  map Job.kind (replace_at r f l) = map Job.kind l.
Proof.
  intros H. revert r. induction l as [ | a l IH]; intros [ | r];
    cbn [replace_at map]; try reflexivity.
  - now rewrite H.
  - now rewrite IH.
Qed.

Section Keeps.

Variable Pre : World -> Prop.
Hypothesis Pre_quiet :
  forall w w', is_active w' = is_active w -> kinds w' = kinds w ->
               Pre w -> Pre w'.
Hypothesis Pre_grow :
  forall w j, Pre w -> Pre (with_job_objects (job_objects w ++ [j]) w).
Hypothesis Pre_off :
  forall w, Pre w ->
            Pre (with_live (LiveWorkspace.with_is_active false (live w)) w).

Lemma keeps_ret {A} (a : A) : keeps Pre (ret a).
Proof. intros w H. cbn. auto. Qed.

Lemma keeps_raise {A} (e : Exception) : keeps Pre (@raise A e).
Proof. intros w H. cbn. auto. Qed.

Lemma keeps_bind {A B} (c : M A) (k : A -> M B) :
  keeps Pre c -> (forall a, keeps Pre (k a)) -> keeps Pre (bind c k).
Proof.
  intros Hc Hk w H. unfold bind.
  destruct (Hc w H) as [P1 L1].
  destruct (c w) as [a w1 | e w1]; cbn [state_of] in *.
  - destruct (Hk a w1 P1) as [P2 L2]. split; [exact P2 | congruence].
  - auto.
Qed.

Lemma keeps_get {B} (k : World -> M B) :
  (forall w0, Pre w0 -> keeps Pre (k w0)) -> keeps Pre (bind get k).
Proof. intros Hk w H. unfold bind, get. now apply Hk. Qed.

Lemma keeps_when (b : bool) (c : M unit) :
  keeps Pre c -> keeps Pre (when b c).
Proof. destruct b; cbn [when]; auto using keeps_ret. Qed.

Lemma keeps_assert (b : bool) (message : string) :
  keeps Pre (assert b message).
Proof. destruct b; cbn [assert]; auto using keeps_ret, keeps_raise. Qed.

Lemma keeps_emit (slot : M unit) : keeps Pre slot -> keeps Pre (emit slot).
Proof.
  intros Hs w H. destruct (Hs w H) as [P L]. unfold emit.
  destruct (slot w); cbn [state_of] in *; auto.
Qed.

Lemma keeps_modify (f : World -> World) : quiet f -> keeps Pre (modify f).
Proof.
  intros Q w H. cbn. destruct (Q w) as (Q1 & Q2 & Q3).
  split; [now apply (Pre_quiet w) | exact Q3].
Qed.

Lemma keeps_for_each {A} (xs : list A) (body : A -> M unit) :
  (forall x, keeps Pre (body x)) -> keeps Pre (for_each xs body).
Proof.
  intros Hb. induction xs as [ | x xs IH]; cbn [for_each].
  - apply keeps_ret.
  - apply keeps_bind; auto.
Qed.

Lemma keeps_read_job {B} (r : ref) (k : Job.t -> M B) :
  (forall j w0, Pre w0 -> job_at r w0 = Some j -> keeps Pre (k j)) ->
  keeps Pre (bind (read_job r) k).
Proof.
  intros Hk w H. unfold bind, read_job.
  destruct (job_at r w) as [j | ] eqn:E; cbn [state_of]; [ | auto].
  now apply (Hk j w).
Qed.

Lemma keeps_read_control (r : ref) : keeps Pre (read_control r).
Proof.
  intros w H. unfold read_control.
  destruct (control_at r w); cbn; auto.
Qed.

Lemma keeps_effect (e : Effect) :
  is_live_request e = false -> keeps Pre (effect e).
Proof.
  intros He. apply keeps_modify. intros w.
  repeat split; try reflexivity. now apply live_requests_effect.
Qed.

Lemma keeps_update_model (f : Model.t -> Model.t) : keeps Pre (update_model f).
Proof. apply keeps_modify. intros w. repeat split; reflexivity. Qed.

Lemma keeps_update_jobs (f : JobQueue.t -> JobQueue.t) :
  keeps Pre (update_jobs f).
Proof. apply keeps_update_model. Qed.

Lemma keeps_update_document (f : Document.t -> Document.t) :
  keeps Pre (update_document f).
Proof. apply keeps_modify. intros w. repeat split; reflexivity. Qed.

Lemma keeps_update_live (f : LiveWorkspace.t -> LiveWorkspace.t) :
  (forall l, LiveWorkspace._is_active (f l) = LiveWorkspace._is_active l) ->
  keeps Pre (update_live f).
Proof.
  intros Hf. apply keeps_modify. intros w.
  repeat split; try reflexivity. apply Hf.
Qed.

Lemma keeps_write_job (r : ref) (f : Job.t -> Job.t) :
  (forall j, Job.kind (f j) = Job.kind j) -> keeps Pre (write_job r f).
Proof.
  intros Hf. apply keeps_modify. intros w.
  repeat split; try reflexivity.
  unfold kinds. cbn [job_objects with_job_objects].
  now apply kinds_replace_at.
Qed.

Lemma keeps_write_control (r : ref) (f : ControlLayer.t -> ControlLayer.t) :
  keeps Pre (write_control r f).
Proof. apply keeps_modify. intros w. repeat split; reflexivity. Qed.

Lemma keeps_new_job (j : Job.t) : keeps Pre (new_job j).
Proof. intros w H. cbn. split; [now apply Pre_grow | reflexivity]. Qed.

Create HintDb keeps discriminated.
#[local] Hint Constants Opaque : keeps.
#[local] Hint Variables Opaque : keeps.

#[local] Hint Resolve keeps_update_model keeps_update_jobs
  keeps_update_document keeps_write_control keeps_new_job
  keeps_read_control : keeps.

(** One step of a proof of [keeps]: by the shape of the computation. *)
Ltac keeps_step :=
  cbv zeta;
  lazymatch goal with
  | |- keeps _ (bind get _) => apply keeps_get; intros ? ?
  | |- keeps _ (bind (read_job _) _) => apply keeps_read_job; intros ? ? ? ?
  | |- keeps _ (bind _ _) => apply keeps_bind; [ | intros ? ]
  | |- keeps _ (ret _) => apply keeps_ret
  | |- keeps _ (raise _) => apply keeps_raise
  | |- keeps _ (when _ _) => apply keeps_when
  | |- keeps _ (assert _ _) => apply keeps_assert
  | |- keeps _ (emit _) => apply keeps_emit
  | |- keeps _ (effect _) => apply keeps_effect; reflexivity
  | |- keeps _ (update_live _) =>
      apply keeps_update_live; intros []; reflexivity
  | |- keeps _ (write_job _ _) =>
      apply keeps_write_job; intros []; reflexivity
  | |- keeps _ (if ?b then _ else _) => destruct b
  | |- keeps _ (match ?x with _ => _ end) => destruct x
  | |- keeps _ _ => solve [auto with keeps]
  end.

Ltac keeps_all := repeat keeps_step.

Lemma keeps_add_job (j : Job.t) : keeps Pre (_add j).
Proof. unfold _add. keeps_all. Qed.

Lemma keeps_add kind id prompt negative bounds strength seed :
  keeps Pre (add kind id prompt negative bounds strength seed).
Proof. apply keeps_add_job. Qed.

Lemma keeps_remove_job (r : ref) : keeps Pre (remove_job r).
Proof. unfold remove_job. keeps_all. Qed.

Lemma keeps_set_results (r : ref) (images : list Image) :
  keeps Pre (set_results r images).
Proof. unfold set_results. keeps_all. Qed.

Lemma keeps_notify_started (r : ref) : keeps Pre (notify_started r).
Proof. unfold notify_started. keeps_all. Qed.

Lemma keeps_notify_cancelled (r : ref) : keeps Pre (notify_cancelled r).
Proof. unfold notify_cancelled. keeps_all. Qed.

Lemma keeps_fresh_node (type : string) : keeps Pre (fresh_node type).
Proof. unfold fresh_node. keeps_all. Qed.

#[local] Hint Resolve keeps_add keeps_remove_job keeps_set_results
  keeps_notify_started keeps_notify_cancelled keeps_fresh_node : keeps.

Lemma keeps_doc_insert_layer name content make_active below :
  keeps Pre (doc_insert_layer name content make_active below).
Proof. unfold doc_insert_layer. keeps_all. Qed.

Lemma keeps_doc_insert_vector_layer name svg :
  keeps Pre (doc_insert_vector_layer name svg).
Proof. unfold doc_insert_vector_layer. keeps_all. Qed.

Lemma keeps_doc_resize e : keeps Pre (doc_resize e).
Proof. unfold doc_resize. keeps_all. Qed.

Lemma keeps_node_remove n : keeps Pre (node_remove n).
Proof. unfold node_remove. keeps_all. Qed.

Lemma keeps_RestoreActiveLayer {A} (body : M A) :
  keeps Pre body -> keeps Pre (RestoreActiveLayer body).
Proof.
  intros Hb w H. unfold RestoreActiveLayer.
  destruct (Hb w H) as [P L].
  destruct (body w) as [a w' | e w']; cbn [state_of] in *;
    (split; [now apply (Pre_quiet w') | exact L]).
Qed.

Lemma keeps_eventloop_run (c : Coroutine) :
  is_live_request (run c) = false -> keeps Pre (eventloop_run c).
Proof.
  intros Hc. unfold eventloop_run.
  apply keeps_bind; [now apply keeps_effect | intros _].
  apply keeps_modify. intros w. repeat split; reflexivity.
Qed.

Lemma keeps_report_progress v : keeps Pre (report_progress v).
Proof. unfold report_progress. keeps_all. Qed.

Lemma keeps_clear_error : keeps Pre clear_error.
Proof. unfold clear_error. keeps_all. Qed.

Lemma keeps_get_current_image b : keeps Pre (_get_current_image b).
Proof. unfold _get_current_image. keeps_all. Qed.

Lemma keeps_py_index {A} (xs : list A) (i : Z) : keeps Pre (py_index xs i).
Proof. unfold py_index. keeps_all. Qed.

#[local] Hint Resolve keeps_doc_insert_layer keeps_doc_insert_vector_layer
  keeps_doc_resize keeps_node_remove keeps_report_progress keeps_clear_error
  keeps_get_current_image keeps_py_index : keeps.

Lemma keeps_add_recording_layer (restore_active : bool) :
  keeps Pre (_add_recording_layer restore_active).
Proof.
  unfold _add_recording_layer. keeps_all;
    try apply keeps_RestoreActiveLayer; keeps_all.
Qed.

#[local] Hint Resolve keeps_add_recording_layer : keeps.

Lemma keeps_insert_frames : keeps Pre _insert_frames.
Proof.
  unfold _insert_frames. keeps_all.
  apply keeps_eventloop_run. reflexivity.
Qed.

#[local] Hint Resolve keeps_insert_frames : keeps.

Lemma keeps_deactivate :
  keeps Pre (update_live (LiveWorkspace.with_is_active false)).
Proof. intros w H. cbn. split; [now apply Pre_off | reflexivity]. Qed.

(** Switching off, at any depth of the mutual recursion. *)
Lemma keeps_toggle_off (depth : nat) :
  keeps Pre (toggle depth false) /\ keeps Pre (toggle_record depth false).
Proof.
  induction depth as [ | depth [IHt IHr]]; cbn [toggle toggle_record].
  - split; apply keeps_raise.
  - split.
    + apply keeps_get; intros w0 _. apply keeps_when.
      apply keeps_bind; [apply keeps_deactivate | intros _; exact IHr].
    + apply keeps_get; intros w0 _. apply keeps_when.
      apply keeps_bind; [keeps_step | intros _].
      apply keeps_bind; [exact IHt | intros _]. keeps_step.
Qed.

Lemma keeps_set_inactive : keeps Pre (set_is_active false).
Proof. apply keeps_toggle_off. Qed.

Lemma keeps_report_error (message : string) : keeps Pre (report_error message).
Proof.
  unfold report_error.
  apply keeps_bind; [keeps_step | intros _; apply keeps_set_inactive].
Qed.

Lemma keeps_set_result value bounds : keeps Pre (set_result value bounds).
Proof. unfold set_result. keeps_all. Qed.

Lemma keeps_show_preview job_id index name_prefix :
  keeps Pre (show_preview job_id index name_prefix).
Proof. unfold show_preview. keeps_all. Qed.

Lemma keeps_hide_preview : keeps Pre hide_preview.
Proof. unfold hide_preview. keeps_all. Qed.

#[local] Hint Resolve keeps_report_error keeps_set_result keeps_show_preview
  keeps_hide_preview : keeps.

Lemma keeps_update_preview : keeps Pre update_preview.
Proof. unfold update_preview. keeps_all. Qed.

#[local] Hint Resolve keeps_update_preview : keeps.

Lemma keeps_select job_id index : keeps Pre (select job_id index).
Proof. unfold select. keeps_all. Qed.

Lemma keeps_add_control_layer pose_svg job result :
  keeps Pre (add_control_layer pose_svg job result).
Proof. unfold add_control_layer. keeps_all. Qed.

Lemma keeps_add_upscale_layer job : keeps Pre (add_upscale_layer job).
Proof. unfold add_upscale_layer. keeps_all. Qed.

#[local] Hint Resolve keeps_select keeps_add_control_layer
  keeps_add_upscale_layer : keeps.

(** The event router submits a live request only through the slot of
    [job_finished]. *)
Lemma keeps_handle_message_of_job pose_svg message job :
  keeps Pre (handle_job_finished job) ->
  keeps Pre (handle_message_of_job pose_svg message job).
Proof.
  intros Hf. unfold handle_message_of_job, notify_finished. keeps_all.
Qed.

Lemma keeps_handle_message_of_job_unfinished pose_svg message job :
  ClientMessage.event message <> ClientEvent.finished ->
  keeps Pre (handle_message_of_job pose_svg message job).
Proof.
  intros Hf. unfold handle_message_of_job.
  destruct (ClientMessage.event message); try congruence; keeps_all.
Qed.

Lemma keeps_unknown_job message :
  keeps Pre (effect (logged (message_for_unknown_job message))).
Proof. keeps_step. Qed.

Lemma keeps_handle_message pose_svg message :
  (forall job, keeps Pre (handle_job_finished job)) ->
  keeps Pre (handle_message pose_svg message).
Proof.
  intros Hf. unfold handle_message.
  apply keeps_get; intros w0 _.
  destruct (find (ClientMessage.job_id message) w0).
  - now apply keeps_handle_message_of_job.
  - apply keeps_unknown_job.
Qed.

(** The tasks. *)
Lemma keeps_generate_job style bounds cond strength image mask seed is_live :
  keeps Pre
    (_generate_job style bounds cond strength image mask seed is_live).
Proof. unfold _generate_job. keeps_all. Qed.

Lemma keeps_generate_loop job kind pos neg bounds strength seed i count :
  keeps Pre (_generate_loop job kind pos neg bounds strength seed i count).
Proof. unfold _generate_loop. keeps_all. Qed.

#[local] Hint Resolve keeps_generate_job keeps_generate_loop : keeps.

Lemma keeps_resume_coroutine (c : Coroutine) (r : Resumption) :
  keeps Pre (resume_coroutine c r).
Proof.
  destruct c, r; cbn [resume_coroutine];
    unfold _generate, _generate_enqueued, _upscale_image,
      _generate_control_layer, assign_id, _insert_frames_into_timeline,
      _insert_frames_entered, _insert_frames_polled, _insert_frames_loop;
    keeps_all.
Qed.

Lemma keeps_log_error (e : Exception) : keeps Pre (log_error e).
Proof. unfold log_error. keeps_all. Qed.

#[local] Hint Resolve keeps_log_error : keeps.

Lemma keeps_report_errors (coro : M (option Coroutine)) :
  keeps Pre coro -> keeps Pre (_report_errors coro).
Proof.
  intros Hc w H. unfold _report_errors.
  destruct (Hc w H) as [P L].
  destruct (coro w) as [next w' | e w']; cbn [state_of] in P, L;
    [cbn [state_of]; auto | ].
  assert (K : forall text : M string -> M (option Coroutine),
             keeps Pre (text (log_error e)) ->
             Pre (state_of (text (log_error e) w'))
             /\ live_requests (state_of (text (log_error e) w')) =
                live_requests w).
  { intros text Ht. destruct (Ht w' P) as [P2 L2]. split; congruence. }
  destruct e;
    match goal with
    | |- context [bind (log_error ?e) ?k] =>
        apply (K (fun c => bind c k))
    end; keeps_all.
Qed.

Lemma keeps_resume (c : Coroutine) (r : Resumption) : keeps Pre (resume c r).
Proof. apply keeps_report_errors, keeps_resume_coroutine. Qed.

Lemma keeps_run_task (k : nat) (r : Resumption) : keeps Pre (run_task k r).
Proof.
  unfold run_task. apply keeps_get; intros w0 _.
  destruct (nth_error (tasks w0) k); [ | apply keeps_ret].
  apply keeps_bind; [apply keeps_resume | intros next].
  apply keeps_modify. intros w. repeat split; reflexivity.
Qed.

End Keeps.

(** ** The live loop *)

Lemma live_requests_app (w w' : World) (es : list Effect) :
  effects w' = effects w ++ es ->
  live_requests w' =
    (live_requests w + List.length (filter is_live_request es))%nat.
Proof.
  intros E. unfold live_requests. now rewrite E, filter_app, length_app.
Qed.

(** [generate_live] always returns; it clears the error and hands one live
    request to the event loop. *)
Lemma generate_live_spec (w : World) :
  exists w' c,
    generate_live w = Ok tt w'
    /\ effects w' = effects w ++ [run c]
    /\ is_live_request (run c) = true
    /\ tasks w' = tasks w ++ [c]
    /\ Model.error (model w') = ""
    /\ Model.workspace (model w') = Model.workspace (model w)
    /\ live w' = live w
    /\ document w' = document w
    /\ job_objects w' = job_objects w
    /\ entries w' = entries w.
Proof.
  unfold generate_live. unfold bind at 1. unfold get at 1.
  destruct (Document.mask_from_selection (document w) _) as [mask other].
  destruct mask as [m | ];
    cbn [orb];
    try destruct (Float.ltb (LiveWorkspace.strength (live w)) Float.one);
    unfold bind, _get_current_image, get, ret, clear_error, get, bind, when,
      update_model, modify, ret, eventloop_run, effect, bind, modify;
    destruct (String.eqb (Model.error (model w)) "") eqn:E;
    cbn [negb]; do 2 eexists;
    (split; [reflexivity | ]); (split; [reflexivity | ]);
    cbn; rewrite ?E; repeat split; try reflexivity;
    now apply String.eqb_eq in E.
Qed.

(** [_insert_frames] always returns; it touches neither the model nor the
    flags of the live workspace, and leaves the keyframe buffer empty. *)
Lemma insert_frames_spec (w : World) :
  exists w',
    _insert_frames w = Ok tt w'
    /\ model w' = model w
    /\ job_objects w' = job_objects w
    /\ LiveWorkspace._is_active (live w') = LiveWorkspace._is_active (live w)
    /\ LiveWorkspace._is_recording (live w') =
         LiveWorkspace._is_recording (live w)
    /\ LiveWorkspace._result (live w') = LiveWorkspace._result (live w)
    /\ LiveWorkspace._result_bounds (live w') =
         LiveWorkspace._result_bounds (live w)
    /\ LiveWorkspace._keyframes (live w') = []
    /\ Document.is_active (document w') = Document.is_active (document w).
Proof.
  unfold _insert_frames, bind, get.
  destruct (LiveWorkspace._keyframes (live w)) as [ | frame frames] eqn:K.
  - exists w. repeat split; auto.
  - unfold _add_recording_layer, bind, get, when.
    destruct (LiveWorkspace._recording_layer (live w)) as [l | ] eqn:L.
    + destruct (attached l (document w)) eqn:A; cbn [negb];
        unfold update_live, modify, ret; cbn; rewrite ?L;
        eexists; split; try reflexivity; repeat split; reflexivity.
    + unfold ret; cbn; rewrite ?L.
      eexists; split; try reflexivity; repeat split; reflexivity.
Qed.

(** Switching the live workspace off returns at any depth of three or
    more calls; it leaves the model alone, and recording is off afterwards
    if the workspace was active. *)
Lemma toggle_off_spec (n : nat) (w : World) :
  exists w',
    toggle (S (S (S n))) false w = Ok tt w'
    /\ is_active w' = false
    /\ is_recording w' = (if is_active w then false else is_recording w)
    /\ model w' = model w
    /\ job_objects w' = job_objects w
    /\ LiveWorkspace._result (live w') = LiveWorkspace._result (live w)
    /\ LiveWorkspace._result_bounds (live w') =
         LiveWorkspace._result_bounds (live w)
    /\ Document.is_active (document w') = Document.is_active (document w).
Proof.
  cbn [toggle]. unfold bind at 1. unfold get at 1.
  destruct (is_active w) eqn:A; cbn [Bool.eqb negb when].
  2:{ exists w. unfold ret. repeat split; auto. }
  unfold bind at 1. unfold update_live at 1. unfold modify at 1.
  set (w1 := with_live (LiveWorkspace.with_is_active false (live w)) w).
  cbn [toggle_record]. unfold bind at 1. unfold get at 1.
  destruct (is_recording w1) eqn:R; cbn [Bool.eqb negb when].
  2:{ exists w1. unfold ret. repeat split; auto. }
  unfold bind at 1. unfold update_live at 1. unfold modify at 1.
  set (w2 := with_live (LiveWorkspace.with_is_recording false (live w1)) w1).
  unfold bind at 1. cbn [toggle]. unfold bind at 1. unfold get at 1.
  replace (is_active w2) with false by reflexivity.
  cbn [Bool.eqb negb when]. unfold ret at 1.
  destruct (insert_frames_spec w2)
    as (w' & E & Hm & Hj & Ha & Hr & Hres & Hb & _ & Hd).
  exists w'. split; [exact E | ].
  unfold is_active, is_recording. rewrite Ha, Hr, Hm, Hj, Hres, Hb, Hd.
  repeat split; reflexivity.
Qed.

Lemma set_inactive_spec (w : World) :
  exists w',
    set_is_active false w = Ok tt w'
    /\ is_active w' = false
    /\ is_recording w' = (if is_active w then false else is_recording w)
    /\ model w' = model w
    /\ job_objects w' = job_objects w
    /\ LiveWorkspace._result (live w') = LiveWorkspace._result (live w)
    /\ LiveWorkspace._result_bounds (live w') =
         LiveWorkspace._result_bounds (live w)
    /\ Document.is_active (document w') = Document.is_active (document w).
Proof. exact (toggle_off_spec 997 w). Qed.

(** Switching the live workspace on, from off: one live request. *)
Lemma set_active_spec (w : World) :
  is_active w = false ->
  exists w',
    set_is_active true w = Ok tt w'
    /\ is_active w' = true
    /\ live_requests w' = S (live_requests w).
Proof.
  intros A. unfold set_is_active.
  change recursion_limit with (S 999). cbn [toggle].
  unfold bind at 1. unfold get at 1. rewrite A. cbn [Bool.eqb negb when].
  unfold bind at 1. unfold update_live at 1. unfold modify at 1.
  set (w1 := with_live (LiveWorkspace.with_is_active true (live w)) w).
  destruct (generate_live_spec w1)
    as (w' & c & E & Heff & Hc & _ & _ & _ & Hl & _).
  exists w'. split; [exact E | ]. split.
  - unfold is_active. now rewrite Hl.
  - rewrite (live_requests_app w1 w' [run c] Heff).
    cbn [filter]. rewrite Hc. cbn [List.length].
    replace (live_requests w1) with (live_requests w) by reflexivity. lia.
Qed.

(** Assigning the active flag the value it already has does nothing. *)
Lemma set_is_active_same (v : bool) (w : World) :
  is_active w = v -> set_is_active v w = Ok tt w.
Proof.
  intros <-.
  unfold set_is_active. change recursion_limit with (S 999). cbn [toggle].
  unfold bind, get. now rewrite Bool.eqb_reflx.
Qed.

(** *** Instances of [keeps] *)

Lemma inactive_quiet (w w' : World) :
  is_active w' = is_active w -> kinds w' = kinds w ->
  inactive w -> inactive w'.
Proof. unfold inactive. congruence. Qed.

Lemma inactive_grow (w : World) (j : Job.t) :
  inactive w -> inactive (with_job_objects (job_objects w ++ [j]) w).
Proof. auto. Qed.

Lemma inactive_off (w : World) :
  inactive w ->
  inactive (with_live (LiveWorkspace.with_is_active false (live w)) w).
Proof. reflexivity. Qed.

Lemma has_kind_quiet r k (w w' : World) :
  is_active w' = is_active w -> kinds w' = kinds w ->
  has_kind r k w -> has_kind r k w'.
Proof. unfold has_kind. congruence. Qed.

Lemma has_kind_grow r k (w : World) (j : Job.t) :
  has_kind r k w -> has_kind r k (with_job_objects (job_objects w ++ [j]) w).
Proof.
  unfold has_kind, kinds. cbn [job_objects with_job_objects].
  rewrite map_app. intros H. rewrite nth_error_app1; [exact H | ].
  apply nth_error_Some. congruence.
Qed.

Lemma has_kind_off r k (w : World) :
  has_kind r k w ->
  has_kind r k (with_live (LiveWorkspace.with_is_active false (live w)) w).
Proof. auto. Qed.

Lemma has_kind_job_at r k j (w : World) :
  has_kind r k w -> job_at r w = Some j -> Job.kind j = k.
Proof.
  unfold has_kind, kinds, job_at. intros H E.
  rewrite nth_error_map, E in H. cbn in H. congruence.
Qed.

(** While the workspace is off, the slot of [job_finished] submits
    nothing and leaves it off. *)
Lemma calm_handle_job_finished (r : ref) :
  keeps inactive (handle_job_finished r).
Proof.
  unfold handle_job_finished.
  apply keeps_read_job. intros j w0 _ _.
  destruct (Job.kind j); try apply keeps_ret.
  apply keeps_bind.
  { destruct (Job.results j); [apply keeps_ret | ].
    apply keeps_set_result, inactive_quiet. }
  intros _. apply keeps_get. intros w1 I1.
  unfold inactive, is_active in I1. rewrite I1. cbn [andb].
  apply keeps_bind.
  { apply keeps_set_inactive; [apply inactive_quiet | apply inactive_off]. }
  intros _. apply keeps_get. intros w2 I2.
  unfold inactive in I2. rewrite I2. apply keeps_ret.
Qed.

(** The slot does nothing for a job that is not a live preview. *)
Lemma has_kind_handle_job_finished (r : ref) (k : JobKind.t) :
  is_live_preview k = false ->
  keeps (has_kind r k) (handle_job_finished r).
Proof.
  intros Hk. unfold handle_job_finished.
  apply keeps_read_job. intros j w0 H0 E0.
  rewrite (has_kind_job_at _ _ _ _ H0 E0).
  destruct k; try discriminate; apply keeps_ret.
Qed.

Section Reactions.

Variable pose_svg : string -> Extent.t -> string.

(** While the workspace is off, no event submits a live request or
    switches it on. *)
Lemma calm_react (e : Event) (w : World) :
  inactive w ->
  inactive (react pose_svg e w)
  /\ live_requests (react pose_svg e w) = live_requests w.
Proof.
  intros I. destruct e as [message | k r | change]; cbn [react].
  - exact (keeps_handle_message inactive inactive_quiet inactive_off pose_svg
             message calm_handle_job_finished w I).
  - exact (keeps_run_task inactive inactive_quiet inactive_grow inactive_off
             k r w I).
  - split; [exact I | reflexivity].
Qed.

Lemma calm_react_all (es : list Event) (w : World) :
  inactive w ->
  inactive (react_all pose_svg es w)
  /\ live_requests (react_all pose_svg es w) = live_requests w.
Proof.
  revert w. induction es as [ | e es IH]; intros w I; cbn; [auto | ].
  destruct (calm_react e w I) as [I1 L1].
  destruct (IH _ I1) as [I2 L2].
  unfold react_all in *. split; [exact I2 | congruence].
Qed.

(** An event that does not finish a live-preview job submits no live
    request, whether the workspace is on or off. *)
Lemma silent_react (e : Event) (w : World) :
  finishes_live_job e w = false ->
  live_requests (react pose_svg e w) = live_requests w.
Proof.
  intros F. destruct e as [message | k r | change]; cbn [react].
  - unfold handle_message, bind, get.
    destruct (find (ClientMessage.job_id message) w) as [job | ] eqn:Ef.
    + cbn [finishes_live_job] in F. rewrite Ef in F.
      destruct (ClientEvent.t_eq_dec_finished (ClientMessage.event message))
        as [Efin | Efin].
      * rewrite Efin in F.
        destruct (job_at job w) as [j | ] eqn:Ej.
        -- apply (keeps_handle_message_of_job (has_kind job (Job.kind j))
                    (has_kind_quiet job (Job.kind j))
                    (has_kind_off job (Job.kind j)) pose_svg message job
                    (has_kind_handle_job_finished job (Job.kind j) F) w).
           unfold has_kind, kinds, job_at in *.
           now rewrite nth_error_map, Ej.
        -- unfold handle_message_of_job. rewrite Efin.
           destruct (ClientMessage.images message) as [[ | i rest] | ];
             unfold bind, set_results, write_job, modify, ret, read_job,
               job_at in *; cbn [job_objects with_job_objects];
             rewrite ?Ej; try reflexivity.
           assert (N : nth_error
                         (replace_at job (Job.with_results (i :: rest))
                            (job_objects w)) job = None).
           { clear -Ej. revert Ej. generalize (job_objects w).
             induction job as [ | n IH]; intros [ | a l]; cbn; auto;
               discriminate. }
           now rewrite N.
      * now apply (keeps_handle_message_of_job_unfinished (fun _ => True)
                     (fun _ _ _ _ _ => Logic.I) (fun _ _ => Logic.I) pose_svg
                     message job Efin w).
    + now apply (keeps_unknown_job (fun _ => True)
                   (fun _ _ _ _ _ => Logic.I) message w).
  - now apply (keeps_run_task (fun _ => True) (fun _ _ _ _ _ => Logic.I)
                 (fun _ _ _ => Logic.I) (fun _ _ => Logic.I) k r w).
  - reflexivity.
Qed.

Lemma silent_react_all (es : list Event) (w : World) :
  no_live_job_finishes pose_svg es w ->
  live_requests (react_all pose_svg es w) = live_requests w.
Proof.
  revert w. induction es as [ | e es IH]; intros w H; cbn; [auto | ].
  destruct H as [F H]. unfold react_all in IH.
  rewrite (IH _ H). now apply silent_react.
Qed.

End Reactions.

Lemma set_inactive_silent (w : World) :
  live_requests (state_of (set_is_active false w)) = live_requests w.
Proof.
  now apply (keeps_set_inactive (fun _ => True) (fun _ _ _ _ _ => Logic.I)
               (fun _ _ => Logic.I) w).
Qed.

Lemma set_result_spec (value : Image) (bounds : Bounds.t) (w : World) :
  exists w',
    set_result value bounds w = Ok tt w'
    /\ LiveWorkspace._result (live w') = Some value
    /\ LiveWorkspace._result_bounds (live w') = Some bounds
    /\ is_active w' = is_active w
    /\ document w' = document w
    /\ effects w' = effects w.
Proof.
  unfold set_result, bind, update_live, modify, get, when.
  set (w1 := with_live _ w).
  replace (is_recording w1) with (is_recording w) by reflexivity.
  destruct (is_recording w); eexists; (split; [reflexivity | ]);
    repeat split; reflexivity.
Qed.

(** What the slot of [job_finished] does for a live-preview job. *)
Lemma handle_live_job_finished (r : ref) (j : Job.t) (w : World) :
  job_at r w = Some j ->
  Job.kind j = JobKind.live_preview ->
  exists w',
    handle_job_finished r w = Ok tt w'
    /\ match Job.results j with
       | first :: _ =>
           LiveWorkspace._result (live w') = Some first
           /\ LiveWorkspace._result_bounds (live w') =
                Some (JobParams.bounds (Job.params j))
       | [] =>
           LiveWorkspace._result (live w') = LiveWorkspace._result (live w)
           /\ LiveWorkspace._result_bounds (live w') =
                LiveWorkspace._result_bounds (live w)
       end
    /\ is_active w' = (is_active w && Document.is_active (document w))
    /\ live_requests w' =
         (live_requests w
          + if is_active w && Document.is_active (document w) then 1 else 0)%nat.
Proof.
  intros Ej Ek. unfold handle_job_finished. unfold bind at 1.
  unfold read_job. rewrite Ej, Ek.
  assert (S1 : exists w1,
    match Job.results j with
    | first :: _ => set_result first (JobParams.bounds (Job.params j))
    | [] => ret tt
    end w = Ok tt w1
    /\ match Job.results j with
       | first :: _ =>
           LiveWorkspace._result (live w1) = Some first
           /\ LiveWorkspace._result_bounds (live w1) =
                Some (JobParams.bounds (Job.params j))
       | [] =>
           LiveWorkspace._result (live w1) = LiveWorkspace._result (live w)
           /\ LiveWorkspace._result_bounds (live w1) =
                LiveWorkspace._result_bounds (live w)
       end
    /\ is_active w1 = is_active w
    /\ document w1 = document w
    /\ effects w1 = effects w).
  { destruct (Job.results j) as [ | first rest].
    - exists w. unfold ret. repeat split; reflexivity.
    - destruct (set_result_spec first (JobParams.bounds (Job.params j)) w)
        as (w1 & E & R1 & R2 & A & D & F).
      exists w1. repeat split; assumption. }
  destruct S1 as (w1 & E1 & R1 & A1 & D1 & F1).
  unfold bind at 1. rewrite E1.
  unfold bind at 1. unfold get at 1.
  assert (L1 : live_requests w1 = live_requests w)
    by (unfold live_requests; now rewrite F1).
  rewrite <- A1, <- D1, <- L1.
  fold (is_active w1).
  destruct (is_active w1) eqn:A; cbn [andb].
  - destruct (Document.is_active (document w1)) eqn:D.
    + unfold bind at 1. rewrite (set_is_active_same true w1 A).
      unfold bind, get. rewrite A. cbn [when].
      destruct (generate_live_spec w1)
        as (w' & c & E & Heff & Hc & _ & _ & _ & Hl & _).
      exists w'. split; [exact E | ].
      split; [now rewrite Hl | ].
      split; [unfold is_active in *; now rewrite Hl | ].
      rewrite (live_requests_app w1 w' [run c] Heff).
      cbn [filter]. now rewrite Hc.
    + destruct (set_inactive_spec w1)
        as (w2 & E & A2 & _ & _ & _ & R2 & B2 & _).
      unfold bind at 1. rewrite E. unfold bind, get. rewrite A2. cbn [when].
      exists w2. split; [reflexivity | ].
      split; [now rewrite R2, B2 | ].
      split; [exact A2 | ].
      pose proof (set_inactive_silent w1) as S. rewrite E in S. cbn in S. lia.
  - unfold bind at 1. rewrite (set_is_active_same false w1 A).
    unfold bind, get. rewrite A. cbn [when]. unfold ret.
    exists w1. split; [reflexivity | ].
    split; [exact R1 | ]. split; [exact A | lia].
Qed.

(** C4. Toggled on while off, the live workspace submits one live request.
    If it is toggled off before any live-preview job has finished, then
    whatever the worker, the event loop and the host do afterwards, no
    further live request is submitted.  In general, when a live-preview
    job finishes, its first result (if it has one) becomes the current
    result of the workspace, and one new live request is submitted if the
    workspace is active and the document is valid, none otherwise. *)
Theorem live_loop_resubmits_only_while_active :
  forall pose_svg w,
    (forall es1 es2,
       inactive w ->
       no_live_job_finishes pose_svg es1 (state_of (set_is_active true w)) ->
       live_requests (state_of (set_is_active true w)) = S (live_requests w)
       /\ live_requests
            (react_all pose_svg es2
               (state_of
                  (set_is_active false
                     (react_all pose_svg es1
                        (state_of (set_is_active true w)))))) =
          S (live_requests w))
    /\ (forall r j,
          job_at r w = Some j ->
          Job.kind j = JobKind.live_preview ->
          exists w',
            handle_job_finished r w = Ok tt w'
            /\ match Job.results j with
               | first :: _ =>
                   LiveWorkspace._result (live w') = Some first
                   /\ LiveWorkspace._result_bounds (live w') =
                        Some (JobParams.bounds (Job.params j))
               | [] =>
                   LiveWorkspace._result (live w') =
                     LiveWorkspace._result (live w)
                   /\ LiveWorkspace._result_bounds (live w') =
                        LiveWorkspace._result_bounds (live w)
               end
            /\ is_active w' = (is_active w && Document.is_active (document w))
            /\ live_requests w' =
                 (live_requests w
                  + if is_active w && Document.is_active (document w)
                    then 1 else 0)%nat).
Proof.
  intros pose_svg w. split.
  - intros es1 es2 I N.
    destruct (set_active_spec w I) as (w1 & E1 & _ & L1).
    rewrite E1 in *. cbn [state_of] in *.
    split; [exact L1 | ].
    set (w1' := react_all pose_svg es1 w1).
    destruct (set_inactive_spec w1') as (w2 & E2 & A2 & _).
    pose proof (set_inactive_silent w1') as S2.
    rewrite E2 in *. cbn [state_of] in *.
    destruct (calm_react_all pose_svg es2 w2 A2) as [_ L3].
    rewrite L3, S2. unfold w1'.
    now rewrite (silent_react_all pose_svg es1 w1 N).
  - intros r j. apply handle_live_job_finished.
Qed.

Lemma live_loop_resubmits_only_while_active_witness :
  (inactive Example.world
   /\ no_live_job_finishes ExampleMessages.no_pose
        ExampleLive.before_any_result
        (state_of (set_is_active true Example.world))
   /\ live_requests
        (react_all ExampleMessages.no_pose ExampleLive.afterwards
           (state_of
              (set_is_active false
                 (react_all ExampleMessages.no_pose
                    ExampleLive.before_any_result
                    (state_of (set_is_active true Example.world)))))) = 1%nat)
  /\ (job_at 0%nat ExampleLive.running = Some ExampleLive.live_job
      /\ Job.kind ExampleLive.live_job = JobKind.live_preview
      /\ exists w',
           handle_job_finished 0%nat ExampleLive.running = Ok tt w'
           /\ LiveWorkspace._result (live w') = Some Example.picture
           /\ live_requests w' = 1%nat).
Proof.
  destruct (live_loop_resubmits_only_while_active ExampleMessages.no_pose
              Example.world) as [H1 _].
  destruct (live_loop_resubmits_only_while_active ExampleMessages.no_pose
              ExampleLive.running) as [_ H2].
  split.
  - assert (I : inactive Example.world) by reflexivity.
    assert (N : no_live_job_finishes ExampleMessages.no_pose
                  ExampleLive.before_any_result
                  (state_of (set_is_active true Example.world)))
      by (vm_compute; auto).
    split; [exact I | ]. split; [exact N | ].
    exact (proj2 (H1 ExampleLive.before_any_result ExampleLive.afterwards I N)).
  - split; [reflexivity | ]. split; [reflexivity | ].
    destruct (H2 0%nat ExampleLive.live_job eq_refl eq_refl)
      as (w' & E & R & _ & L).
    exists w'. split; [exact E | ]. split; [exact (proj1 R) | exact L].
Defined.

(** ** What a finished event without images does *)

Lemma py_index_cases {A} (xs : list A) (i : Z) :
  (exists a, forall w, py_index xs i w = Ok a w)
  \/ (forall w, py_index xs i w = Raised IndexError w).
Proof.
  unfold py_index. cbv zeta.
  destruct ((0 <=? (if i <? 0 then i + Z.of_nat (List.length xs) else i))
            && ((if i <? 0 then i + Z.of_nat (List.length xs) else i)
                <? Z.of_nat (List.length xs))); [ | now right].
  destruct (nth_error xs
              (Z.to_nat (if i <? 0 then i + Z.of_nat (List.length xs) else i)))
    as [a | ]; [left; exists a | right]; reflexivity.
Qed.

(** Showing a preview changes neither a job object nor the tracked jobs,
    whether it returns or raises. *)
Lemma show_preview_frame (job_id : string) (index : Z) (name_prefix : string)
    (w : World) :
  job_objects (state_of (show_preview job_id index name_prefix w)) =
    job_objects w
  /\ entries (state_of (show_preview job_id index name_prefix w)) = entries w.
Proof.
  cbv beta iota zeta delta [show_preview bind get].
  destruct (find job_id w) as [job | ]; [ | split; reflexivity].
  unfold read_job. destruct (job_at job w) as [j | ]; [ | split; reflexivity].
  destruct (py_index_cases (Job.results j) index) as [[image Hi] | Hi];
    destruct (Model._layer (model w)) as [l | ] eqn:L;
    try destruct (attached l (document w));
    cbn [negb when];
    cbv beta iota zeta delta [update_model modify ret effect doc_insert_layer
                                fresh_node bind get update_document when];
    cbn [model with_model Model._layer Model.with_layer];
    rewrite ?L, ?Hi; split; reflexivity.
Qed.

(** [JobQueue.select] returns whatever the preview does. *)
Lemma select_frame (job_id : string) (index : Z) (w : World) :
  exists w',
    select job_id index w = Ok tt w'
    /\ job_objects w' = job_objects w
    /\ entries w' = entries w.
Proof.
  cbv beta iota zeta delta [select bind get].
  destruct (negb (item_eqb (JobQueue.selection (Model.jobs (model w)))
                    (Some (JobQueue.mk_item job_id index))));
    cbn [when]; [ | exists w; repeat split; reflexivity].
  cbv beta iota delta [update_jobs update_model modify bind emit
                         update_preview get].
  cbn [model with_model Model.jobs Model.with_jobs JobQueue.selection
         JobQueue.with_selection JobQueue.job JobQueue.image].
  match goal with
  | |- context [show_preview ?a ?b ?c ?w1] =>
      destruct (show_preview_frame a b c w1) as [O E];
      destruct (show_preview a b c w1) as [[] w2 | e w2];
      cbn [state_of] in O, E; exists w2; (split; [reflexivity | ]);
      (split; [exact O | exact E])
  end.
Qed.

(** The slot of [job_finished] returns for every job object, and changes
    neither a job object nor the tracked jobs. *)
Lemma handle_job_finished_frame (r : ref) (j : Job.t) (w : World) :
  job_at r w = Some j ->
  exists w',
    handle_job_finished r w = Ok tt w'
    /\ job_objects w' = job_objects w
    /\ entries w' = entries w.
Proof.
  intros Hj. unfold handle_job_finished. unfold bind at 1.
  unfold read_job. rewrite Hj.
  destruct (Job.kind j); try (exists w; repeat split; reflexivity).
  assert (S1 : exists w1,
    match Job.results j with
    | first :: _ => set_result first (JobParams.bounds (Job.params j))
    | [] => ret tt
    end w = Ok tt w1
    /\ job_objects w1 = job_objects w /\ entries w1 = entries w).
  { destruct (Job.results j) as [ | first rest].
    - exists w. repeat split; reflexivity.
    - unfold set_result, bind, update_live, modify, get, when.
      match goal with
      | |- context [if ?b then _ else _] => destruct b
      end; eexists; repeat split; reflexivity. }
  destruct S1 as (w1 & E1 & O1 & N1).
  unfold bind at 1. rewrite E1. unfold bind at 1. unfold get at 1.
  assert (S2 : exists w2,
    set_is_active (LiveWorkspace._is_active (live w1)
                   && Document.is_active (document w1)) w1 = Ok tt w2
    /\ job_objects w2 = job_objects w1 /\ entries w2 = entries w1).
  { fold (is_active w1). destruct (is_active w1) eqn:A; cbn [andb].
    - destruct (Document.is_active (document w1)).
      + rewrite (set_is_active_same true w1 A).
        exists w1. repeat split; reflexivity.
      + destruct (set_inactive_spec w1) as (w2 & E & _ & _ & Hm & Ho & _).
        exists w2. split; [exact E | ]. split; [exact Ho | ].
        unfold entries. now rewrite Hm.
    - rewrite (set_is_active_same false w1 A).
      exists w1. repeat split; reflexivity. }
  destruct S2 as (w2 & E2 & O2 & N2).
  unfold bind at 1. rewrite E2. unfold bind, get.
  destruct (is_active w2); cbn [when].
  - destruct (generate_live_spec w2)
      as (w' & c & E & _ & _ & _ & _ & _ & _ & _ & O & N).
    exists w'. split; [exact E | ]. split; congruence.
  - exists w2. split; [reflexivity | ]. split; congruence.
Qed.

Section FinishedWithoutImages.

Variable pose_svg : string -> Extent.t -> string.

(** The finished branch of [handle_message] for a message without images,
    once the job is found: nothing is attached to the job. *)
Lemma finished_without_images_steps (message : ClientMessage.t) (job : ref)
    (j : Job.t) (w : World) :
  ClientMessage.event message = ClientEvent.finished ->
  without_images message ->
  find (ClientMessage.job_id message) w = Some job ->
  job_at job w = Some j ->
  handle_message pose_svg message w =
    (match Job.kind j with
     | JobKind.control_layer =>
         match Job.control j with
         | None => raise (AssertionError "")
         | Some cr =>
             l <- add_control_layer pose_svg job (ClientMessage.result message) ;;
             write_control cr (ControlLayer.with_layer_id (uniqueId l))
         end
     | JobKind.upscaling => add_upscale_layer job
     | _ => ret tt
     end ;;
     update_model (Model.with_progress Float.one) ;;
     notify_finished job ;;
     match Job.kind j with
     | JobKind.diffusion =>
         w <- get ;;
         match Job.id j with
         | Some id =>
             when (Settings.auto_preview (settings w)
                   && match Model._layer (model w) with
                      | None => true
                      | Some _ => false
                      end
                   && truthy (Job.id j))
                  (select id 0)
         | None => ret tt
         end
     | _ => remove_job job
     end) w.
Proof.
  intros He Hi Hf Hj.
  assert (S : match ClientMessage.images message with
              | Some (i :: rest) => set_results job (i :: rest)
              | _ => ret tt
              end w = Ok tt w)
    by (destruct Hi as [-> | ->]; reflexivity).
  unfold handle_message. unfold bind at 1. unfold get at 1. rewrite Hf.
  unfold handle_message_of_job. rewrite He.
  unfold bind at 1. rewrite S.
  unfold bind at 1. unfold read_job at 1. rewrite Hj. reflexivity.
Qed.

(** With progress at 1, the job becomes finished and its slot runs. *)
Lemma finish_and_notify (job : ref) (j : Job.t) (w : World) :
  job_at job w = Some j ->
  exists w',
    notify_finished job
      (with_model (Model.with_progress Float.one (model w)) w) = Ok tt w'
    /\ job_at job w' = Some (Job.with_state JobState.finished j)
    /\ entries w' = entries w.
Proof.
  intros Hj.
  cbv beta iota delta [notify_finished write_job modify bind].
  set (w3 := with_job_objects _ _).
  assert (J3 : job_at job w3 = Some (Job.with_state JobState.finished j)).
  { unfold w3, job_at in *. cbn [job_objects with_job_objects with_model].
    now rewrite nth_error_replace_at, Hj. }
  destruct (handle_job_finished_frame job _ w3 J3) as (w' & E & O & N).
  exists w'. split; [exact E | ].
  split; [unfold job_at in *; now rewrite O | ].
  rewrite N. reflexivity.
Qed.

Lemma remove_tracked_job (job : ref) (w : World) :
  In job (entries w) ->
  exists w',
    remove_job job w = Ok tt w' /\ job_objects w' = job_objects w.
Proof.
  intros Hin. destruct (remove_first_in _ _ Hin) as (rest & Hrm).
  unfold remove_job, bind, get. rewrite Hrm.
  eexists. split; reflexivity.
Qed.

(** Jobs that need no post-processing. *)
Lemma finished_plain_without_images (message : ClientMessage.t) (job : ref)
    (j : Job.t) (w : World) :
  ClientMessage.event message = ClientEvent.finished ->
  without_images message ->
  find (ClientMessage.job_id message) w = Some job ->
  job_at job w = Some j ->
  Job.kind j = JobKind.diffusion \/ Job.kind j = JobKind.live_preview ->
  exists w',
    handle_message pose_svg message w = Ok tt w'
    /\ job_at job w' = Some (Job.with_state JobState.finished j).
Proof.
  intros He Hi Hf Hj Hk.
  destruct (find_some_job _ _ _ Hf) as (Hin & _).
  rewrite (finished_without_images_steps message job j w He Hi Hf Hj).
  destruct (finish_and_notify job j w Hj) as (w1 & E1 & J1 & N1).
  assert (P : (match Job.kind j with
               | JobKind.control_layer =>
                   match Job.control j with
                   | None => raise (AssertionError "")
                   | Some cr =>
                       l <- add_control_layer pose_svg job
                              (ClientMessage.result message) ;;
                       write_control cr
                         (ControlLayer.with_layer_id (uniqueId l))
                   end
               | JobKind.upscaling => add_upscale_layer job
               | _ => ret tt
               end) w = Ok tt w)
    by (destruct Hk as [-> | ->]; reflexivity).
  unfold bind at 1. rewrite P.
  unfold bind at 1. unfold update_model at 1. unfold modify at 1.
  unfold bind at 1. rewrite E1.
  destruct Hk as [Hk | Hk]; rewrite Hk.
  - unfold bind, get.
    destruct (Job.id j) as [id | ]; [ | exists w1; split; [reflexivity | exact J1]].
    match goal with
    | |- context [when ?b _] => destruct b
    end; cbn [when]; [ | exists w1; split; [reflexivity | exact J1]].
    destruct (select_frame id 0 w1) as (w' & E & O & _).
    exists w'. split; [exact E | ]. unfold job_at in *. now rewrite O.
  - destruct (remove_tracked_job job w1) as (w' & E & O).
    { now rewrite N1. }
    exists w'. split; [exact E | ]. unfold job_at in *. now rewrite O.
Qed.

(** The first result of a control-layer job, or its pose, becomes a layer;
    without either, the active layer is the answer. *)
Lemma add_control_layer_returns (job cr : ref) (j : Job.t)
    (c : ControlLayer.t) (result : option string) (w : World) :
  job_at job w = Some j ->
  Job.kind j = JobKind.control_layer ->
  Job.control j = Some cr ->
  control_at cr w = Some c ->
  exists l w',
    add_control_layer pose_svg job result w = Ok l w'
    /\ job_objects w' = job_objects w
    /\ control_objects w' = control_objects w
    /\ entries w' = entries w.
Proof.
  intros Hj Hk Hc Hcr.
  cbv beta iota zeta delta [add_control_layer bind read_job read_control
                              assert].
  rewrite Hj, Hk, Hc. cbv beta iota delta [ret]. rewrite Hcr.
  destruct (ControlMode.is_pose (ControlLayer.mode c)), result,
    (Job.results j);
    do 2 eexists; (split; [reflexivity | ]); repeat split; reflexivity.
Qed.

Lemma finished_control_layer_without_images (message : ClientMessage.t)
    (job cr : ref) (j : Job.t) (c : ControlLayer.t) (w : World) :
  ClientMessage.event message = ClientEvent.finished ->
  without_images message ->
  find (ClientMessage.job_id message) w = Some job ->
  job_at job w = Some j ->
  Job.kind j = JobKind.control_layer ->
  Job.control j = Some cr ->
  control_at cr w = Some c ->
  exists w',
    handle_message pose_svg message w = Ok tt w'
    /\ job_at job w' = Some (Job.with_state JobState.finished j).
Proof.
  intros He Hi Hf Hj Hk Hc Hcr.
  destruct (find_some_job _ _ _ Hf) as (Hin & _).
  rewrite (finished_without_images_steps message job j w He Hi Hf Hj).
  rewrite Hk, Hc.
  destruct (add_control_layer_returns job cr j c
              (ClientMessage.result message) w Hj Hk Hc Hcr)
    as (l & w1 & E1 & O1 & _ & N1).
  unfold bind at 1. unfold bind at 1. rewrite E1.
  unfold write_control at 1. unfold modify at 1.
  set (w2 := with_control_objects _ w1).
  assert (J2 : job_at job w2 = Some j)
    by (unfold job_at in *; cbn [job_objects w2 with_control_objects];
        now rewrite O1).
  destruct (finish_and_notify job j w2 J2) as (w3 & E3 & J3 & N3).
  unfold bind at 1. unfold update_model at 1. unfold modify at 1.
  unfold bind at 1. rewrite E3.
  destruct (remove_tracked_job job w3) as (w' & E & O).
  { rewrite N3. replace (entries w2) with (entries w1) by reflexivity.
    now rewrite N1. }
  exists w'. split; [exact E | ]. unfold job_at in *. now rewrite O.
Qed.

End FinishedWithoutImages.

(** C6. A finished event without images for a tracked job.  For an
    upscaling job without results the assertion of [add_upscale_layer]
    fails, and nothing has changed.  For every other kind the handler
    returns and the job is finished: a diffusion or live-preview job needs
    no post-processing; for a control-layer job the post-processing runs,
    and when the job has no results and no pose is rendered, it inserts
    nothing and the control layer is given the id of the active layer. *)
Theorem finished_without_images_is_handled :
  forall pose_svg message job j w,
    ClientMessage.event message = ClientEvent.finished ->
    without_images message ->
    find (ClientMessage.job_id message) w = Some job ->
    job_at job w = Some j ->
    match Job.kind j with
    | JobKind.upscaling =>
        Job.results j = [] ->
        handle_message pose_svg message w =
          Raised (AssertionError "Upscaling job did not produce an image") w
    | JobKind.control_layer =>
        forall cr c,
          Job.control j = Some cr ->
          control_at cr w = Some c ->
          exists w',
            handle_message pose_svg message w = Ok tt w'
            /\ job_at job w' = Some (Job.with_state JobState.finished j)
            /\ (Job.results j = [] ->
                ControlMode.is_pose (ControlLayer.mode c) = false
                  \/ ClientMessage.result message = None ->
                control_at cr w' =
                  Some (ControlLayer.with_layer_id
                          (uniqueId (Document.active_layer (document w))) c)
                /\ document w' = document w
                /\ effects w' = effects w)
    | JobKind.diffusion | JobKind.live_preview =>
        exists w',
          handle_message pose_svg message w = Ok tt w'
          /\ job_at job w' = Some (Job.with_state JobState.finished j)
    end.
Proof.
  intros pose_svg message job j w He Hi Hf Hj.
  destruct (Job.kind j) eqn:Hk.
  - apply (finished_plain_without_images pose_svg message job j w); auto.
  - intros cr c Hc Hcr.
    destruct (finished_control_layer_without_images pose_svg message job cr j
                c w He Hi Hf Hj Hk Hc Hcr) as (w' & E & J).
    exists w'. split; [exact E | ]. split; [exact J | ].
    intros Hr Hp.
    destruct (finished_control_layer_without_results pose_svg message job cr
                j c w He Hi Hf Hj Hk Hc Hcr Hr Hp)
      as (w'' & E' & _ & C & _ & F & D).
    rewrite E in E'. inversion E'; subst w''.
    split; [exact C | ]. split; [exact D | exact F].
  - intros Hr.
    apply (finished_upscaling_without_results pose_svg message job j w);
      assumption.
  - apply (finished_plain_without_images pose_svg message job j w); auto.
Qed.

Lemma finished_without_images_is_handled_witness :
  (find "a" (ExampleFinished.executing JobKind.diffusion) = Some 0%nat
   /\ Settings.auto_preview
        (settings (ExampleFinished.executing JobKind.diffusion)) = true
   /\ Model._layer (model (ExampleFinished.executing JobKind.diffusion)) =
        None
   /\ exists w',
        handle_message ExampleMessages.no_pose
          (ExampleMessages.finished_without_images "a")
          (ExampleFinished.executing JobKind.diffusion) = Ok tt w'
        /\ job_at 0%nat w' =
             Some (Example.job "a" JobKind.diffusion JobState.finished []))
  /\ (find "a" (ExampleFinished.executing JobKind.upscaling) = Some 0%nat
      /\ handle_message ExampleMessages.no_pose
           (ExampleMessages.finished_without_images "a")
           (ExampleFinished.executing JobKind.upscaling) =
         Raised (AssertionError "Upscaling job did not produce an image")
           (ExampleFinished.executing JobKind.upscaling))
  /\ (find "a" ExampleFinished.executing_control = Some 0%nat
      /\ exists w',
           handle_message ExampleMessages.no_pose
             (ExampleMessages.finished_without_images "a")
             ExampleFinished.executing_control = Ok tt w'
           /\ job_at 0%nat w' =
                Some (Job.with_state JobState.finished
                        ExampleFinished.control_job)
           /\ control_at 0%nat w' =
                Some (ControlLayer.with_layer_id 1 ExampleErrors.control0)
           /\ document w' = document ExampleFinished.executing_control).
Proof.
  split; [ | split].
  - repeat (split; [reflexivity | ]).
    exact (finished_without_images_is_handled ExampleMessages.no_pose
             (ExampleMessages.finished_without_images "a") 0%nat
             (Example.job "a" JobKind.diffusion JobState.executing [])
             (ExampleFinished.executing JobKind.diffusion)
             eq_refl (or_introl eq_refl) eq_refl eq_refl).
  - split; [reflexivity | ].
    exact (finished_without_images_is_handled ExampleMessages.no_pose
             (ExampleMessages.finished_without_images "a") 0%nat
             (Example.job "a" JobKind.upscaling JobState.executing [])
             (ExampleFinished.executing JobKind.upscaling)
             eq_refl (or_introl eq_refl) eq_refl eq_refl eq_refl).
  - split; [reflexivity | ].
    destruct (finished_without_images_is_handled ExampleMessages.no_pose
                (ExampleMessages.finished_without_images "a") 0%nat
                ExampleFinished.control_job
                ExampleFinished.executing_control
                eq_refl (or_introl eq_refl) eq_refl eq_refl
                0%nat ExampleErrors.control0 eq_refl eq_refl)
      as (w' & E & J & Z).
    destruct (Z eq_refl (or_introl eq_refl)) as (C & D & _).
    exists w'. repeat split; assumption.
Defined.

(** ** Errors *)

Lemma report_error_spec (message : string) (w : World) :
  exists w',
    report_error message w = Ok tt w'
    /\ Model.error (model w') = message
    /\ is_active w' = false
    /\ job_objects w' = job_objects w
    /\ entries w' = entries w.
Proof.
  unfold report_error. unfold bind, update_model, modify.
  set (w1 := with_model (Model.with_error message (model w)) w).
  destruct (set_inactive_spec w1) as (w' & E & A & _ & Hm & Hj & _).
  exists w'. split; [exact E | ].
  unfold entries. rewrite Hm, Hj. repeat split; auto.
Qed.

Lemma clear_error_run_spec (c : Coroutine) (w : World) :
  exists w',
    (clear_error ;; eventloop_run c) w = Ok tt w'
    /\ tasks w' = tasks w ++ [c]
    /\ effects w' = effects w ++ [run c]
    /\ Model.error (model w') = "".
Proof.
  unfold clear_error, eventloop_run, bind, get, when, update_model, effect,
    modify, ret.
  destruct (String.eqb (Model.error (model w)) "") eqn:E; cbn [negb];
    eexists; (split; [reflexivity | ]); repeat split; try reflexivity.
  now apply String.eqb_eq in E.
Qed.

Lemma generate_live_starts (w : World) :
  exists w', generate_live w = Ok tt w' /\ started_without_error w w'.
Proof.
  destruct (generate_live_spec w) as (w' & c & E & He & _ & Ht & Herr & _).
  exists w'. split; [exact E | ]. exists c. auto.
Qed.

Section Starting.

Variable compute_bounds : Extent.t -> option Bounds.t -> float -> Bounds.t.
Variable apply_crop : Bounds.t -> Bounds.t -> Bounds.t.
Variable minimum_size : Bounds.t -> Z -> Extent.t -> Bounds.t.
Variable extent_mul : Extent.t -> float -> Extent.t.

Lemma generate_starts (w : World) :
  color_mode_fails w = false ->
  exists w',
    generate compute_bounds apply_crop minimum_size w = Ok tt w'
    /\ started_without_error w w'.
Proof.
  unfold color_mode_fails, generate. unfold bind at 1. unfold get at 1.
  destruct (Document.color_mode (document w)) as [ok msg].
  cbn [fst snd]. intros ->.
  destruct (String.eqb (node_type (Document.active_layer (document w)))
              "selectionmask").
  - destruct (Document.mask_from_layer (document w) _ _)
      as [[mask image_bounds] selection_bounds].
    destruct mask; cbn [orb];
      try destruct (Float.ltb (Model.strength (model w)) Float.one);
      destruct (Model.fixed_seed (model w));
      unfold bind at 1; unfold _get_current_image, bind, get, ret,
        workflow_generate_seed, bind, get, modify, ret;
      match goal with
      | |- context [clear_error ?w1] =>
          match goal with
          | |- context [eventloop_run ?c] =>
              destruct (clear_error_run_spec c w1) as (w' & E & Ht & He & Hr)
          end
      end;
      unfold bind in E; exists w'; (split; [exact E | ]);
      eexists; repeat split; eassumption.
  - destruct (Document.mask_from_selection (document w) _)
      as [mask selection_bounds].
    destruct mask; cbn [orb];
      try destruct (Float.ltb (Model.strength (model w)) Float.one);
      destruct (Model.fixed_seed (model w));
      unfold bind at 1; unfold _get_current_image, bind, get, ret,
        workflow_generate_seed, bind, get, modify, ret;
      match goal with
      | |- context [clear_error ?w1] =>
          match goal with
          | |- context [eventloop_run ?c] =>
              destruct (clear_error_run_spec c w1) as (w' & E & Ht & He & Hr)
          end
      end;
      unfold bind in E; exists w'; (split; [exact E | ]);
      eexists; repeat split; eassumption.
Qed.

Lemma upscale_image_starts (w : World) :
  exists w', upscale_image extent_mul w = Ok tt w' /\ started_without_error w w'.
Proof.
  unfold upscale_image, params. unfold bind at 1. unfold bind at 1.
  unfold get at 1.
  destruct (Model.fixed_seed (model w));
    unfold bind at 1; unfold workflow_generate_seed, bind, get, modify, ret,
      add_upscale, _add, new_job, update_jobs, update_model, bind, modify, ret;
    match goal with
    | |- context [clear_error ?w1] =>
        match goal with
        | |- context [eventloop_run ?c] =>
            destruct (clear_error_run_spec c w1) as (w' & E & Ht & He & Hr)
        end
    end;
    unfold bind in E; exists w'; (split; [exact E | ]);
    eexists; repeat split; eassumption.
Qed.

End Starting.

Lemma generate_control_layer_starts (control : ref) (c : ControlLayer.t)
    (w : World) :
  color_mode_fails w = false ->
  control_at control w = Some c ->
  exists w' job,
    generate_control_layer control w = Ok (Some job) w'
    /\ started_without_error w w'.
Proof.
  unfold color_mode_fails, generate_control_layer.
  unfold bind at 1. unfold get at 1.
  destruct (Document.color_mode (document w)) as [ok msg].
  cbn [fst snd]. intros -> Hc.
  destruct (Document.mask_from_selection (document w) _) as [mask other].
  unfold add_control, _add, new_job, update_jobs, update_model, read_control,
    bind, modify, ret.
  unfold control_at in *. cbn [control_objects with_model with_job_objects].
  rewrite Hc.
  match goal with
  | |- context [clear_error ?w1] =>
      match goal with
      | |- context [eventloop_run ?k] =>
          destruct (clear_error_run_spec k w1) as (w' & E & Ht & He & Hr)
      end
  end.
  unfold bind in E.
  destruct (clear_error _) as [[] w2 | e w2]; [ | discriminate].
  destruct (eventloop_run _ w2) as [[] w3 | e w3]; [ | discriminate].
  inversion E; subst w3.
  do 2 eexists. split; [reflexivity | ].
  eexists; repeat split; eassumption.
Qed.

(** A transport failure of [client.enqueue] ends the task and is
    reported. *)
Lemma network_error_reported (c : Coroutine) (message url : string) (code : Z)
    (w : World) :
  awaits_enqueue c = true ->
  exists w',
    resume c (network_error message url code) w = Ok None w'
    /\ Model.error (model w') =
         String.append (String.append "Error: " message)
           (String.append " [url="
              (String.append url
                 (String.append ", code="
                    (String.append (NilZero.string_of_int (Z.to_int code))
                       "]"))))
    /\ is_active w' = false.
Proof.
  intros Hc.
  assert (R : resume_coroutine c (network_error message url code) w =
              Raised (NetworkError message url code) w)
    by (destruct c; try discriminate; reflexivity).
  unfold resume, _report_errors. rewrite R.
  unfold log_error, bind, effect, modify, ret. cbn [str].
  match goal with
  | |- context [report_error ?m ?w1] =>
      destruct (report_error_spec m w1) as (w' & E & Herr & Ha & _)
  end.
  rewrite E. exists w'. auto.
Qed.

(** An error event of the worker for a tracked job is reported. *)
Lemma server_error_reported pose_svg (message : ClientMessage.t) (job : ref)
    (w : World) :
  find (ClientMessage.job_id message) w = Some job ->
  ClientMessage.event message = ClientEvent.error ->
  exists w',
    handle_message pose_svg message w = Ok tt w'
    /\ Model.error (model w') =
         String.append "Server execution error: "
           match ClientMessage.error message with
           | Some e => e
           | None => "None"
           end
    /\ is_active w' = false.
Proof.
  intros Hf He. unfold handle_message, bind, get. rewrite Hf.
  unfold handle_message_of_job. rewrite He.
  unfold notify_cancelled, write_job, bind, modify.
  match goal with
  | |- context [report_error ?m ?w1] =>
      destruct (report_error_spec m w1) as (w' & E & Herr & Ha & _)
  end.
  exists w'. auto.
Qed.

(** C9. Reporting an error returns, retains that message and leaves the
    live workspace off, so that no later event submits a live request; a
    transport failure of a task and an error event of the worker are both
    reported this way.  Each operation that starts a generation
    ([generate], [generate_live], [upscale_image],
    [generate_control_layer]) hands its task to the event loop in a state
    where no error message is retained, before anything is sent to the
    worker. *)
Theorem errors_are_reported_and_cleared :
  forall compute_bounds apply_crop minimum_size extent_mul pose_svg w,
    (forall message,
       exists w',
         report_error message w = Ok tt w'
         /\ Model.error (model w') = message
         /\ is_active w' = false
         /\ forall es,
              live_requests (react_all pose_svg es w') = live_requests w')
    /\ (forall c message url code,
          awaits_enqueue c = true ->
          exists w',
            resume c (network_error message url code) w = Ok None w'
            /\ Model.error (model w') =
                 String.append (String.append "Error: " message)
                   (String.append " [url="
                      (String.append url
                         (String.append ", code="
                            (String.append
                               (NilZero.string_of_int (Z.to_int code)) "]"))))
            /\ is_active w' = false)
    /\ (forall message job,
          find (ClientMessage.job_id message) w = Some job ->
          ClientMessage.event message = ClientEvent.error ->
          exists w',
            handle_message pose_svg message w = Ok tt w'
            /\ Model.error (model w') =
                 String.append "Server execution error: "
                   match ClientMessage.error message with
                   | Some e => e
                   | None => "None"
                   end
            /\ is_active w' = false)
    /\ (color_mode_fails w = false ->
        exists w',
          generate compute_bounds apply_crop minimum_size w = Ok tt w'
          /\ started_without_error w w')
    /\ (exists w', generate_live w = Ok tt w' /\ started_without_error w w')
    /\ (exists w',
          upscale_image extent_mul w = Ok tt w' /\ started_without_error w w')
    /\ (forall control c,
          color_mode_fails w = false ->
          control_at control w = Some c ->
          exists w' job,
            generate_control_layer control w = Ok (Some job) w'
            /\ started_without_error w w').
Proof.
  intros compute_bounds apply_crop minimum_size extent_mul pose_svg w.
  split.
  { intros message.
    destruct (report_error_spec message w) as (w' & E & Herr & A & _).
    exists w'. repeat split; auto.
    intros es. now apply calm_react_all. }
  split; [intros; now apply network_error_reported | ].
  split; [intros; eapply server_error_reported; eassumption | ].
  split; [apply generate_starts | ].
  split; [apply generate_live_starts | ].
  split; [apply upscale_image_starts | ].
  intros control c. apply generate_control_layer_starts.
Qed.

Lemma errors_are_reported_and_cleared_witness :
  (awaits_enqueue ExampleErrors.waiting_task = true
   /\ exists w',
        resume ExampleErrors.waiting_task
          (network_error "refused" "http://localhost:8188" 503)
          ExampleErrors.stale = Ok None w'
        /\ Model.error (model w') =
             "Error: refused [url=http://localhost:8188, code=503]"
        /\ is_active w' = false)
  /\ (find (ClientMessage.job_id ExampleErrors.server_error)
        ExampleErrors.stale = Some 0%nat
      /\ ClientMessage.event ExampleErrors.server_error = ClientEvent.error
      /\ exists w',
           handle_message ExampleMessages.no_pose ExampleErrors.server_error
             ExampleErrors.stale = Ok tt w'
           /\ Model.error (model w') = "Server execution error: out of memory"
           /\ is_active w' = false)
  /\ (color_mode_fails ExampleErrors.stale = false
      /\ exists w',
           generate ExampleErrors.identity_bounds ExampleErrors.crop
             ExampleErrors.at_least ExampleErrors.stale = Ok tt w'
           /\ started_without_error ExampleErrors.stale w')
  /\ (control_at 0%nat ExampleErrors.stale = Some ExampleErrors.control0
      /\ exists w' job,
           generate_control_layer 0%nat ExampleErrors.stale = Ok (Some job) w'
           /\ started_without_error ExampleErrors.stale w').
Proof.
  destruct (errors_are_reported_and_cleared ExampleErrors.identity_bounds
              ExampleErrors.crop ExampleErrors.at_least ExampleErrors.scale
              ExampleMessages.no_pose ExampleErrors.stale)
    as (_ & H2 & H3 & H4 & _ & _ & H7).
  split.
  { split; [reflexivity | ].
    exact (H2 ExampleErrors.waiting_task "refused" "http://localhost:8188" 503
             eq_refl). }
  split.
  { split; [reflexivity | ]. split; [reflexivity | ].
    exact (H3 ExampleErrors.server_error 0%nat eq_refl eq_refl). }
  split.
  { split; [reflexivity | ]. exact (H4 eq_refl). }
  split; [reflexivity | ].
  exact (H7 0%nat ExampleErrors.control0 eq_refl eq_refl).
Defined.

(** ** Changing the workspace *)

(** C10. [set_workspace] returns.  When the current workspace is the live
    one, the live workspace is switched off first, in a state where the
    workspace is still the live one; afterwards the session is not active
    and, recording being on only in an active session, not recording; then
    the new workspace is stored.  From any other workspace only the
    workspace changes, and the active flag stays as it was. *)
Theorem set_workspace_leaves_live :
  forall workspace w,
    (is_recording w = true -> is_active w = true) ->
    (Model.workspace (model w) = Workspace.live ->
     exists w1,
       set_is_active false w = Ok tt w1
       /\ Model.workspace (model w1) = Workspace.live
       /\ is_active w1 = false
       /\ is_recording w1 = false
       /\ set_workspace workspace w =
            Ok tt (with_model (Model.with_workspace workspace (model w1)) w1))
    /\ (Model.workspace (model w) <> Workspace.live ->
        set_workspace workspace w =
          Ok tt (with_model (Model.with_workspace workspace (model w)) w)
        /\ is_active (state_of (set_workspace workspace w)) = is_active w).
Proof.
  intros workspace w Inv. split.
  - intros Hl.
    destruct (set_inactive_spec w) as (w1 & E & A & R & Hm & _).
    exists w1. split; [exact E | ].
    split; [now rewrite Hm | ].
    split; [exact A | ].
    split.
    + rewrite R. destruct (is_active w) eqn:Ea; [reflexivity | ].
      destruct (is_recording w); [ | reflexivity].
      specialize (Inv eq_refl). discriminate.
    + unfold set_workspace, bind, get. rewrite Hl. cbn [Workspace.eqb when].
      now rewrite E.
  - intros Hn.
    assert (E : set_workspace workspace w =
                Ok tt (with_model (Model.with_workspace workspace (model w)) w)).
    { unfold set_workspace, bind, get.
      destruct (Model.workspace (model w)); try congruence; reflexivity. }
    split; [exact E | now rewrite E].
Qed.

Lemma set_workspace_leaves_live_witness :
  ((is_recording ExampleWorkspace.recording = true ->
    is_active ExampleWorkspace.recording = true)
   /\ Model.workspace (model ExampleWorkspace.recording) = Workspace.live
   /\ exists w1,
        set_is_active false ExampleWorkspace.recording = Ok tt w1
        /\ Model.workspace (model w1) = Workspace.live
        /\ is_active w1 = false
        /\ is_recording w1 = false
        /\ set_workspace Workspace.generation ExampleWorkspace.recording =
             Ok tt (with_model
                      (Model.with_workspace Workspace.generation (model w1))
                      w1))
  /\ ((is_recording ExampleWorkspace.elsewhere = true ->
       is_active ExampleWorkspace.elsewhere = true)
      /\ Model.workspace (model ExampleWorkspace.elsewhere) <> Workspace.live
      /\ is_active
           (state_of (set_workspace Workspace.upscaling
                        ExampleWorkspace.elsewhere)) = true).
Proof.
  assert (I1 : is_recording ExampleWorkspace.recording = true ->
               is_active ExampleWorkspace.recording = true)
    by (intros _; reflexivity).
  assert (I2 : is_recording ExampleWorkspace.elsewhere = true ->
               is_active ExampleWorkspace.elsewhere = true)
    by (intros _; reflexivity).
  assert (N : Model.workspace (model ExampleWorkspace.elsewhere)
              <> Workspace.live) by discriminate.
  split.
  - split; [exact I1 | ]. split; [reflexivity | ].
    exact (proj1 (set_workspace_leaves_live Workspace.generation
                    ExampleWorkspace.recording I1) eq_refl).
  - split; [exact I2 | ]. split; [exact N | ].
    exact (proj2 (proj2 (set_workspace_leaves_live Workspace.upscaling
                           ExampleWorkspace.elsewhere I2) N)).
Defined.

(** ** The recording pipeline *)

Lemma node_eqb_refl (n : Node) : node_eqb n n = true.
Proof. unfold node_eqb. apply Z.eqb_refl. Qed.










(** * Further properties *)

(** ** The setters of the live workspace *)

Lemma add_recording_layer_silent (restore_active : bool) (w : World) :
  live_requests (state_of (_add_recording_layer restore_active w)) =
  live_requests w.
Proof.
  now apply (keeps_add_recording_layer (fun _ => True)
               (fun _ _ _ _ _ => Logic.I) restore_active w).
Qed.

Lemma add_recording_layer_returns (restore_active : bool) (w : World) :
  exists l w',
    _add_recording_layer restore_active w = Ok l w'
    /\ LiveWorkspace._recording_layer (live w') = Some l
    /\ is_active w' = is_active w
    /\ is_recording w' = is_recording w
    /\ LiveWorkspace._keyframes (live w') = LiveWorkspace._keyframes (live w)
    /\ model w' = model w
    /\ (restore_active = true ->
        Document.active_layer (document w') =
          Document.active_layer (document w)).
Proof.
  unfold _add_recording_layer, bind, get, when.
  destruct (LiveWorkspace._recording_layer (live w)) as [l | ] eqn:L.
  - destruct (attached l (document w)) eqn:A; cbn [negb].
    + unfold ret. rewrite L. do 2 eexists. split; [reflexivity | ].
      repeat split; auto.
    + unfold update_live, modify. cbn.
      destruct restore_active; do 2 eexists; (split; [reflexivity | ]);
        repeat split; intros; (discriminate || reflexivity).
  - unfold ret. rewrite L.
    destruct restore_active; do 2 eexists; (split; [reflexivity | ]);
      repeat split; intros; (discriminate || reflexivity).
Qed.

Lemma add_recording_layer_spec (restore_active : bool) (w : World) :
  exists l w',
    _add_recording_layer restore_active w = Ok l w'
    /\ LiveWorkspace._recording_layer (live w') = Some l
    /\ is_active w' = is_active w
    /\ is_recording w' = is_recording w
    /\ LiveWorkspace._keyframes (live w') = LiveWorkspace._keyframes (live w)
    /\ model w' = model w
    /\ live_requests w' = live_requests w
    /\ (restore_active = true ->
        Document.active_layer (document w') =
          Document.active_layer (document w)).
Proof.
  destruct (add_recording_layer_returns restore_active w)
    as (l & w' & E & H1 & H2 & H3 & H4 & H5 & H6).
  pose proof (add_recording_layer_silent restore_active w) as S.
  rewrite E in S. cbn [state_of] in S.
  exists l, w'. repeat split; assumption.
Qed.

(** Switching recording on, from off. *)
Lemma toggle_record_on_spec (n : nat) (w : World) :
  is_recording w = false ->
  exists w',
    toggle_record (S (S (S n))) true w = Ok tt w'
    /\ is_active w' = true
    /\ is_recording w' = true
    /\ live_requests w' =
         (live_requests w + if is_active w then 0 else 1)%nat
    /\ Document.active_layer (document w') =
         Document.active_layer (document w)
    /\ LiveWorkspace._recording_layer (live w') <> None
    /\ LiveWorkspace._keyframes (live w') = LiveWorkspace._keyframes (live w).
Proof.
  intros R. cbn [toggle_record]. unfold bind at 1. unfold get at 1.
  rewrite R. cbn [Bool.eqb negb when].
  unfold bind at 1. unfold update_live at 1. unfold modify at 1.
  set (w1 := with_live (LiveWorkspace.with_is_recording true (live w)) w).
  unfold bind at 1. cbn [toggle]. unfold bind at 1. unfold get at 1.
  replace (is_active w1) with (is_active w) by reflexivity.
  destruct (is_active w) eqn:A; cbn [Bool.eqb negb when].
  - unfold ret at 1.
    destruct (add_recording_layer_spec true w1)
      as (l & w' & E & Hl & Ha & Hr & Hk & _ & Hlr & Hact).
    unfold bind. rewrite E. exists w'. split; [reflexivity | ].
    rewrite Ha, Hr, Hl, Hk, Hlr, (Hact eq_refl).
    repeat split; try assumption; try reflexivity; try discriminate.
    replace (live_requests w1) with (live_requests w) by reflexivity. lia.
  - unfold bind at 1. unfold update_live at 1. unfold modify at 1.
    set (w2 := with_live (LiveWorkspace.with_is_active true (live w1)) w1).
    destruct (generate_live_spec w2)
      as (w3 & c & E3 & Heff & Hc & _ & _ & _ & Hl3 & Hd3 & _).
    rewrite E3.
    destruct (add_recording_layer_spec true w3)
      as (l & w' & E & Hl & Ha & Hr & Hk & _ & Hlr & Hact).
    unfold bind. rewrite E. exists w'. split; [reflexivity | ].
    unfold is_active, is_recording in *.
    rewrite Ha, Hr, Hl, Hk, Hlr, (Hact eq_refl), Hl3, Hd3.
    repeat split; try reflexivity; try discriminate.
    rewrite (live_requests_app w2 w3 [run c] Heff).
    cbn [filter]. rewrite Hc. cbn [List.length].
    replace (live_requests w2) with (live_requests w) by reflexivity. lia.
Qed.

(** Switching recording off, from on. *)
Lemma toggle_record_off_spec (n : nat) (w : World) :
  is_recording w = true ->
  exists w',
    toggle_record (S (S (S n))) false w = Ok tt w'
    /\ is_active w' = false
    /\ is_recording w' = false
    /\ LiveWorkspace._keyframes (live w') = []
    /\ live_requests w' = live_requests w.
Proof.
  intros R.
  assert (L : live_requests
                (state_of (toggle_record (S (S (S n))) false w)) =
              live_requests w).
  { now apply (proj2 (keeps_toggle_off (fun _ => True)
                        (fun _ _ _ _ _ => Logic.I) (fun _ _ => Logic.I)
                        (S (S (S n)))) w). }
  set (w1 := with_live (LiveWorkspace.with_is_recording false (live w)) w).
  destruct (toggle_off_spec n w1) as (w2 & E2 & A2 & R2 & _).
  assert (R2' : is_recording w2 = false).
  { rewrite R2. destruct (is_active w1); reflexivity. }
  assert (E2' : toggle (S (S n)) false w1 = Ok tt w2).
  { revert E2. cbn [toggle toggle_record]. unfold bind, get.
    destruct (is_active w1); cbn [Bool.eqb negb when]; [ | auto].
    unfold update_live, modify.
    set (w1' := with_live _ w1).
    replace (is_recording w1') with false by reflexivity.
    cbn [Bool.eqb negb when]. auto. }
  destruct (insert_frames_spec w2)
    as (w' & E & _ & _ & Ha & Hr & _ & _ & Hk & _).
  assert (T : toggle_record (S (S (S n))) false w = Ok tt w').
  { cbn [toggle_record]. unfold bind at 1. unfold get at 1.
    rewrite R. cbn [Bool.eqb negb when].
    unfold bind at 1. unfold update_live at 1. unfold modify at 1.
    fold w1. unfold bind at 1. rewrite E2'. exact E. }
  rewrite T in L. cbn [state_of] in L.
  exists w'. split; [exact T | ].
  unfold is_active, is_recording in *. rewrite Ha, Hr.
  repeat split; assumption.
Qed.

Lemma toggle_record_same (n : nat) (v : bool) (w : World) :
  is_recording w = v -> toggle_record (S n) v w = Ok tt w.
Proof.
  intros <-. cbn [toggle_record]. unfold bind, get.
  now rewrite Bool.eqb_reflx.
Qed.

(** X1. Both setters of the live workspace return, and they keep
    recording inside an active session: assigning [is_active] makes the
    flag that value and, when it is false, leaves recording off; assigning
    [is_recording] a value it does not have makes both flags that value,
    so that stopping a recording also stops the live loop. *)
Theorem setters_keep_recording_within_active :
  forall v w,
    recording_while_active w ->
    (exists w',
       set_is_active v w = Ok tt w'
       /\ is_active w' = v
       /\ (v = false -> is_recording w' = false)
       /\ recording_while_active w')
    /\ (exists w',
          set_is_recording v w = Ok tt w'
          /\ is_recording w' = v
          /\ (is_recording w <> v -> is_active w' = v)
          /\ recording_while_active w').
Proof.
  intros v w Inv. unfold recording_while_active in *. split.
  - destruct v.
    + destruct (is_active w) eqn:A.
      * exists w. rewrite (set_is_active_same true w A).
        repeat split; auto. discriminate.
      * destruct (set_active_spec w A) as (w' & E & A' & _).
        exists w'. repeat split; auto. discriminate.
    + destruct (set_inactive_spec w) as (w' & E & A' & R' & _).
      assert (R : is_recording w' = false).
      { rewrite R'. destruct (is_active w); [reflexivity | ].
        destruct (is_recording w); [ | reflexivity].
        specialize (Inv eq_refl). discriminate. }
      exists w'. repeat split; auto. congruence.
  - unfold set_is_recording. change recursion_limit with (S (S (S 997))).
    destruct (Bool.bool_dec (is_recording w) v) as [Same | Differs].
    + exists w. rewrite (toggle_record_same _ v w Same).
      repeat split; auto. contradiction.
    + destruct v.
      * destruct (toggle_record_on_spec 997 w) as (w' & E & A' & R' & _).
        { now destruct (is_recording w). }
        exists w'. repeat split; auto.
      * destruct (toggle_record_off_spec 997 w) as (w' & E & A' & R' & _).
        { now destruct (is_recording w). }
        exists w'. repeat split; auto. congruence.
Qed.

Lemma setters_keep_recording_within_active_witness :
  recording_while_active ExampleWorkspace.recording
  /\ exists w',
       set_is_recording false ExampleWorkspace.recording = Ok tt w'
       /\ is_recording w' = false
       /\ (is_recording ExampleWorkspace.recording <> false ->
           is_active w' = false)
       /\ recording_while_active w'.
Proof.
  assert (I : recording_while_active ExampleWorkspace.recording)
    by (intros _; reflexivity).
  split; [exact I | ].
  exact (proj2 (setters_keep_recording_within_active false
                  ExampleWorkspace.recording I)).
Defined.

(** X2. Starting a recording: when recording is off, [set_is_recording]
    with true returns with the session active and recording; it submits
    one live request if the session was not active and none if it was; a
    recording layer exists afterwards, the layer that was active is active
    again, and the keyframe buffer is as before. *)
Theorem starting_a_recording_starts_the_session :
  forall w,
    is_recording w = false ->
    exists w',
      set_is_recording true w = Ok tt w'
      /\ is_active w' = true
      /\ is_recording w' = true
      /\ live_requests w' =
           (live_requests w + if is_active w then 0 else 1)%nat
      /\ Document.active_layer (document w') =
           Document.active_layer (document w)
      /\ LiveWorkspace._recording_layer (live w') <> None
      /\ LiveWorkspace._keyframes (live w') =
           LiveWorkspace._keyframes (live w).
Proof. intros w R. exact (toggle_record_on_spec 997 w R). Qed.

Lemma starting_a_recording_starts_the_session_witness :
  is_recording Example.world = false
  /\ exists w',
       set_is_recording true Example.world = Ok tt w'
       /\ is_active w' = true
       /\ is_recording w' = true
       /\ live_requests w' =
            (live_requests Example.world
             + if is_active Example.world then 0 else 1)%nat
       /\ Document.active_layer (document w') =
            Document.active_layer (document Example.world)
       /\ LiveWorkspace._recording_layer (live w') <> None
       /\ LiveWorkspace._keyframes (live w') =
            LiveWorkspace._keyframes (live Example.world).
Proof.
  split; [reflexivity | ].
  exact (starting_a_recording_starts_the_session Example.world eq_refl).
Defined.

(** X3. The setters call each other through the properties, but never
    more than three calls deep: with any deeper bound on the nesting, they
    compute what they compute with three. *)
Theorem toggles_nest_at_most_three_calls :
  forall n v w,
    toggle (S (S (S n))) v w = toggle 3 v w
    /\ toggle_record (S (S (S n))) v w = toggle_record 3 v w.
Proof.
  intros n v w.
  destruct (LiveWorkspace._is_active (live w)) eqn:A;
    destruct (LiveWorkspace._is_recording (live w)) eqn:R;
    destruct v; split;
    cbn [toggle toggle_record];
    repeat (unfold bind, get, update_live, modify, is_active, is_recording;
            cbn [when live with_live
                 LiveWorkspace._is_active LiveWorkspace._is_recording
                 LiveWorkspace.with_is_active LiveWorkspace.with_is_recording
                 Bool.eqb negb];
            rewrite ?A, ?R);
    reflexivity.
Qed.

(** ** Tasks *)

Lemma nothing_sent (es : list Effect) :
  (forall e, In e es -> match e with enqueue _ => False | _ => True end) ->
  flat_map (fun e => match e with enqueue work => [work] | _ => [] end) es = [].
Proof.
  induction es as [ | e es IH]; intros H; [reflexivity | ].
  cbn [flat_map]. rewrite IH by (intros; apply H; now right).
  specialize (H e (or_introl eq_refl)). destruct e; tauto.
Qed.

Lemma sent_work_app (w w' : World) (es : list Effect) :
  effects w' = effects w ++ es ->
  (forall e, In e es -> match e with enqueue _ => False | _ => True end) ->
  sent_work w' = sent_work w.
Proof.
  intros E H. unfold sent_work.
  rewrite E, flat_map_app, (nothing_sent es H). apply app_nil_r.
Qed.

Lemma insert_frames_sends_nothing (w : World) :
  sent_work (state_of (_insert_frames w)) = sent_work w.
Proof.
  unfold _insert_frames, bind, get.
  destruct (LiveWorkspace._keyframes (live w)) as [ | frame frames];
    [reflexivity | ].
  unfold _add_recording_layer, bind, get, when.
  destruct (LiveWorkspace._recording_layer (live w)) as [l | ] eqn:L.
  - destruct (attached l (document w)) eqn:A; cbn [negb];
      unfold update_live, modify, ret; cbn [live with_live
        LiveWorkspace._recording_layer LiveWorkspace.with_recording_layer];
      rewrite ?L.
    + eapply sent_work_app; [reflexivity | ].
      cbn. intros e [<- | []]. exact Logic.I.
    + unfold doc_insert_layer, fresh_node, eventloop_run, bind, get, effect,
        update_document, update_live, modify, ret, when.
      cbn [state_of].
      eapply sent_work_app.
      * cbn [effects with_effects with_live with_document with_tasks].
        rewrite <- !app_assoc. reflexivity.
      * cbn. intros e H.
        repeat (destruct H as [<- | H]; [exact Logic.I | ]). contradiction.
  - unfold ret. rewrite L.
    unfold doc_insert_layer, fresh_node, eventloop_run, bind, get, effect,
      update_document, update_live, modify, ret, when.
    cbn [state_of].
    eapply sent_work_app.
    + cbn [effects with_effects with_live with_document with_tasks].
      rewrite <- !app_assoc. reflexivity.
    + cbn. intros e H.
      repeat (destruct H as [<- | H]; [exact Logic.I | ]). contradiction.
Qed.

Lemma toggle_off_sends_nothing (n : nat) (w : World) :
  sent_work (state_of (toggle (S (S (S n))) false w)) = sent_work w.
Proof.
  cbn [toggle]. unfold bind at 1. unfold get at 1.
  destruct (is_active w) eqn:A; cbn [Bool.eqb negb when]; [ | reflexivity].
  unfold bind at 1. unfold update_live at 1. unfold modify at 1.
  set (w1 := with_live (LiveWorkspace.with_is_active false (live w)) w).
  cbn [toggle_record]. unfold bind at 1. unfold get at 1.
  destruct (is_recording w1) eqn:R; cbn [Bool.eqb negb when]; [ | reflexivity].
  unfold bind at 1. unfold update_live at 1. unfold modify at 1.
  set (w2 := with_live (LiveWorkspace.with_is_recording false (live w1)) w1).
  unfold bind at 1. cbn [toggle]. unfold bind at 1. unfold get at 1.
  replace (is_active w2) with false by reflexivity.
  cbn [Bool.eqb negb when]. unfold ret at 1.
  apply (insert_frames_sends_nothing w2).
Qed.

Lemma report_error_effects (message : string) (w : World) :
  sent_work (state_of (report_error message w)) = sent_work w.
Proof.
  unfold report_error, bind, update_model, modify.
  exact (toggle_off_sends_nothing 997
           (with_model (Model.with_error message (model w)) w)).
Qed.

(** What [_report_errors] does with an exception of the coroutine. *)
Lemma raised_is_reported (c : Coroutine) (r : Resumption) (w : World)
    (e : Exception) (w1 : World) :
  resume_coroutine c r w = Raised e w1 ->
  exists w',
    resume c r w = Ok None w'
    /\ Model.error (model w') = reported_text e
    /\ is_active w' = false
    /\ job_objects w' = job_objects w1
    /\ entries w' = entries w1
    /\ sent_work w' = sent_work w1.
Proof.
  intros E. unfold resume, _report_errors. rewrite E.
  assert (K : forall text,
    exists w',
      (report_error text ;; ret None)
        (with_effects
           (effects w1 ++ [logged (failure (String.append "Error: " (str e)))])
           w1) = Ok (@None Coroutine) w'
      /\ Model.error (model w') = text
      /\ is_active w' = false
      /\ job_objects w' = job_objects w1
      /\ entries w' = entries w1
      /\ sent_work w' = sent_work w1).
  { intros text.
    set (w2 := with_effects _ w1).
    destruct (report_error_spec text w2) as (w' & E' & Herr & Ha & Hj & He).
    pose proof (report_error_effects text w2) as Hs. rewrite E' in Hs.
    cbn [state_of] in Hs.
    exists w'. unfold bind. rewrite E'. repeat split; auto.
    rewrite Hs. unfold sent_work, w2. cbn [effects with_effects].
    rewrite flat_map_app. cbn. now rewrite app_nil_r. }
  destruct e; cbn [reported_text str]; unfold log_error, bind, effect,
    modify, ret; cbn [str]; apply K.
Qed.

(** X4. A task never raises into the event loop: every run of a coroutine
    under [_report_errors] returns.  When the coroutine raises, the task
    ends, the failure is written to the log, its text becomes the retained
    error message, and the live workspace is off; the jobs, their tracking
    and what was sent to the worker are as the coroutine left them. *)
Theorem tasks_report_every_exception :
  forall c r w,
    (exists next w', resume c r w = Ok next w')
    /\ (forall e w1,
          resume_coroutine c r w = Raised e w1 ->
          exists w',
            resume c r w = Ok None w'
            /\ Model.error (model w') = reported_text e
            /\ is_active w' = false
            /\ job_objects w' = job_objects w1
            /\ entries w' = entries w1
            /\ sent_work w' = sent_work w1).
Proof.
  intros c r w.
  split; [ | intros e w1; apply raised_is_reported].
  destruct (resume_coroutine c r w) as [next w1 | e w1] eqn:E.
  - exists next, w1. unfold resume, _report_errors. now rewrite E.
  - destruct (raised_is_reported c r w e w1 E) as (w' & E' & _). eauto.
Qed.

Lemma tasks_report_every_exception_witness :
  resume_coroutine ExampleErrors.waiting_task
    (network_error "refused" "http://localhost:8188" 503) ExampleErrors.stale =
    Raised (NetworkError "refused" "http://localhost:8188" 503)
      ExampleErrors.stale
  /\ exists w',
       resume ExampleErrors.waiting_task
         (network_error "refused" "http://localhost:8188" 503)
         ExampleErrors.stale = Ok None w'
       /\ Model.error (model w') =
            reported_text (NetworkError "refused" "http://localhost:8188" 503)
       /\ is_active w' = false
       /\ job_objects w' = job_objects ExampleErrors.stale
       /\ entries w' = entries ExampleErrors.stale
       /\ sent_work w' = sent_work ExampleErrors.stale.
Proof.
  split; [reflexivity | ].
  exact (proj2 (tasks_report_every_exception ExampleErrors.waiting_task
                  (network_error "refused" "http://localhost:8188" 503)
                  ExampleErrors.stale) _ _ eq_refl).
Defined.

(** The loop of [_generate] through the answers for a first part of the
    batch, up to the head of the loop for the next item. *)
Lemma generate_loop_prefix :
  forall kind pos neg bounds strength seed count rest ids k w job,
    Z.of_nat (k + List.length ids) <= count ->
    Workflow.seed job = seed + Z.of_nat k * Settings.batch_size (settings w) ->
    exists w',
      (next <- _generate_loop job kind pos neg bounds strength seed
                 (Z.of_nat k) count ;;
       continue next (map enqueued ids ++ rest)) w =
      (next <- _generate_loop
                 (Workflow.with_seed
                    (seed + Z.of_nat (k + List.length ids)
                            * Settings.batch_size (settings w)) job)
                 kind pos neg bounds strength seed
                 (Z.of_nat (k + List.length ids)) count ;;
       continue next rest) w'
      /\ job_objects w' =
           job_objects w ++
           batch_jobs kind pos neg bounds strength seed
             (Settings.batch_size (settings w)) k ids
      /\ entries w' =
           entries w ++ seq (List.length (job_objects w)) (List.length ids)
      /\ effects w' =
           effects w ++
           batch_sent job seed (Settings.batch_size (settings w)) k
             (List.length ids)
      /\ settings w' = settings w
      /\ live w' = live w
      /\ Model.progress (model w') = Model.progress (model w).
Proof.
  intros kind pos neg bounds strength seed count rest answered.
  induction answered as [ | job_id ids IH]; intros k w job Hc Hs.
  - exists w. cbn [List.length map app]. rewrite Nat.add_0_r.
    rewrite <- Hs, with_seed_same.
    unfold batch_jobs, batch_sent. cbn. rewrite !app_nil_r.
    repeat split; reflexivity.
  - cbn [map List.length app] in *.
    rewrite generate_loop_step by lia.
    set (w2 := state_of _).
    destruct (sent_and_added job kind job_id pos neg bounds strength
                (Workflow.seed job) w)
      as (Hobj2 & Hent2 & Heff2 & Hset2 & _ & Hlive2 & _).
    fold w2 in Hobj2, Hent2, Heff2, Hset2, Hlive2.
    destruct (IH (S k) w2
                (Workflow.with_seed
                   (seed + (Z.of_nat k + 1) * Settings.batch_size (settings w))
                   job))
      as (w' & Hrun & Hobj & Hent & Heff & Hset & Hlive & Hprog).
    { lia. }
    { cbn [Workflow.seed Workflow.with_seed]. rewrite Hset2. f_equal. lia. }
    exists w'.
    replace (Z.of_nat (S k)) with (Z.of_nat k + 1) in Hrun by lia.
    rewrite Hset2 in *.
    replace (S k + List.length ids)%nat with (k + S (List.length ids))%nat
      in * by lia.
    rewrite with_seed_twice in Hrun.
    split; [exact Hrun | ].
    split.
    { rewrite Hobj, Hobj2, <- app_assoc. f_equal.
      unfold batch_jobs. cbn [seq map combine List.length fst snd app].
      now rewrite Hs. }
    split.
    { rewrite Hent, Hent2, Hobj2, length_app, <- app_assoc.
      cbn [List.length seq app]. do 3 f_equal. lia. }
    split.
    { rewrite Heff, Heff2, <- app_assoc. f_equal.
      unfold batch_sent. cbn [seq map app].
      now rewrite <- Hs, with_seed_same. }
    split; [exact Hset | ]. split; [congruence | ].
    rewrite Hprog. reflexivity.
Qed.

Lemma batch_sent_count (job : Workflow.t) (seed stride : Z) (k n : nat) :
  List.length
    (flat_map (fun e => match e with enqueue work => [work] | _ => [] end)
       (batch_sent job seed stride k n)) = n.
Proof.
  unfold batch_sent. revert k.
  induction n as [ | n IH]; intros k; cbn [seq map flat_map]; [reflexivity | ].
  cbn [app List.length]. now rewrite IH.
Qed.

(** X5. When [client.enqueue] fails for an item of a batch, the items
    after it are not sent; the jobs recorded for the answers received
    before stay recorded and tracked, with their seeds; the failure is
    reported and the live workspace is off. *)
Theorem failed_enqueue_aborts_the_batch :
  forall bounds cond strength image mask seed count answered is_live w job
         message url code,
    _generate_job (Model.style (model w)) (job_bounds bounds mask) cond
      strength image (job_mask bounds mask) seed is_live w = Ok job w ->
    Z.of_nat (List.length answered) < count ->
    exists w',
      resume_all
        (co_generate bounds cond strength image mask seed count is_live)
        (started :: map enqueued answered
                    ++ [network_error message url code]) w = Ok None w'
      /\ job_objects w' =
           job_objects w ++
           batch_jobs (job_kind_of is_live) (Conditioning.prompt cond)
             (Conditioning.negative_prompt cond) (job_bounds bounds mask)
             strength seed (Settings.batch_size (settings w)) 0 answered
      /\ entries w' =
           entries w ++ seq (List.length (job_objects w)) (List.length answered)
      /\ List.length (sent_work w') =
           (List.length (sent_work w) + List.length answered + 1)%nat
      /\ Model.error (model w') =
           reported_text (NetworkError message url code)
      /\ is_active w' = false.
Proof.
  intros bounds cond strength image mask seed count answered is_live w job
    message url code H Hlt.
  rewrite (generate_start _ _ _ _ _ _ _ _ _ _ _ H).
  destruct (progress_reset_frame w) as (F1 & F2 & F3 & F4 & _).
  destruct (generate_job_pure _ _ _ _ _ _ _ _ _ _ _ H) as (_ & Hseed & _).
  destruct (generate_loop_prefix (job_kind_of is_live)
              (Conditioning.prompt cond) (Conditioning.negative_prompt cond)
              (job_bounds bounds mask) strength seed count
              [network_error message url code] answered 0
              (progress_reset w) job)
    as (w1 & Hrun & Hobj & Hent & Heff & Hset & _).
  { cbn. lia. }
  { rewrite Hseed. cbn. lia. }
  cbn [Z.of_nat] in Hrun. rewrite Hrun. cbn [Nat.add].
  unfold _generate_loop.
  replace (Z.of_nat (List.length answered) <? count) with true
    by (symmetry; apply Z.ltb_lt; lia).
  unfold bind at 1. unfold bind at 1. unfold effect at 1. unfold modify at 1.
  unfold ret at 1. cbn [continue resume_all].
  set (w2 := with_effects _ w1).
  unfold bind at 1.
  match goal with
  | |- context [resume ?c ?r w2] =>
      destruct (raised_is_reported c r w2 (NetworkError message url code) w2
                  eq_refl)
        as (w' & E & Herr & Ha & Hj & He & Hs)
  end.
  rewrite E. exists w'. split; [reflexivity | ].
  rewrite Hj, He, Hs.
  replace (job_objects w2) with (job_objects w1) by reflexivity.
  replace (entries w2) with (entries w1) by reflexivity.
  rewrite Hobj, Hent, F1, F2, F4.
  repeat split; try assumption.
  unfold sent_work, w2. cbn [effects with_effects].
  rewrite Heff, F3, !flat_map_app, !length_app.
  rewrite batch_sent_count. cbn [flat_map List.length app]. lia.
Qed.

Lemma failed_enqueue_aborts_the_batch_witness :
  _generate_job (Model.style (model Example.world))
    (job_bounds Example.canvas None) Example.cond Float.one None
    (job_mask Example.canvas None) 42 false Example.world =
    Ok (Workflow.mk
          (Workflow.generate "style" (Extent.mk 512 512) Example.cond false)
          42) Example.world
  /\ Z.of_nat (List.length ["a"; "b"]) < 4
  /\ exists w',
       resume_all
         (co_generate Example.canvas Example.cond Float.one None None 42 4
            false)
         (started :: map enqueued ["a"; "b"]
                     ++ [network_error "refused" "http://localhost:8188" 503])
         Example.world = Ok None w'
       /\ job_objects w' =
            job_objects Example.world ++
            batch_jobs (job_kind_of false) (Conditioning.prompt Example.cond)
              (Conditioning.negative_prompt Example.cond)
              (job_bounds Example.canvas None) Float.one 42
              (Settings.batch_size (settings Example.world)) 0 ["a"; "b"]
       /\ entries w' =
            entries Example.world ++
            seq (List.length (job_objects Example.world))
                (List.length ["a"; "b"])
       /\ List.length (sent_work w') =
            (List.length (sent_work Example.world) + List.length ["a"; "b"]
             + 1)%nat
       /\ Model.error (model w') =
            reported_text (NetworkError "refused" "http://localhost:8188" 503)
       /\ is_active w' = false.
Proof.
  split; [reflexivity | ]. split; [reflexivity | ].
  apply (failed_enqueue_aborts_the_batch Example.canvas Example.cond Float.one
           None None 42 4 ["a"; "b"] false Example.world
           (Workflow.mk
              (Workflow.generate "style" (Extent.mk 512 512) Example.cond false)
              42) "refused" "http://localhost:8188" 503);
    reflexivity.
Defined.

(** X6. A request with a batch count of zero or less, whose operation can
    be chosen: the task ends at once; nothing is sent to the worker and no
    job is recorded. *)
Theorem empty_batch_sends_nothing :
  forall bounds cond strength image mask seed count is_live w job,
    _generate_job (Model.style (model w)) (job_bounds bounds mask) cond
      strength image (job_mask bounds mask) seed is_live w = Ok job w ->
    count <= 0 ->
    resume_all (co_generate bounds cond strength image mask seed count is_live)
      [started] w = Ok None (progress_reset w)
    /\ job_objects (progress_reset w) = job_objects w
    /\ entries (progress_reset w) = entries w
    /\ effects (progress_reset w) = effects w.
Proof.
  intros bounds cond strength image mask seed count is_live w job H Hc.
  rewrite (generate_start _ _ _ _ _ _ _ _ _ _ _ H).
  unfold _generate_loop, bind.
  replace (0 <? count) with false by (symmetry; apply Z.ltb_ge; lia).
  destruct (progress_reset_frame w) as (F1 & F2 & F3 & _).
  repeat split; assumption.
Qed.

Lemma empty_batch_sends_nothing_witness :
  _generate_job (Model.style (model Example.world))
    (job_bounds Example.canvas None) Example.cond Float.one None
    (job_mask Example.canvas None) 42 false Example.world =
    Ok (Workflow.mk
          (Workflow.generate "style" (Extent.mk 512 512) Example.cond false)
          42) Example.world
  /\ 0 <= 0
  /\ resume_all
       (co_generate Example.canvas Example.cond Float.one None None 42 0 false)
       [started] Example.world = Ok None (progress_reset Example.world).
Proof.
  split; [reflexivity | ]. split; [lia | ].
  apply (empty_batch_sends_nothing Example.canvas Example.cond Float.one None
           None 42 0 false Example.world
           (Workflow.mk
              (Workflow.generate "style" (Extent.mk 512 512) Example.cond false)
              42)); [reflexivity | lia].
Defined.

Lemma generate_job_raises style bounds cond strength image mask seed is_live
    (w w1 : World) :
  returned (_generate_job style bounds cond strength image mask seed is_live w)
    = false ->
  _generate_job style bounds cond strength image mask seed is_live w1 =
    Raised (AssertionError "") w1.
Proof.
  rewrite !generate_job_cases.
  destruct image, mask;
    repeat match goal with
           | |- context [if ?b then _ else _] => destruct b
           end; cbn; congruence.
Qed.

Lemma generate_raises bounds cond strength image mask seed count is_live
    (w : World) :
  returned (_generate_job (Model.style (model w)) (job_bounds bounds mask) cond
              strength image (job_mask bounds mask) seed is_live w) = false ->
  resume_coroutine
    (co_generate bounds cond strength image mask seed count is_live) started w =
    Raised (AssertionError "") (progress_reset w).
Proof.
  intros H. cbn [resume_coroutine]. unfold _generate.
  unfold bind at 1. unfold get at 1. unfold bind at 1. unfold progress_reset.
  destruct (when (negb (any_executing w))
              (update_model (Model.with_progress Float.zero)) w)
    as [[] w1 | e w1] eqn:E.
  2:{ unfold when, update_model, modify, ret in E.
      destruct (negb (any_executing w)); discriminate. }
  cbn [state_of].
  destruct mask as [m | ]; cbn [job_bounds job_mask option_map] in *;
    unfold bind at 1;
    now rewrite (generate_job_raises _ _ _ _ _ _ _ _ w w1 H).
Qed.

(** X7. A request whose image, mask and strength fit no operation: the
    assertion fails inside the task, the task ends and the failure is
    reported; nothing was sent to the worker and no job was recorded. *)
Theorem contract_violation_is_reported :
  forall bounds cond strength image mask seed count is_live w,
    returned (_generate_job (Model.style (model w)) (job_bounds bounds mask)
                cond strength image (job_mask bounds mask) seed is_live w)
      = false ->
    exists w',
      resume (co_generate bounds cond strength image mask seed count is_live)
        started w = Ok None w'
      /\ Model.error (model w') = reported_text (AssertionError "")
      /\ is_active w' = false
      /\ job_objects w' = job_objects w
      /\ entries w' = entries w
      /\ sent_work w' = sent_work w.
Proof.
  intros bounds cond strength image mask seed count is_live w H.
  destruct (raised_is_reported _ _ _ _ _
              (generate_raises bounds cond strength image mask seed count
                 is_live w H))
    as (w' & E & Herr & Ha & Hj & He & Hs).
  destruct (progress_reset_frame w) as (F1 & F2 & F3 & _).
  exists w'. split; [exact E | ].
  rewrite Hj, He, Hs, F1, F2. unfold sent_work. rewrite F3.
  repeat split; assumption.
Qed.

Lemma contract_violation_is_reported_witness :
  returned (_generate_job (Model.style (model ExampleLive.running))
              (job_bounds Example.canvas (Some Example.selection_mask))
              Example.cond Float.one None
              (job_mask Example.canvas (Some Example.selection_mask)) 42 true
              ExampleLive.running) = false
  /\ exists w',
       resume
         (co_generate Example.canvas Example.cond Float.one None
            (Some Example.selection_mask) 42 1 true) started
         ExampleLive.running = Ok None w'
       /\ Model.error (model w') = reported_text (AssertionError "")
       /\ is_active w' = false
       /\ job_objects w' = job_objects ExampleLive.running
       /\ entries w' = entries ExampleLive.running
       /\ sent_work w' = sent_work ExampleLive.running.
Proof.
  split; [reflexivity | ].
  apply (contract_violation_is_reported Example.canvas Example.cond Float.one
           None (Some Example.selection_mask) 42 1 true ExampleLive.running).
  reflexivity.
Defined.

Lemma report_error_model (message : string) (w : World) :
  model (state_of (report_error message w)) =
  Model.with_error message (model w).
Proof.
  unfold report_error, bind, update_model, modify.
  set (w1 := with_model (Model.with_error message (model w)) w).
  destruct (set_inactive_spec w1) as (w' & E & _ & _ & Hm & _).
  now rewrite E.
Qed.

Lemma raised_keeps_progress (c : Coroutine) (r : Resumption) (w : World)
    (e : Exception) (w1 : World) :
  resume_coroutine c r w = Raised e w1 ->
  Model.progress (model (state_of (resume c r w))) = Model.progress (model w1).
Proof.
  intros E. unfold resume, _report_errors. rewrite E.
  assert (K : forall text w2,
    model w2 = model w1 ->
    Model.progress
      (model (state_of ((report_error text ;; ret (@None Coroutine)) w2))) =
    Model.progress (model w1)).
  { intros text w2 Hm. unfold bind.
    pose proof (report_error_model text w2) as M.
    destruct (report_error text w2) as [[] w3 | e3 w3]; unfold ret;
      cbn [state_of] in *; now rewrite M, Hm. }
  destruct e; unfold log_error, bind, effect, modify, ret; apply K;
    reflexivity.
Qed.

Lemma progress_reset_progress (w : World) :
  Model.progress (model (progress_reset w)) =
  if any_executing w then Model.progress (model w) else Float.zero.
Proof.
  unfold progress_reset, when.
  destruct (any_executing w); reflexivity.
Qed.

Lemma generate_started bounds cond strength image mask seed count is_live
    (w : World) (job : Workflow.t) :
  _generate_job (Model.style (model w)) (job_bounds bounds mask) cond
    strength image (job_mask bounds mask) seed is_live w = Ok job w ->
  resume (co_generate bounds cond strength image mask seed count is_live)
    started w =
  _generate_loop job (job_kind_of is_live) (Conditioning.prompt cond)
    (Conditioning.negative_prompt cond) (job_bounds bounds mask) strength seed
    0 count (progress_reset w).
Proof.
  intros H.
  destruct (generate_job_pure _ _ _ _ _ _ _ _ _ _ _ H) as (_ & _ & P).
  unfold resume, resume_coroutine, _generate, _report_errors.
  unfold bind at 1. unfold get at 1. unfold bind at 1. unfold progress_reset.
  destruct (when (negb (any_executing w))
              (update_model (Model.with_progress Float.zero)) w)
    as [[] w1 | e w1] eqn:E.
  2:{ unfold when, update_model, modify, ret in E.
      destruct (negb (any_executing w)); discriminate. }
  cbn [state_of].
  destruct mask as [m | ]; cbn [job_bounds job_mask option_map] in *;
    unfold bind at 1; rewrite (P w1);
    unfold _generate_loop, job_kind_of, bind, effect, modify, ret;
    destruct (0 <? count); reflexivity.
Qed.

(** X8. When the task of a request starts, the progress indicator is set
    to zero unless a tracked job is executing, in which case it keeps its
    value; this holds whether the request is then sent or fails its
    assertion. *)
Theorem progress_is_reset_unless_a_job_executes :
  forall bounds cond strength image mask seed count is_live w,
    Model.progress
      (model
         (state_of
            (resume
               (co_generate bounds cond strength image mask seed count is_live)
               started w))) =
    if any_executing w then Model.progress (model w) else Float.zero.
Proof.
  intros bounds cond strength image mask seed count is_live w.
  rewrite <- progress_reset_progress.
  destruct (_generate_job (Model.style (model w)) (job_bounds bounds mask) cond
              strength image (job_mask bounds mask) seed is_live w)
    as [job w0 | e w0] eqn:E.
  - destruct (generate_job_pure _ _ _ _ _ _ _ _ _ _ _ E) as (-> & _).
    rewrite (generate_started _ _ _ _ _ _ _ _ _ _ E).
    unfold _generate_loop, bind, effect, modify, ret.
    destruct (0 <? count); reflexivity.
  - rewrite (raised_keeps_progress _ _ _ _ _
               (generate_raises bounds cond strength image mask seed count
                  is_live w ltac:(now rewrite E))).
    reflexivity.
Qed.

(** ** From the trigger to the jobs *)

Section Requests.

Variable compute_bounds : Extent.t -> option Bounds.t -> float -> Bounds.t.
Variable apply_crop : Bounds.t -> Bounds.t -> Bounds.t.
Variable minimum_size : Bounds.t -> Z -> Extent.t -> Bounds.t.

(** [generate] without a selection, at full strength, with a fixed seed:
    the task it hands to the event loop. *)
Lemma generate_text_only (w : World) (selection : option Bounds.t) :
  color_mode_fails w = false ->
  String.eqb (node_type (Document.active_layer (document w))) "selectionmask"
    = false ->
  Document.mask_from_selection (document w)
    (generate_selection_args (settings w)) = (None, selection) ->
  Float.eqb (Model.strength (model w)) Float.one = true ->
  Model.fixed_seed (model w) = true ->
  exists w1 cond,
    generate compute_bounds apply_crop minimum_size w = Ok tt w1
    /\ tasks w1 =
         tasks w ++
         [co_generate
            (compute_bounds (Document.extent (document w)) None
               (Model.strength (model w)))
            cond (Model.strength (model w)) None None (Model.seed (model w))
            (Model.batch_count (model w)) false]
    /\ Conditioning.prompt cond = Model.prompt (model w)
    /\ Conditioning.negative_prompt cond = Model.negative_prompt (model w)
    /\ effects w1 = effects w ++ [run (co_generate
            (compute_bounds (Document.extent (document w)) None
               (Model.strength (model w)))
            cond (Model.strength (model w)) None None (Model.seed (model w))
            (Model.batch_count (model w)) false)]
    /\ job_objects w1 = job_objects w
    /\ entries w1 = entries w
    /\ settings w1 = settings w
    /\ Model.style (model w1) = Model.style (model w).
Proof.
  unfold color_mode_fails, generate_selection_args.
  intros Hc Hn Hm Hs Hf.
  unfold generate. unfold bind at 1. unfold get at 1.
  destruct (Document.color_mode (document w)) as [ok msg].
  cbn [fst snd] in Hc. rewrite Hc, Hn, Hm.
  cbn [option_map orb].
  rewrite (eqb_not_ltb _ _ Hs), Hs, Hf.
  unfold bind at 1. unfold ret at 1. unfold bind at 1. unfold ret at 1.
  unfold clear_error, eventloop_run, bind, get, when, update_model, effect,
    modify, ret.
  destruct (String.eqb (Model.error (model w)) ""); cbn [negb];
    do 2 eexists; (split; [reflexivity | ]); repeat split; reflexivity.
Qed.

Lemma batch_sent_work (job : Workflow.t) (seed stride : Z) (k n : nat) :
  flat_map (fun e => match e with enqueue work => [work] | _ => [] end)
    (batch_sent job seed stride k n) =
  map (fun i => Workflow.with_seed (seed + Z.of_nat i * stride) job) (seq k n).
Proof.
  unfold batch_sent. revert k.
  induction n as [ | n IH]; intros k; cbn [seq map flat_map]; [reflexivity | ].
  cbn [app]. now rewrite IH.
Qed.

(** X9. A text-only request from the trigger to the jobs: [generate]
    without a selection, at strength exactly 1.0 and with a fixed seed
    hands one task to the event loop; run and answered by the worker, it
    sends one [generate] work item per batch item, built without image and
    mask, and records one diffusion job per answer, with the bounds
    computed from the canvas, the prompts of the model, and seeds that
    start at the stored seed. *)
Theorem text_only_request_generates :
  forall w selection answered,
    color_mode_fails w = false ->
    String.eqb (node_type (Document.active_layer (document w)))
      "selectionmask" = false ->
    Document.mask_from_selection (document w)
      (generate_selection_args (settings w)) = (None, selection) ->
    Float.eqb (Model.strength (model w)) Float.one = true ->
    Model.fixed_seed (model w) = true ->
    Model.batch_count (model w) = Z.of_nat (List.length answered) ->
    exists w1 c w' works refs,
      generate compute_bounds apply_crop minimum_size w = Ok tt w1
      /\ tasks w1 = tasks w ++ [c]
      /\ resume_all c (started :: map enqueued answered) w1 = Ok None w'
      /\ sent_work w' = sent_work w ++ works
      /\ List.length works = List.length answered
      /\ Forall (fun work => mode_of work = Some mode_generate) works
      /\ entries w' = entries w ++ refs
      /\ List.length refs = List.length answered
      /\ lookup_all (job_objects w') refs =
           batch_jobs JobKind.diffusion (Model.prompt (model w))
             (Model.negative_prompt (model w))
             (compute_bounds (Document.extent (document w)) None
                (Model.strength (model w)))
             (Model.strength (model w)) (Model.seed (model w))
             (Settings.batch_size (settings w)) 0 answered.
Proof.
  intros w selection answered Hc Hn Hm Hs Hf Hb.
  destruct (generate_text_only w selection Hc Hn Hm Hs Hf)
    as (w1 & cond & E & Ht & Hp & Hng & Heff & Hobj & Hent & Hset & Hsty).
  rewrite Hb in *.
  set (bounds := compute_bounds (Document.extent (document w)) None
                   (Model.strength (model w))) in *.
  set (job := Workflow.mk
                (Workflow.generate (Model.style (model w1))
                   (Bounds.extent bounds) cond false)
                (Model.seed (model w))).
  assert (J : _generate_job (Model.style (model w1)) (job_bounds bounds None)
                cond (Model.strength (model w)) None (job_mask bounds None)
                (Model.seed (model w)) false w1 = Ok job w1).
  { rewrite generate_job_cases. cbn [job_mask option_map job_bounds].
    now rewrite Hs. }
  destruct (generate_run _ _ _ _ _ _ answered _ _ _ J)
    as (w' & Hrun & Hobj' & Hent' & Heff').
  exists w1,
    (co_generate bounds cond (Model.strength (model w)) None None
       (Model.seed (model w)) (Z.of_nat (List.length answered)) false),
    w',
    (map (fun i =>
            Workflow.with_seed
              (Model.seed (model w) + Z.of_nat i * Settings.batch_size (settings w1))
              job) (seq 0 (List.length answered))),
    (seq (List.length (job_objects w1)) (List.length answered)).
  split; [exact E | ]. split; [exact Ht | ]. split; [exact Hrun | ].
  split.
  { unfold sent_work. rewrite Heff', Heff, !flat_map_app, batch_sent_work.
    cbn [flat_map]. now rewrite app_nil_r. }
  split; [now rewrite length_map, length_seq | ].
  split.
  { apply Forall_map, Forall_forall. intros i _. reflexivity. }
  split; [now rewrite Hent', Hent | ].
  split; [apply length_seq | ].
  rewrite Hobj'. cbn [job_kind_of job_bounds].
  rewrite Hp, Hng, Hset.
  rewrite <- (batch_jobs_length JobKind.diffusion (Model.prompt (model w))
                (Model.negative_prompt (model w)) bounds
                (Model.strength (model w)) (Model.seed (model w))
                (Settings.batch_size (settings w)) 0 answered) at 1.
  apply lookup_all_appended.
Qed.

End Requests.

Lemma text_only_request_generates_witness :
  color_mode_fails Example.world = false
  /\ String.eqb (node_type (Document.active_layer (document Example.world)))
       "selectionmask" = false
  /\ Document.mask_from_selection (document Example.world)
       (generate_selection_args (settings Example.world)) = (None, None)
  /\ Float.eqb (Model.strength (model Example.world)) Float.one = true
  /\ Model.fixed_seed (model Example.world) = true
  /\ Model.batch_count (model Example.world) = Z.of_nat (List.length ["a"])
  /\ exists w1 c w' works refs,
       generate ExampleErrors.identity_bounds ExampleErrors.crop
         ExampleErrors.at_least Example.world = Ok tt w1
       /\ tasks w1 = tasks Example.world ++ [c]
       /\ resume_all c (started :: map enqueued ["a"]) w1 = Ok None w'
       /\ sent_work w' = sent_work Example.world ++ works
       /\ List.length works = List.length ["a"]
       /\ Forall (fun work => mode_of work = Some mode_generate) works
       /\ entries w' = entries Example.world ++ refs
       /\ List.length refs = List.length ["a"]
       /\ lookup_all (job_objects w') refs =
            batch_jobs JobKind.diffusion (Model.prompt (model Example.world))
              (Model.negative_prompt (model Example.world))
              (ExampleErrors.identity_bounds
                 (Document.extent (document Example.world)) None
                 (Model.strength (model Example.world)))
              (Model.strength (model Example.world))
              (Model.seed (model Example.world))
              (Settings.batch_size (settings Example.world)) 0 ["a"].
Proof.
  repeat (split; [reflexivity | ]).
  apply (text_only_request_generates ExampleErrors.identity_bounds
           ExampleErrors.crop ExampleErrors.at_least Example.world None ["a"]);
    reflexivity.
Defined.

(** ** Cancelling and interrupting *)

Lemma existsb_filter_implied {A} (p q : A -> bool) (l : list A) :
  (forall a, p a = true -> q a = true) ->
  existsb p (filter q l) = existsb p l.
Proof.
  intros H. induction l as [ | a l IH]; [reflexivity | ].
  cbn [filter existsb]. destruct (q a) eqn:Q; cbn [existsb].
  - now rewrite IH.
  - destruct (p a) eqn:P; [ | exact IH].
    rewrite (H a P) in Q. discriminate.
Qed.

Lemma executing_is_not_queued (w : World) (r : ref) :
  has_state JobState.executing w r = true ->
  negb (has_state JobState.queued w r) = true.
Proof.
  unfold has_state. destruct (job_at r w) as [j | ]; [ | reflexivity].
  destruct (Job.state j); cbn; congruence.
Qed.

Lemma any_executing_same (w w' : World) (l : list ref) :
  job_objects w' = job_objects w ->
  existsb (has_state JobState.executing w') l =
  existsb (has_state JobState.executing w) l.
Proof.
  intros O. induction l as [ | a l IH]; [reflexivity | ].
  cbn [existsb]. rewrite IH. unfold has_state, job_at. now rewrite O.
Qed.

(** The first half of [cancel]: the queued jobs leave the collection, and
    whether a tracked job is executing is as before. *)
Lemma cancel_queued_part (queued : bool) (w : World) :
  exists w1,
    when queued
      (w <- get ;;
       when (0 <? Z.of_nat (List.length
                (filter (has_state JobState.queued w) (entries w))))
         (effect clear_queue ;;
          for_each (filter (has_state JobState.queued w) (entries w))
            remove_job)) w = Ok tt w1
    /\ any_executing w1 = any_executing w
    /\ job_objects w1 = job_objects w
    /\ interrupt_requests w1 = interrupt_requests w
    /\ (queued = false -> w1 = w)
    /\ entries w1 =
         (if queued
          then filter (fun r => negb (has_state JobState.queued w r))
                 (entries w)
          else entries w).
Proof.
  destruct queued; cbn [when]; [ | exists w; repeat split; reflexivity].
  unfold bind at 1. unfold get at 1.
  destruct (0 <? Z.of_nat (List.length
              (filter (has_state JobState.queued w) (entries w)))) eqn:Any;
    cbn [when].
  2: { exists w. unfold ret. repeat split; try reflexivity; try discriminate.
       symmetry. apply filter_none_keeps_all.
       destruct (filter (has_state JobState.queued w) (entries w));
         [reflexivity | ].
       cbn [List.length] in Any. apply Z.ltb_ge in Any. lia. }
  unfold bind at 1. unfold effect, modify.
  set (w0 := with_effects (effects w ++ [clear_queue]) w).
  destruct (for_each_remove (has_state JobState.queued w) (entries w) [] w0)
    as (w2 & R2 & E2 & O2 & F2); [constructor | reflexivity | ].
  exists w2. split; [exact R2 | ].
  split; [ | split; [exact O2 | split; [ | split; [discriminate | exact E2]]]].
  - unfold any_executing. rewrite E2. cbn [app].
    rewrite (any_executing_same w w2) by exact O2.
    apply existsb_filter_implied. apply executing_is_not_queued.
  - unfold interrupt_requests. rewrite F2. unfold w0.
    cbn [effects with_effects]. rewrite filter_app. cbn [filter is_interrupt].
    now rewrite app_nil_r.
Qed.

(** X10. [cancel] returns for every state of the job list; it asks the
    worker to interrupt exactly once when [active] is set and a tracked job
    is executing, and not at all otherwise, whether or not queued jobs are
    cancelled in the same call; no job object changes, the executing job
    stays tracked, and [cancel()] with neither flag changes nothing. *)
Theorem cancel_interrupts_only_running_work :
  forall active queued w,
    cancel false false w = Ok tt w
    /\ exists w',
         cancel active queued w = Ok tt w'
         /\ interrupt_requests w' =
              (interrupt_requests w
               + if active && any_executing w then 1 else 0)%nat
         /\ any_executing w' = any_executing w
         /\ job_objects w' = job_objects w.
Proof.
  intros active queued w. split; [reflexivity | ].
  destruct (cancel_queued_part queued w) as (w1 & R & A & O & I & Same & _).
  unfold cancel. unfold bind at 1. rewrite R. unfold bind, get.
  rewrite A.
  destruct (active && any_executing w) eqn:B; cbn [when].
  - unfold effect, modify. eexists. split; [reflexivity | ].
    split; [ | split; [exact A | exact O]].
    unfold interrupt_requests in *. cbn [effects with_effects].
    rewrite filter_app, length_app, I. reflexivity.
  - exists w1. split; [reflexivity | ].
    split; [lia | split; [exact A | exact O]].
Qed.

Lemma filter_filter_implied {A} (p q : A -> bool) (l : list A) :
  (forall a, p a = true -> q a = true) ->
  filter p (filter q l) = filter p l.
Proof.
  intros H. induction l as [ | a l IH]; [reflexivity | ].
  cbn [filter]. destruct (q a) eqn:Q; cbn [filter].
  - now rewrite IH.
  - destruct (p a) eqn:P; [ | exact IH].
    rewrite (H a P) in Q. discriminate.
Qed.

Lemma finished_is_not_queued (w : World) (r : ref) :
  has_state JobState.finished w r = true ->
  negb (has_state JobState.queued w r) = true.
Proof.
  unfold has_state. destruct (job_at r w) as [j | ]; [ | reflexivity].
  destruct (Job.state j); cbn; congruence.
Qed.

Lemma history_same (w w' : World) (l : list ref) :
  job_objects w' = job_objects w ->
  filter (has_state JobState.finished w') l =
  filter (has_state JobState.finished w) l.
Proof.
  intros O. apply filter_ext. intros r. unfold has_state, job_at.
  now rewrite O.
Qed.

(** X24. [cancel] never touches the history: whatever its flags, the
    finished jobs that [history] yields afterwards are those it yielded
    before, in the same order. *)
Theorem cancel_keeps_the_history :
  forall active queued w,
  exists w',
    cancel active queued w = Ok tt w'
    /\ history w' = history w.
Proof.
  intros active queued w.
  destruct (cancel_queued_part queued w) as (w1 & R & A & O & _ & _ & E).
  assert (H1 : history w1 = history w).
  { unfold history. rewrite E, (history_same w w1) by exact O.
    destruct queued; [ | reflexivity].
    apply filter_filter_implied. apply finished_is_not_queued. }
  unfold cancel. unfold bind at 1. rewrite R. unfold bind, get.
  destruct (active && any_executing w1); cbn [when].
  - unfold effect, modify. eexists. split; [reflexivity | ]. exact H1.
  - exists w1. split; [reflexivity | exact H1].
Qed.

(** ** Progress and interruption events *)

Section Events.

Variable pose_svg : string -> Extent.t -> string.

(** X11. A progress event for a tracked job that is queued returns: the
    job becomes executing and stays tracked, the reported progress is
    stored, and the error text, the live session and the effects are as
    before. *)
Theorem progress_event_starts_a_queued_job :
  forall message job j w,
    ClientMessage.event message = ClientEvent.progress ->
    find (ClientMessage.job_id message) w = Some job ->
    job_at job w = Some j ->
    Job.state j = JobState.queued ->
    exists w',
      handle_message pose_svg message w = Ok tt w'
      /\ job_at job w' = Some (Job.with_state JobState.executing j)
      /\ Model.progress (model w') = ClientMessage.progress message
      /\ entries w' = entries w
      /\ Model.error (model w') = Model.error (model w)
      /\ live w' = live w
      /\ effects w' = effects w.
Proof.
  intros message job j w He Hf Hj Hq.
  cbv beta iota delta [handle_message bind get]. rewrite Hf.
  cbv beta iota delta [handle_message_of_job]. rewrite He.
  cbv beta iota delta [notify_started bind read_job]. rewrite Hj, Hq.
  cbn [JobState.eqb when].
  eexists. split; [reflexivity | ].
  split.
  { unfold job_at in *. cbn. now rewrite nth_error_replace_at, Hj. }
  repeat split; reflexivity.
Qed.

(** X12. An interrupted event for a tracked job returns: the job becomes
    cancelled and stays tracked, the progress is reset to 0, and neither
    the error text nor the live session changes. *)
Theorem interrupted_event_cancels_the_job :
  forall message job j w,
    ClientMessage.event message = ClientEvent.interrupted ->
    find (ClientMessage.job_id message) w = Some job ->
    job_at job w = Some j ->
    exists w',
      handle_message pose_svg message w = Ok tt w'
      /\ job_at job w' = Some (Job.with_state JobState.cancelled j)
      /\ Model.progress (model w') = Float.zero
      /\ entries w' = entries w
      /\ Model.error (model w') = Model.error (model w)
      /\ live w' = live w
      /\ effects w' = effects w.
Proof.
  intros message job j w He Hf Hj.
  cbv beta iota delta [handle_message bind get]. rewrite Hf.
  cbv beta iota delta [handle_message_of_job]. rewrite He.
  eexists. split; [reflexivity | ].
  split.
  { unfold job_at in *. cbn. now rewrite nth_error_replace_at, Hj. }
  repeat split; reflexivity.
Qed.

End Events.

Lemma progress_event_starts_a_queued_job_witness :
  ClientMessage.event ExampleEvents.progress_half = ClientEvent.progress
  /\ find (ClientMessage.job_id ExampleEvents.progress_half)
       ExampleQueues.waiting = Some 0%nat
  /\ job_at 0%nat ExampleQueues.waiting =
       Some (Example.job "a" JobKind.diffusion JobState.queued [])
  /\ exists w',
       handle_message ExampleMessages.no_pose ExampleEvents.progress_half
         ExampleQueues.waiting = Ok tt w'
       /\ job_at 0%nat w' =
            Some (Example.job "a" JobKind.diffusion JobState.executing [])
       /\ Model.progress (model w') = percent 50.
Proof.
  repeat (split; [reflexivity | ]).
  destruct (progress_event_starts_a_queued_job ExampleMessages.no_pose
              ExampleEvents.progress_half 0%nat
              (Example.job "a" JobKind.diffusion JobState.queued [])
              ExampleQueues.waiting)
    as (w' & R & J & P & _); try reflexivity.
  exists w'. split; [exact R | ]. split; [exact J | exact P].
Defined.

Lemma interrupted_event_cancels_the_job_witness :
  ClientMessage.event ExampleEvents.interrupted_a = ClientEvent.interrupted
  /\ find (ClientMessage.job_id ExampleEvents.interrupted_a)
       ExampleQueues.busy = Some 0%nat
  /\ job_at 0%nat ExampleQueues.busy =
       Some (Example.job "a" JobKind.diffusion JobState.executing [])
  /\ exists w',
       handle_message ExampleMessages.no_pose ExampleEvents.interrupted_a
         ExampleQueues.busy = Ok tt w'
       /\ job_at 0%nat w' =
            Some (Example.job "a" JobKind.diffusion JobState.cancelled [])
       /\ entries w' = entries ExampleQueues.busy.
Proof.
  repeat (split; [reflexivity | ]).
  destruct (interrupted_event_cancels_the_job ExampleMessages.no_pose
              ExampleEvents.interrupted_a 0%nat
              (Example.job "a" JobKind.diffusion JobState.executing [])
              ExampleQueues.busy)
    as (w' & R & J & _ & E & _); [reflexivity | reflexivity | reflexivity | ].
  exists w'. split; [exact R | ]. split; [exact J | exact E].
Defined.

(** ** Finished events that carry images *)

Lemma py_index_first {A} (a : A) (rest : list A) (w : World) :
  py_index (a :: rest) 0 w = Ok a w.
Proof.
  unfold py_index. cbn [List.length]. cbv zeta.
  replace (0 <? 0) with false by reflexivity.
  replace (0 <=? 0) with true by reflexivity.
  replace (0 <? Z.of_nat (S (List.length rest))) with true
    by (symmetry; apply Z.ltb_lt; lia).
  reflexivity.
Qed.

Lemma ids_replace_at (f : Job.t -> Job.t) (l : list Job.t) (r : ref) :
  (forall j, Job.id (f j) = Job.id j) ->
  map Job.id (replace_at r f l) = map Job.id l.
Proof.
  intros H. revert r.
  induction l as [ | a l IH]; intros [ | n]; cbn; auto.
  - now rewrite H.
  - now rewrite IH.
Qed.

Section FinishedWithImages.

Variable pose_svg : string -> Extent.t -> string.

(** X13. A finished event with images for a tracked diffusion job, while
    auto-preview is enabled, no preview layer exists and another result
    (or none) is selected: the handler returns, the job is finished, holds
    the images and stays tracked, its first image is selected, and a new
    layer named "[Preview] " + prompt with that image is inserted at the
    job's bounds without becoming the active layer, and is locked. *)
Theorem finished_diffusion_is_previewed :
  forall message job j w first rest,
    ClientMessage.event message = ClientEvent.finished ->
    ClientMessage.images message = Some (first :: rest) ->
    find (ClientMessage.job_id message) w = Some job ->
    job_at job w = Some j ->
    Job.kind j = JobKind.diffusion ->
    Settings.auto_preview (settings w) = true ->
    Model._layer (model w) = None ->
    ClientMessage.job_id message <> "" ->
    item_eqb (JobQueue.selection (Model.jobs (model w)))
      (Some (JobQueue.mk_item (ClientMessage.job_id message) 0)) = false ->
    exists w' l,
      handle_message pose_svg message w = Ok tt w'
      /\ job_at job w' =
           Some (Job.with_state JobState.finished
                   (Job.with_results (first :: rest) j))
      /\ entries w' = entries w
      /\ JobQueue.selection (Model.jobs (model w')) =
           Some (JobQueue.mk_item (ClientMessage.job_id message) 0)
      /\ Model._layer (model w') = Some l
      /\ l = {| uniqueId := Document.next_id (document w);
                node_type := "paintlayer" |}
      /\ effects w' =
           effects w ++
           [host (insert_layer
                    (String.append "["
                       (String.append "Preview"
                          (String.append "] "
                             (JobParams.prompt (Job.params j)))))
                    (Some (first, JobParams.bounds (Job.params j)))
                    false None l);
            host (setLocked l true)]
      /\ Document.active_layer (document w') =
           Document.active_layer (document w)
      /\ Model.progress (model w') = Float.one.
Proof.
  intros message job j w first rest He Hi Hf Hj Hk Hauto Hl Hid Hsel.
  destruct (find_some_job _ _ _ Hf) as (_ & j0 & Hj0 & Hjid).
  rewrite Hj in Hj0. inversion Hj0; subst j0. clear Hj0.
  assert (T : truthy (Some (ClientMessage.job_id message)) = true).
  { cbn. destruct (String.eqb_spec (ClientMessage.job_id message) "");
      [contradiction | reflexivity]. }
  cbv beta iota delta [handle_message bind get]. rewrite Hf.
  cbv beta iota delta [handle_message_of_job bind]. rewrite He, Hi.
  cbv beta iota delta [set_results write_job modify].
  set (w1 := with_job_objects _ w).
  assert (J1 : job_at job w1 = Some (Job.with_results (first :: rest) j)).
  { unfold w1, job_at in *. cbn [job_objects with_job_objects].
    now rewrite nth_error_replace_at, Hj. }
  cbv beta iota delta [read_job]. rewrite J1.
  cbn [Job.kind Job.id Job.with_results]. rewrite Hk, Hjid.
  cbv beta iota delta [ret update_model modify notify_finished write_job bind].
  set (w3 := with_job_objects _ _).
  assert (J3 : job_at job w3 =
               Some (Job.with_state JobState.finished
                       (Job.with_results (first :: rest) j))).
  { unfold w3, job_at in *.
    cbn [job_objects with_job_objects with_model].
    now rewrite nth_error_replace_at, J1. }
  cbv beta iota delta [handle_job_finished bind read_job]. rewrite J3.
  cbn [Job.kind Job.with_state Job.with_results]. rewrite Hk.
  cbv beta iota delta [ret get].
  replace (Settings.auto_preview (settings w3)) with true
    by (symmetry; exact Hauto).
  replace (Model._layer (model w3)) with (@None Node) by (symmetry; exact Hl).
  rewrite T. cbn [andb when].
  cbv beta iota zeta delta [select bind get].
  replace (JobQueue.selection (Model.jobs (model w3)))
    with (JobQueue.selection (Model.jobs (model w))) by reflexivity.
  rewrite Hsel. cbn [negb when].
  cbv beta iota delta [update_jobs update_model modify bind].
  set (w4 := with_model _ w3).
  assert (F4 : find (ClientMessage.job_id message) w4 = Some job).
  { rewrite <- Hf. apply find_same_ids; [ | reflexivity].
    unfold ids, w4, w3, w1. cbn [job_objects with_job_objects with_model].
    rewrite !ids_replace_at; reflexivity. }
  assert (J4 : job_at job w4 =
               Some (Job.with_state JobState.finished
                       (Job.with_results (first :: rest) j)))
    by exact J3.
  cbv beta iota delta [emit update_preview bind get].
  replace (JobQueue.selection (Model.jobs (model w4)))
    with (Some (JobQueue.mk_item (ClientMessage.job_id message) 0))
    by reflexivity.
  cbn [JobQueue.job JobQueue.image].
  cbv beta iota zeta delta [show_preview bind get]. rewrite F4.
  cbv beta iota delta [read_job]. rewrite J4.
  replace (Model._layer (model w4)) with (@None Node) by (symmetry; exact Hl).
  cbn [when]. cbv beta iota delta [ret].
  replace (Model._layer (model w4)) with (@None Node) by (symmetry; exact Hl).
  cbn [Job.results Job.with_state Job.with_results Job.params].
  rewrite py_index_first.
  eexists. eexists. split; [reflexivity | ].
  split; [exact J4 | ].
  repeat split; try reflexivity.
  cbn. now rewrite <- app_assoc.
Qed.

End FinishedWithImages.

Lemma finished_diffusion_is_previewed_witness :
  ClientMessage.event (ExampleEvents.finished_with_images "a") =
    ClientEvent.finished
  /\ find "a" (ExampleFinished.executing JobKind.diffusion) = Some 0%nat
  /\ Settings.auto_preview
       (settings (ExampleFinished.executing JobKind.diffusion)) = true
  /\ Model._layer (model (ExampleFinished.executing JobKind.diffusion)) = None
  /\ exists w' l,
       handle_message ExampleMessages.no_pose
         (ExampleEvents.finished_with_images "a")
         (ExampleFinished.executing JobKind.diffusion) = Ok tt w'
       /\ Model._layer (model w') = Some l
       /\ effects w' =
            [host (insert_layer "[Preview] a cat"
                     (Some (Example.picture, Example.canvas)) false None l);
             host (setLocked l true)]
       /\ Document.active_layer (document w') = Example.layer1.
Proof.
  repeat (split; [reflexivity | ]).
  destruct (finished_diffusion_is_previewed ExampleMessages.no_pose
              (ExampleEvents.finished_with_images "a") 0%nat
              (Example.job "a" JobKind.diffusion JobState.executing [])
              (ExampleFinished.executing JobKind.diffusion)
              Example.picture [Example.picture2])
    as (w' & l & R & _ & _ & _ & L & _ & E & A & _);
    try reflexivity; [discriminate | ].
  exists w', l. split; [exact R | ]. split; [exact L | ].
  split; [exact E | exact A].
Defined.

Section FinishedUpscale.

Variable pose_svg : string -> Extent.t -> string.

(** X14. A finished event with images for a tracked upscaling job: the
    handler returns; a preview layer, when there is one, is removed and
    forgotten; the document is resized to the extent of the job's bounds;
    the first image is inserted as a new layer, which becomes the active
    layer; and the job is no longer tracked. *)
Theorem finished_upscale_resizes_and_retires :
  forall message job j w first rest,
    ClientMessage.event message = ClientEvent.finished ->
    ClientMessage.images message = Some (first :: rest) ->
    find (ClientMessage.job_id message) w = Some job ->
    job_at job w = Some j ->
    Job.kind j = JobKind.upscaling ->
    exists w' l,
      handle_message pose_svg message w = Ok tt w'
      /\ remove_first job (entries w) = Some (entries w')
      /\ Model._layer (model w') = None
      /\ Document.extent (document w') =
           Bounds.extent (JobParams.bounds (Job.params j))
      /\ Document.active_layer (document w') = l
      /\ l = {| uniqueId := Document.next_id (document w);
                node_type := "paintlayer" |}
      /\ effects w' =
           effects w ++
           match Model._layer (model w) with
           | Some old => [host (remove old)]
           | None => []
           end ++
           [host (resize (Bounds.extent (JobParams.bounds (Job.params j))));
            host (insert_layer (JobParams.prompt (Job.params j))
                    (Some (first, JobParams.bounds (Job.params j)))
                    true None l)]
      /\ Model.progress (model w') = Float.one.
Proof.
  intros message job j w first rest He Hi Hf Hj Hk.
  destruct (find_some_job _ _ _ Hf) as (Hin & _).
  destruct (remove_first_in _ _ Hin) as (kept & Hrm).
  cbv beta iota delta [handle_message bind get]. rewrite Hf.
  cbv beta iota delta [handle_message_of_job bind]. rewrite He, Hi.
  cbv beta iota delta [set_results write_job modify].
  set (w1 := with_job_objects _ w).
  assert (J1 : job_at job w1 = Some (Job.with_results (first :: rest) j)).
  { unfold w1, job_at in *. cbn [job_objects with_job_objects].
    now rewrite nth_error_replace_at, Hj. }
  cbv beta iota delta [read_job]. rewrite J1.
  cbn [Job.kind Job.id Job.with_results]. rewrite Hk.
  cbv beta iota delta [add_upscale_layer bind read_job]. rewrite J1.
  cbn [Job.kind Job.results Job.params Job.with_results]. rewrite Hk.
  cbv beta iota delta [assert].
  replace (0 <? Z.of_nat (List.length (first :: rest))) with true
    by (symmetry; apply Z.ltb_lt; cbn [List.length]; lia).
  cbv beta iota delta [ret get].
  replace (Model._layer (model w1)) with (Model._layer (model w))
    by reflexivity.
  destruct (Model._layer (model w)) as [old | ] eqn:Hl.
  - cbv beta iota delta [node_remove effect update_document update_model
                           modify bind doc_resize].
    rewrite py_index_first.
    cbv beta iota zeta delta [doc_insert_layer fresh_node bind get
                                update_document modify effect ret when
                                update_model notify_finished write_job].
    set (w5 := with_job_objects _ _).
    assert (J5 : job_at job w5 =
                 Some (Job.with_state JobState.finished
                         (Job.with_results (first :: rest) j))).
    { unfold w5, job_at in *.
      cbn [job_objects with_job_objects with_model with_document
             with_effects].
      now rewrite nth_error_replace_at, J1. }
    cbv beta iota delta [handle_job_finished bind read_job]. rewrite J5.
    cbn [Job.kind Job.with_state Job.with_results]. rewrite Hk.
    cbv beta iota delta [ret remove_job bind get].
    replace (entries w5) with (entries w) by reflexivity. rewrite Hrm.
    eexists. eexists. split; [reflexivity | ].
    repeat split; try reflexivity.
    cbn. rewrite <- ?app_assoc. reflexivity.
  - cbv beta iota delta [effect update_document update_model
                           modify bind doc_resize ret].
    rewrite py_index_first.
    cbv beta iota zeta delta [doc_insert_layer fresh_node bind get
                                update_document modify effect ret when
                                update_model notify_finished write_job].
    set (w5 := with_job_objects _ _).
    assert (J5 : job_at job w5 =
                 Some (Job.with_state JobState.finished
                         (Job.with_results (first :: rest) j))).
    { unfold w5, job_at in *.
      cbn [job_objects with_job_objects with_model with_document
             with_effects].
      now rewrite nth_error_replace_at, J1. }
    cbv beta iota delta [handle_job_finished bind read_job]. rewrite J5.
    cbn [Job.kind Job.with_state Job.with_results]. rewrite Hk.
    cbv beta iota delta [ret remove_job bind get].
    replace (entries w5) with (entries w) by reflexivity. rewrite Hrm.
    eexists. eexists. split; [reflexivity | ].
    repeat split; try reflexivity; try exact Hl.
    cbn. rewrite <- ?app_assoc. reflexivity.
Qed.

End FinishedUpscale.

Lemma finished_upscale_resizes_and_retires_witness :
  ClientMessage.event (ExampleEvents.finished_with_images "a") =
    ClientEvent.finished
  /\ find "a" ExampleUpscale.previewing = Some 0%nat
  /\ exists w' l,
       handle_message ExampleMessages.no_pose
         (ExampleEvents.finished_with_images "a")
         ExampleUpscale.previewing = Ok tt w'
       /\ entries w' = []
       /\ Model._layer (model w') = None
       /\ Document.extent (document w') = Extent.mk 1024 1024
       /\ effects w' =
            [host (remove Example.layer1);
             host (resize (Extent.mk 1024 1024));
             host (insert_layer ""
                     (Some (Example.picture, ExampleUpscale.doubled))
                     true None l)].
Proof.
  repeat (split; [reflexivity | ]).
  destruct (finished_upscale_resizes_and_retires ExampleMessages.no_pose
              (ExampleEvents.finished_with_images "a") 0%nat
              ExampleUpscale.upscale_job ExampleUpscale.previewing
              Example.picture [Example.picture2])
    as (w' & l & R & Rm & L & X & _ & _ & E & _);
    try reflexivity.
  exists w', l. split; [exact R | ].
  split; [vm_compute in Rm; now inversion Rm | ].
  split; [exact L | ]. split; [exact X | exact E].
Defined.

(** ** The preview layer *)

Lemma py_index_out_of_range {A} (xs : list A) (i : Z) (w : World) :
  i < - Z.of_nat (List.length xs) \/ Z.of_nat (List.length xs) <= i ->
  py_index xs i w = Raised IndexError w.
Proof.
  intros H. unfold py_index. cbv zeta.
  destruct (Z.ltb_spec i 0) as [Neg | Pos].
  - destruct (Z.leb_spec 0 (i + Z.of_nat (List.length xs))) as [L | L];
      [lia | reflexivity].
  - destruct (Z.leb_spec 0 i) as [_ | L]; [ | lia].
    destruct (Z.ltb_spec i (Z.of_nat (List.length xs))) as [L | _];
      [lia | reflexivity].
Qed.

(** X15. [show_preview] with an index outside the job's results raises
    [IndexError] and inserts no layer; when an attached preview layer
    exists it has by then been renamed for the job, and keeps its former
    content, since the name is set before the result is looked up. *)
Theorem show_preview_bad_index_renames_first :
  forall job_id index name_prefix job j w,
    find job_id w = Some job ->
    job_at job w = Some j ->
    index < - Z.of_nat (List.length (Job.results j))
      \/ Z.of_nat (List.length (Job.results j)) <= index ->
    exists w',
      show_preview job_id index name_prefix w = Raised IndexError w'
      /\ document w' = document w
      /\ effects w' =
           effects w ++
           match Model._layer (model w) with
           | Some l =>
               if attached l (document w)
               then [host (setName l
                             (String.append "["
                                (String.append name_prefix
                                   (String.append "] "
                                      (JobParams.prompt (Job.params j))))))]
               else []
           | None => []
           end.
Proof.
  intros job_id index name_prefix job j w Hf Hj Hr.
  cbv beta iota zeta delta [show_preview bind get]. rewrite Hf.
  cbv beta iota delta [read_job]. rewrite Hj.
  destruct (Model._layer (model w)) as [l | ] eqn:Hl.
  - destruct (attached l (document w)) eqn:Ha; cbn [negb when].
    + cbv beta iota delta [ret]. rewrite Hl.
      cbv beta iota delta [effect modify].
      rewrite py_index_out_of_range by exact Hr.
      eexists. split; [reflexivity | ]. split; reflexivity.
    + cbv beta iota delta [update_model modify].
      cbn [Model._layer Model.with_layer model with_model].
      rewrite py_index_out_of_range by exact Hr.
      eexists. split; [reflexivity | ]. split; [reflexivity | ].
      cbn. now rewrite app_nil_r.
  - cbn [when]. cbv beta iota delta [ret]. rewrite Hl.
    rewrite py_index_out_of_range by exact Hr.
    exists w. split; [reflexivity | ]. split; [reflexivity | ].
    now rewrite app_nil_r.
Qed.

Lemma show_preview_bad_index_renames_first_witness :
  find "b"
    (with_model (Model.with_layer (Some Example.layer1)
                   (model ExampleQueues.busy)) ExampleQueues.busy) =
    Some 1%nat
  /\ exists w',
       show_preview "b" 1 "Preview"
         (with_model (Model.with_layer (Some Example.layer1)
                        (model ExampleQueues.busy)) ExampleQueues.busy) =
         Raised IndexError w'
       /\ effects w' = [host (setName Example.layer1 "[Preview] a cat")].
Proof.
  split; [reflexivity | ].
  destruct (show_preview_bad_index_renames_first "b" 1 "Preview" 1%nat
              (Example.job "b" JobKind.diffusion JobState.finished
                 [Example.picture])
              (with_model (Model.with_layer (Some Example.layer1)
                             (model ExampleQueues.busy)) ExampleQueues.busy))
    as (w' & R & _ & E); [reflexivity | reflexivity | right; cbn; lia | ].
  exists w'. split; [exact R | exact E].
Defined.

Section FinishedControl.

Variable pose_svg : string -> Extent.t -> string.

(** X23. A finished event with images for a tracked control-layer job
    whose result is not rendered as a pose (the mode is not pose, or the
    message has no result): the handler returns; the first image is
    inserted as a new layer at the job's bounds, which becomes the active
    layer; the control layer of the job now refers to that layer by its
    id; and the job is finished and no longer tracked. *)
Theorem finished_control_layer_links_the_new_layer :
  forall message job cr j c w first rest,
    ClientMessage.event message = ClientEvent.finished ->
    ClientMessage.images message = Some (first :: rest) ->
    find (ClientMessage.job_id message) w = Some job ->
    job_at job w = Some j ->
    Job.kind j = JobKind.control_layer ->
    Job.control j = Some cr ->
    control_at cr w = Some c ->
    ControlMode.is_pose (ControlLayer.mode c) = false
      \/ ClientMessage.result message = None ->
    exists w' l,
      handle_message pose_svg message w = Ok tt w'
      /\ l = {| uniqueId := Document.next_id (document w);
                node_type := "paintlayer" |}
      /\ control_at cr w' = Some (ControlLayer.with_layer_id (uniqueId l) c)
      /\ Document.active_layer (document w') = l
      /\ effects w' =
           effects w ++
           [host (insert_layer (JobParams.prompt (Job.params j))
                    (Some (first, JobParams.bounds (Job.params j)))
                    true None l)]
      /\ remove_first job (entries w) = Some (entries w')
      /\ job_at job w' =
           Some (Job.with_state JobState.finished
                   (Job.with_results (first :: rest) j))
      /\ Model.progress (model w') = Float.one.
Proof.
  intros message job cr j c w first rest He Hi Hf Hj Hk Hc Hcr Hp.
  destruct (find_some_job _ _ _ Hf) as (Hin & _).
  destruct (remove_first_in _ _ Hin) as (kept & Hrm).
  cbv beta iota delta [handle_message bind get]. rewrite Hf.
  cbv beta iota delta [handle_message_of_job bind]. rewrite He, Hi.
  cbv beta iota delta [set_results write_job modify].
  set (w1 := with_job_objects _ w).
  assert (J1 : job_at job w1 = Some (Job.with_results (first :: rest) j)).
  { unfold w1, job_at in *. cbn [job_objects with_job_objects].
    now rewrite nth_error_replace_at, Hj. }
  assert (C1 : control_at cr w1 = Some c) by exact Hcr.
  cbv beta iota delta [read_job]. rewrite J1.
  cbn [Job.kind Job.control Job.with_results]. rewrite Hk, Hc.
  assert (A : exists w2,
    add_control_layer pose_svg job (ClientMessage.result message) w1 =
      Ok {| uniqueId := Document.next_id (document w);
            node_type := "paintlayer" |} w2
    /\ w2 =
       with_document
         (Document.with_active_layer
            {| uniqueId := Document.next_id (document w);
               node_type := "paintlayer" |}
            (Document.with_nodes
               ({| uniqueId := Document.next_id (document w);
                   node_type := "paintlayer" |}
                :: Document.nodes (document w))
               (Document.with_next_id (Document.next_id (document w) + 1)
                  (document w))))
         (with_effects
            (effects w ++
             [host (insert_layer (JobParams.prompt (Job.params j))
                      (Some (first, JobParams.bounds (Job.params j)))
                      true None
                      {| uniqueId := Document.next_id (document w);
                         node_type := "paintlayer" |})])
            w1)).
  { cbv beta iota zeta delta [add_control_layer bind read_job read_control
                                assert].
    rewrite J1. cbn [Job.kind Job.control Job.with_results Job.results
                      Job.params].
    rewrite Hk, Hc. cbv beta iota delta [ret]. rewrite C1.
    assert (D : doc_insert_layer (JobParams.prompt (Job.params j))
                  (Some (first, JobParams.bounds (Job.params j))) true None w1
                = Ok {| uniqueId := Document.next_id (document w);
                        node_type := "paintlayer" |}
                    (with_document
                       (Document.with_active_layer
                          {| uniqueId := Document.next_id (document w);
                             node_type := "paintlayer" |}
                          (Document.with_nodes
                             ({| uniqueId := Document.next_id (document w);
                                 node_type := "paintlayer" |}
                              :: Document.nodes (document w))
                             (Document.with_next_id
                                (Document.next_id (document w) + 1)
                                (document w))))
                       (with_effects
                          (effects w ++
                           [host (insert_layer
                                    (JobParams.prompt (Job.params j))
                                    (Some (first,
                                           JobParams.bounds (Job.params j)))
                                    true None
                                    {| uniqueId :=
                                         Document.next_id (document w);
                                       node_type := "paintlayer" |})])
                          w1))) by reflexivity.
    destruct Hp as [Hp | Hp]; rewrite Hp.
    - eexists. split; [exact D | reflexivity].
    - destruct (ControlMode.is_pose (ControlLayer.mode c));
        (eexists; split; [exact D | reflexivity]). }
  destruct A as (w2 & A & W2). rewrite A. subst w2.
  cbv beta iota delta [write_control update_model modify notify_finished
                         write_job bind].
  set (w4 := with_job_objects _ _).
  assert (J4 : job_at job w4 =
               Some (Job.with_state JobState.finished
                       (Job.with_results (first :: rest) j))).
  { unfold w4, job_at in *.
    cbn [job_objects with_job_objects with_model with_control_objects
           with_document with_effects].
    now rewrite nth_error_replace_at, J1. }
  cbv beta iota delta [handle_job_finished bind read_job]. rewrite J4.
  cbn [Job.kind Job.with_state Job.with_results]. rewrite Hk.
  cbv beta iota delta [ret remove_job bind get].
  replace (entries w4) with (entries w) by reflexivity.
  rewrite Hrm.
  eexists. eexists. split; [reflexivity | ].
  split; [reflexivity | ].
  split.
  { unfold control_at in *. cbn.
    now rewrite nth_error_replace_at, Hcr. }
  split; [reflexivity | ].
  split; [reflexivity | ].
  split; [reflexivity | ].
  split; [exact J4 | reflexivity].
Qed.

End FinishedControl.

Lemma finished_control_layer_links_the_new_layer_witness :
  find "a" ExampleFinished.executing_control = Some 0%nat
  /\ control_at 0%nat ExampleFinished.executing_control =
       Some ExampleErrors.control0
  /\ exists w' l,
       handle_message ExampleMessages.no_pose
         ExampleControl.finished_with_image
         ExampleFinished.executing_control = Ok tt w'
       /\ control_at 0%nat w' =
            Some (ControlLayer.with_layer_id (uniqueId l)
                    ExampleErrors.control0)
       /\ Document.active_layer (document w') = l
       /\ uniqueId l = 10
       /\ entries w' = [].
Proof.
  split; [reflexivity | ]. split; [reflexivity | ].
  destruct (finished_control_layer_links_the_new_layer
              ExampleMessages.no_pose ExampleControl.finished_with_image
              0%nat 0%nat ExampleFinished.control_job ExampleErrors.control0
              ExampleFinished.executing_control Example.picture [])
    as (w' & l & R & L & C & A & _ & Rm & _);
    try reflexivity; [left; reflexivity | ].
  exists w', l. split; [exact R | ]. split; [exact C | ].
  split; [exact A | ]. split; [now rewrite L | ].
  vm_compute in Rm. now inversion Rm.
Defined.

(** ** Upscaling, from the trigger to the job *)

Lemma upscale_task_run (job : ref) (image : Image) (p : UpscaleParams)
    (id : string) (w : World) :
  resume_all (co_upscale_image job image p) [started; enqueued id] w =
    Ok None
      (with_job_objects
         (replace_at job (Job.with_id (Some id)) (job_objects w))
         (with_effects (effects w ++ [enqueue (upscale_work image p w)]) w)).
Proof.
  unfold upscale_work.
  cbn [resume_all]. unfold bind at 1.
  unfold resume at 1. unfold _report_errors.
  cbn [resume_coroutine].
  cbv beta iota zeta delta [_upscale_image bind get effect modify ret].
  unfold resume. unfold _report_errors. cbn [resume_coroutine].
  destruct (up_use_diffusion p); reflexivity.
Qed.

Lemma find_appended (p q : ref -> bool) (l : list ref) (job : ref) :
  (forall r, In r l -> p r = false) ->
  (forall r, r <> job -> q r = p r) ->
  q job = true ->
  List.find q (l ++ [job]) = Some job.
Proof.
  intros Hp Hq Hjob. induction l as [ | a l IH]; cbn [app List.find].
  - now rewrite Hjob.
  - destruct (Nat.eq_dec a job) as [-> | Ne].
    + now rewrite Hjob.
    + rewrite (Hq a Ne), (Hp a) by (now left).
      apply IH. intros r Hr. apply Hp. now right.
Qed.

Lemma nth_error_appended {A} (l : list A) (a : A) (r : nat) :
  r <> List.length l -> nth_error (l ++ [a]) r = nth_error l r.
Proof.
  intros Ne. destruct (Nat.lt_ge_cases r (List.length l)) as [Lt | Ge].
  - now apply nth_error_app1.
  - rewrite (proj2 (nth_error_None l r)) by exact Ge.
    apply nth_error_None. rewrite length_app. cbn [List.length]. lia.
Qed.

Section Upscaling.

Variable extent_mul : Extent.t -> float -> Extent.t.

(** What [upscale_image] leaves behind: one new queued upscaling job
    without an id, tracked last, and one task. *)
Lemma upscale_image_spec (w : World) :
  exists w1 seed,
    upscale_image extent_mul w = Ok tt w1
    /\ job_objects w1 =
         job_objects w ++
         [Job.mk None JobKind.upscaling JobState.queued
            (JobParams.mk (Bounds.of_extent 0 0 (target_extent extent_mul w))
               "" "" Float.one seed) None []]
    /\ entries w1 = entries w ++ [List.length (job_objects w)]
    /\ seed = (if Model.fixed_seed (model w) then Model.seed (model w)
               else entropy w (draws w))
    /\ tasks w1 =
         tasks w ++
         [co_upscale_image (List.length (job_objects w))
            (Document.image (document w)
               (Bounds.of_extent 0 0 (Document.extent (document w))) [])
            {| up_upscaler := UpscaleWorkspace.upscaler (upscale w);
               up_factor := UpscaleWorkspace.factor (upscale w);
               up_use_diffusion := UpscaleWorkspace.use_diffusion (upscale w);
               up_strength := UpscaleWorkspace.strength (upscale w);
               up_target_extent := target_extent extent_mul w;
               up_seed := seed |}]
    /\ sent_work w1 = sent_work w
    /\ Model.error (model w1) = "".
Proof.
  unfold upscale_image, params. unfold bind at 1. unfold bind at 1.
  unfold get at 1.
  destruct (Model.fixed_seed (model w));
    unfold bind at 1; unfold workflow_generate_seed, bind, get, modify, ret,
      add_upscale, _add, new_job, update_jobs, update_model, bind, modify, ret;
    match goal with
    | |- context [clear_error ?w1] =>
        match goal with
        | |- context [eventloop_run ?c] =>
            destruct (clear_error_run_spec c w1) as (w' & E & Ht & He & Hr)
        end
    end;
    unfold bind in E; exists w'; eexists; (split; [exact E | ]).
  all: unfold clear_error, eventloop_run, bind, get, when, update_model,
         effect, modify, ret in E.
  all: match type of E with
       | context [negb ?b] => destruct b; cbn [negb] in E
       end.
  all: inversion E; subst w'; clear E.
  all: repeat split; try reflexivity; try exact Hr.
  all: unfold sent_work; cbn [effects with_effects with_model with_tasks
                               with_job_objects with_draws];
       rewrite flat_map_app; cbn [flat_map]; now rewrite app_nil_r.
Qed.

(** X16. The upscale request from the trigger to the job: [upscale_image]
    tracks one new queued upscaling job for the whole canvas at the target
    extent and hands one task to the event loop; run and answered by the
    worker with an id that no tracked job has, the task sends one work item
    and gives the job that id, so that the event router's lookup of the id
    finds this job. *)
Theorem upscale_job_is_found_by_its_id :
  forall w id,
    find id w = None ->
    exists w1 c w' j,
      upscale_image extent_mul w = Ok tt w1
      /\ tasks w1 = tasks w ++ [c]
      /\ resume_all c [started; enqueued id] w1 = Ok None w'
      /\ find id w' = Some (List.length (job_objects w))
      /\ job_at (List.length (job_objects w)) w' = Some j
      /\ Job.kind j = JobKind.upscaling
      /\ Job.state j = JobState.queued
      /\ Job.results j = []
      /\ JobParams.bounds (Job.params j) =
           Bounds.of_extent 0 0 (target_extent extent_mul w)
      /\ entries w' = entries w ++ [List.length (job_objects w)]
      /\ List.length (sent_work w') = S (List.length (sent_work w)).
Proof.
  intros w id Hnone.
  destruct (upscale_image_spec w)
    as (w1 & seed & E & Hobj & Hent & Hseed & Ht & Hsent & _).
  eexists w1, _, _, _.
  split; [exact E | ]. split; [exact Ht | ].
  split; [apply upscale_task_run | ].
  set (job := List.length (job_objects w)).
  assert (J : job_at job
                (with_job_objects
                   (replace_at job (Job.with_id (Some id)) (job_objects w1))
                   (with_effects
                      (effects w1 ++
                       [enqueue
                          (upscale_work
                             (Document.image (document w)
                                (Bounds.of_extent 0 0
                                   (Document.extent (document w))) [])
                             {| up_upscaler := UpscaleWorkspace.upscaler (upscale w);
                                up_factor := UpscaleWorkspace.factor (upscale w);
                                up_use_diffusion :=
                                  UpscaleWorkspace.use_diffusion (upscale w);
                                up_strength := UpscaleWorkspace.strength (upscale w);
                                up_target_extent := target_extent extent_mul w;
                                up_seed := seed |} w1)]) w1)) =
              Some (Job.with_id (Some id)
                      (Job.mk None JobKind.upscaling JobState.queued
                         (JobParams.mk
                            (Bounds.of_extent 0 0 (target_extent extent_mul w))
                            "" "" Float.one seed) None []))).
  { unfold job_at. cbn [job_objects with_job_objects with_effects].
    rewrite nth_error_replace_at, Hobj.
    unfold job. rewrite nth_error_app2, Nat.sub_diag by lia. reflexivity. }
  split.
  { unfold find.
    replace (entries (with_job_objects _ _)) with (entries w1) by reflexivity.
    rewrite Hent.
    apply find_appended
      with (p := fun r => match job_at r w with
                          | Some j => id_eqb (Job.id j) (Some id)
                          | None => false
                          end).
    - intros r Hr. unfold find in Hnone.
      exact (find_none _ _ Hnone r Hr).
    - intros r Ne. unfold job_at.
      cbn [job_objects with_job_objects with_effects].
      rewrite nth_error_replace_at_other by (intros Q; apply Ne; now rewrite Q).
      rewrite Hobj, nth_error_appended by exact Ne. reflexivity.
    - fold job. rewrite J. cbn. apply String.eqb_refl. }
  split; [exact J | ].
  repeat split.
  - exact Hent.
  - unfold sent_work in *. cbn [effects with_job_objects with_effects].
    rewrite flat_map_app, length_app, Hsent. cbn [flat_map List.length app].
    lia.
Qed.

End Upscaling.

Lemma upscale_job_is_found_by_its_id_witness :
  find "u" ExampleQueues.busy = None
  /\ exists w1 c w' j,
       upscale_image ExampleErrors.scale ExampleQueues.busy = Ok tt w1
       /\ tasks w1 = tasks ExampleQueues.busy ++ [c]
       /\ resume_all c [started; enqueued "u"] w1 = Ok None w'
       /\ find "u" w' = Some 2%nat
       /\ job_at 2%nat w' = Some j
       /\ Job.kind j = JobKind.upscaling.
Proof.
  split; [reflexivity | ].
  destruct (upscale_job_is_found_by_its_id ExampleErrors.scale
              ExampleQueues.busy "u")
    as (w1 & c & w' & j & E & T & R & F & J & K & _); [reflexivity | ].
  exists w1, c, w', j. repeat split; assumption.
Defined.

(** X17. When the upscale parameters name no upscaler, the first run of the
    upscale task sends one work item and then waits for the worker's
    answer; with diffusion the item names the worker's default upscaler,
    without diffusion it carries the empty name as it is, since only the
    tiled builder is given the fallback. *)
Theorem unnamed_upscaler_defaults_only_with_diffusion :
  forall job image p w,
    up_upscaler p = "" ->
    exists w',
      resume (co_upscale_image job image p) started w =
        Ok (Some (co_upscale_enqueue job)) w'
      /\ sent_work w' =
           sent_work w ++
           [if up_use_diffusion p
            then Workflow.mk
                   (Workflow.upscale_tiled image (default_upscaler (client w))
                      (up_factor p) (Model.style (model w)) (up_strength p))
                   (up_seed p)
            else Workflow.mk (Workflow.upscale_simple image "" (up_factor p))
                   (-1)]
      /\ job_objects w' = job_objects w
      /\ entries w' = entries w.
Proof.
  intros job image p w Hu.
  unfold resume, _report_errors. cbn [resume_coroutine].
  cbv beta iota zeta delta [_upscale_image bind get effect modify ret].
  rewrite Hu. cbn [String.eqb].
  eexists. split; [reflexivity | ].
  split; [ | split; reflexivity].
  unfold sent_work. cbn [effects with_effects].
  rewrite flat_map_app. cbn [flat_map app].
  destruct (up_use_diffusion p); reflexivity.
Qed.

Lemma unnamed_upscaler_defaults_only_with_diffusion_witness :
  exists w',
    resume
      (co_upscale_image 0%nat Example.picture
         {| up_upscaler := ""; up_factor := Float.of_int 2;
            up_use_diffusion := false; up_strength := Float.one;
            up_target_extent := Extent.mk 1024 1024; up_seed := 42 |})
      started ExampleUpscale.tracked =
      Ok (Some (co_upscale_enqueue 0%nat)) w'
    /\ sent_work w' =
         [Workflow.mk
            (Workflow.upscale_simple Example.picture "" (Float.of_int 2))
            (-1)].
Proof.
  destruct (unnamed_upscaler_defaults_only_with_diffusion 0%nat
              Example.picture
              {| up_upscaler := ""; up_factor := Float.of_int 2;
                 up_use_diffusion := false; up_strength := Float.one;
                 up_target_extent := Extent.mk 1024 1024; up_seed := 42 |}
              ExampleUpscale.tracked)
    as (w' & R & S & _); [reflexivity | ].
  exists w'. split; [exact R | exact S].
Defined.

(** ** A control layer, from the trigger to the job *)

Lemma control_task_run (job : ref) (image : Image) (mode : ControlMode.t)
    (bounds : option Bounds.t) (id : string) (w : World) :
  resume_all (co_generate_control_layer job image mode bounds)
    [started; enqueued id] w =
    Ok None
      (with_job_objects
         (replace_at job (Job.with_id (Some id)) (job_objects w))
         (with_effects
            (effects w ++
             [enqueue
                (Workflow.mk (Workflow.create_control_image image mode bounds)
                   (-1))]) w)).
Proof. reflexivity. Qed.

Lemma generate_control_layer_spec (control : ref) (c : ControlLayer.t)
    (w : World) :
  color_mode_fails w = false ->
  control_at control w = Some c ->
  exists w1,
    generate_control_layer control w =
      Ok (Some (List.length (job_objects w))) w1
    /\ job_objects w1 =
         job_objects w ++
         [Job.mk None JobKind.control_layer JobState.queued
            (JobParams.mk (Bounds.of_extent 0 0 (image_extent (whole_image w)))
               "" "" Float.one 0) (Some control) []]
    /\ entries w1 = entries w ++ [List.length (job_objects w)]
    /\ tasks w1 =
         tasks w ++
         [co_generate_control_layer (List.length (job_objects w))
            (whole_image w) (ControlLayer.mode c)
            (option_map mask_bounds
               (fst (Document.mask_from_selection (document w)
                       control_selection_args)))]
    /\ sent_work w1 = sent_work w
    /\ Model.error (model w1) = "".
Proof.
  unfold color_mode_fails, generate_control_layer, whole_image,
    control_selection_args.
  unfold bind at 1. unfold get at 1.
  destruct (Document.color_mode (document w)) as [ok msg].
  cbn [fst snd]. intros -> Hc.
  destruct (Document.mask_from_selection (document w) _) as [mask other].
  unfold add_control, _add, new_job, update_jobs, update_model, read_control,
    bind, modify, ret.
  unfold control_at in *. cbn [control_objects with_model with_job_objects].
  rewrite Hc.
  unfold clear_error, eventloop_run, bind, get, when, update_model,
    effect, modify, ret.
  match goal with
  | |- context [negb ?b] => destruct b eqn:B; cbn [negb]
  end.
  - eexists. split; [reflexivity | ].
    repeat split; try reflexivity.
    + unfold sent_work. cbn [effects with_effects with_model with_tasks
                               with_job_objects].
      rewrite flat_map_app. cbn [flat_map]. now rewrite app_nil_r.
    + cbn in B. now apply String.eqb_eq in B.
  - eexists. split; [reflexivity | ].
    repeat split; try reflexivity.
    unfold sent_work. cbn [effects with_effects with_model with_tasks
                             with_job_objects].
    rewrite flat_map_app. cbn [flat_map]. now rewrite app_nil_r.
Qed.

(** X25. A control-layer request from the trigger to the job: when the
    colour mode is supported, [generate_control_layer] tracks one new queued
    control-layer job for that control layer, with the bounds of the whole
    image, and returns it; run and answered by the worker with an id that
    no tracked job has, its task sends one work item, built from the whole
    image, the mode of the control layer and the bounds of the selection,
    and gives the job that id, so that the router's lookup of the id finds
    this job. *)
Theorem control_job_is_found_by_its_id :
  forall control c w id,
    color_mode_fails w = false ->
    control_at control w = Some c ->
    find id w = None ->
    exists w1 task w' j,
      generate_control_layer control w =
        Ok (Some (List.length (job_objects w))) w1
      /\ tasks w1 = tasks w ++ [task]
      /\ resume_all task [started; enqueued id] w1 = Ok None w'
      /\ find id w' = Some (List.length (job_objects w))
      /\ job_at (List.length (job_objects w)) w' = Some j
      /\ Job.kind j = JobKind.control_layer
      /\ Job.control j = Some control
      /\ Job.state j = JobState.queued
      /\ JobParams.bounds (Job.params j) =
           Bounds.of_extent 0 0 (image_extent (whole_image w))
      /\ entries w' = entries w ++ [List.length (job_objects w)]
      /\ sent_work w' =
           sent_work w ++
           [Workflow.mk
              (Workflow.create_control_image (whole_image w)
                 (ControlLayer.mode c)
                 (option_map mask_bounds
                    (fst (Document.mask_from_selection (document w)
                            control_selection_args))))
              (-1)].
Proof.
  intros control c w id Hcm Hc Hnone.
  destruct (generate_control_layer_spec control c w Hcm Hc)
    as (w1 & E & Hobj & Hent & Ht & Hsent & _).
  eexists w1, _, _, _.
  split; [exact E | ]. split; [exact Ht | ].
  split; [apply control_task_run | ].
  set (job := List.length (job_objects w)).
  match goal with
  | |- find id ?w' = _ /\ _ =>
      assert (J : job_at job w' =
                  Some (Job.with_id (Some id)
                          (Job.mk None JobKind.control_layer JobState.queued
                             (JobParams.mk
                                (Bounds.of_extent 0 0
                                   (image_extent (whole_image w)))
                                "" "" Float.one 0) (Some control) [])))
  end.
  { unfold job_at. cbn [job_objects with_job_objects with_effects].
    rewrite nth_error_replace_at, Hobj.
    unfold job. rewrite nth_error_app2, Nat.sub_diag by lia. reflexivity. }
  split.
  { unfold find.
    replace (entries (with_job_objects _ _)) with (entries w1) by reflexivity.
    rewrite Hent.
    apply find_appended
      with (p := fun r => match job_at r w with
                          | Some j => id_eqb (Job.id j) (Some id)
                          | None => false
                          end).
    - intros r Hr. unfold find in Hnone.
      exact (find_none _ _ Hnone r Hr).
    - intros r Ne. unfold job_at.
      cbn [job_objects with_job_objects with_effects].
      rewrite nth_error_replace_at_other by (intros Q; apply Ne; now rewrite Q).
      rewrite Hobj, nth_error_appended by exact Ne. reflexivity.
    - fold job. rewrite J. cbn. apply String.eqb_refl. }
  split; [exact J | ].
  repeat split.
  - exact Hent.
  - unfold sent_work in *. cbn [effects with_job_objects with_effects].
    rewrite flat_map_app, Hsent. reflexivity.
Qed.

Lemma control_job_is_found_by_its_id_witness :
  color_mode_fails ExampleErrors.stale = false
  /\ control_at 0%nat ExampleErrors.stale = Some ExampleErrors.control0
  /\ find "c" ExampleErrors.stale = None
  /\ exists w1 task w' j,
       generate_control_layer 0%nat ExampleErrors.stale = Ok (Some 1%nat) w1
       /\ tasks w1 = tasks ExampleErrors.stale ++ [task]
       /\ resume_all task [started; enqueued "c"] w1 = Ok None w'
       /\ find "c" w' = Some 1%nat
       /\ job_at 1%nat w' = Some j
       /\ Job.control j = Some 0%nat.
Proof.
  repeat (split; [reflexivity | ]).
  destruct (control_job_is_found_by_its_id 0%nat ExampleErrors.control0
              ExampleErrors.stale "c")
    as (w1 & task & w' & j & E & T & R & F & J & _ & C & _);
    try reflexivity.
  exists w1, task, w', j. repeat split; assumption.
Defined.

(** ** Keeping a live result *)

(** X18. [copy_result_to_layer] either fails its assertion and changes
    nothing, when the session has no result or no bounds for it, or
    returns after inserting one layer named "[Live] " + prompt with the
    result at its bounds, which becomes the active layer; the seed is
    replaced by the next value of the random source exactly when
    [new_seed_after_apply] is set, and the result stays available. *)
Theorem copy_result_to_layer_inserts_one_layer :
  forall w,
    match LiveWorkspace._result (live w),
          LiveWorkspace._result_bounds (live w) with
    | Some result, Some bounds =>
        exists w',
          copy_result_to_layer w = Ok tt w'
          /\ effects w' =
               effects w ++
               [host (insert_layer
                        (String.append "[Live] " (Model.prompt (model w)))
                        (Some (result, bounds)) true None
                        (Document.active_layer (document w')))]
          /\ Document.active_layer (document w') =
               {| uniqueId := Document.next_id (document w);
                  node_type := "paintlayer" |}
          /\ Model.seed (model w') =
               (if Settings.new_seed_after_apply (settings w)
                then entropy w (draws w)
                else Model.seed (model w))
          /\ live w' = live w
          /\ entries w' = entries w
    | _, _ => copy_result_to_layer w = Raised (AssertionError "") w
    end.
Proof.
  intros w. cbv beta iota delta [copy_result_to_layer bind get].
  destruct (LiveWorkspace._result (live w)) as [result | ];
    [ | reflexivity].
  destruct (LiveWorkspace._result_bounds (live w)) as [bounds | ];
    [ | reflexivity].
  cbv beta iota zeta delta [doc_insert_layer fresh_node bind get
                              update_document modify effect ret when].
  destruct (Settings.new_seed_after_apply (settings w)) eqn:N.
  - replace (Settings.new_seed_after_apply (settings _)) with true
      by (symmetry; exact N).
    cbv beta iota zeta delta [generate_seed workflow_generate_seed bind get
                                update_model modify ret].
    eexists. split; [reflexivity | ]. repeat split; reflexivity.
  - replace (Settings.new_seed_after_apply (settings _)) with false
      by (symmetry; exact N).
    eexists. split; [reflexivity | ]. repeat split; reflexivity.
Qed.

(** ** Requests the document cannot serve *)

Section ColorMode.

Variable compute_bounds : Extent.t -> option Bounds.t -> float -> Bounds.t.
Variable apply_crop : Bounds.t -> Bounds.t -> Bounds.t.
Variable minimum_size : Bounds.t -> Z -> Extent.t -> Bounds.t.

(** X19. When the document's colour mode check fails with a message,
    [generate] and [generate_control_layer] both return without starting
    anything: the message becomes the error text, the live session is
    switched off, nothing is sent to the worker, no job is added, and
    [generate_control_layer] returns [None]. *)
Theorem unsupported_color_mode_starts_nothing :
  forall w control message,
    Document.color_mode (document w) = (false, Some message) ->
    message <> "" ->
    exists w1 w2,
      generate compute_bounds apply_crop minimum_size w = Ok tt w1
      /\ generate_control_layer control w = Ok None w2
      /\ w2 = w1
      /\ Model.error (model w1) = message
      /\ is_active w1 = false
      /\ sent_work w1 = sent_work w
      /\ job_objects w1 = job_objects w
      /\ entries w1 = entries w.
Proof.
  intros w control message Hc Hm.
  assert (T : truthy (Some message) = true).
  { cbn. destruct (String.eqb_spec message ""); [contradiction | reflexivity]. }
  destruct (report_error_spec message w) as (w1 & E & He & Ha & Ho & Hn).
  pose proof (report_error_effects message w) as S. rewrite E in S.
  cbn [state_of] in S.
  exists w1, w1.
  split.
  { unfold generate. unfold bind at 1. unfold get at 1.
    rewrite Hc. cbn [negb andb]. rewrite T. exact E. }
  split.
  { unfold generate_control_layer. unfold bind at 1. unfold get at 1.
    rewrite Hc. cbn [negb andb]. rewrite T.
    unfold bind. rewrite E. reflexivity. }
  repeat split; assumption.
Qed.

End ColorMode.

Lemma unsupported_color_mode_starts_nothing_witness :
  Document.color_mode (document ExampleColorMode.indexed) =
    (false, Some "Unsupported color mode")
  /\ is_active ExampleColorMode.indexed = true
  /\ exists w1,
       generate ExampleErrors.identity_bounds ExampleErrors.crop
         ExampleErrors.at_least ExampleColorMode.indexed = Ok tt w1
       /\ generate_control_layer 0%nat ExampleColorMode.indexed = Ok None w1
       /\ Model.error (model w1) = "Unsupported color mode"
       /\ is_active w1 = false
       /\ entries w1 = entries ExampleColorMode.indexed.
Proof.
  split; [reflexivity | ]. split; [reflexivity | ].
  destruct (unsupported_color_mode_starts_nothing
              ExampleErrors.identity_bounds ExampleErrors.crop
              ExampleErrors.at_least ExampleColorMode.indexed 0%nat
              "Unsupported color mode")
    as (w1 & w2 & G & C & Eq & Er & A & _ & _ & En);
    [reflexivity | discriminate | ].
  subst w2. exists w1. repeat split; assumption.
Defined.

(** ** Capturing frames *)

Lemma set_result_frames (value : Image) (bounds : Bounds.t) (w : World) :
  exists w',
    set_result value bounds w = Ok tt w'
    /\ LiveWorkspace._keyframes (live w') =
         LiveWorkspace._keyframes (live w) ++
         (if is_recording w then [(value, bounds)] else [])
    /\ is_recording w' = is_recording w
    /\ is_active w' = is_active w
    /\ LiveWorkspace._recording_layer (live w') =
         LiveWorkspace._recording_layer (live w)
    /\ document w' = document w
    /\ tasks w' = tasks w
    /\ effects w' = effects w.
Proof.
  unfold set_result, bind, update_live, modify, get, when.
  set (w1 := with_live _ w).
  replace (is_recording w1) with (is_recording w) by reflexivity.
  destruct (is_recording w) eqn:R; eexists; (split; [reflexivity | ]).
  - repeat split; try reflexivity. exact R.
  - repeat split; try reflexivity; [ | exact R].
    cbn. now rewrite app_nil_r.
Qed.

Lemma capture_run (results : list (Image * Bounds.t)) :
  forall w,
  exists w',
    for_each results (fun frame => set_result (fst frame) (snd frame)) w =
      Ok tt w'
    /\ LiveWorkspace._keyframes (live w') =
         LiveWorkspace._keyframes (live w) ++
         (if is_recording w then results else [])
    /\ is_recording w' = is_recording w
    /\ is_active w' = is_active w
    /\ LiveWorkspace._recording_layer (live w') =
         LiveWorkspace._recording_layer (live w)
    /\ document w' = document w
    /\ tasks w' = tasks w
    /\ effects w' = effects w.
Proof.
  induction results as [ | [value bounds] results IH]; intros w.
  - exists w. cbn [for_each]. unfold ret. split; [reflexivity | ].
    split; [destruct (is_recording w); now rewrite app_nil_r | ].
    repeat split; reflexivity.
  - destruct (set_result_frames value bounds w)
      as (w1 & E1 & K1 & R1 & A1 & L1 & D1 & T1 & F1).
    destruct (IH w1) as (w' & E & K & R & A & L & D & T & F).
    exists w'. cbn [for_each fst snd]. unfold bind. rewrite E1.
    split; [exact E | ].
    split.
    { rewrite K, K1, R1. destruct (is_recording w); cbn [app].
      - now rewrite <- app_assoc.
      - now rewrite !app_nil_r. }
    repeat split; congruence.
Qed.

(** X20. Results shown one after the other are captured as frames exactly
    while recording is on: the buffer grows by these results, in the order
    they arrived, and without a recording it stays as it is; showing a
    result starts no task, calls nothing in the host and changes neither
    flag of the session. *)
Theorem results_are_captured_only_while_recording :
  forall results w,
  exists w',
    for_each results (fun frame => set_result (fst frame) (snd frame)) w =
      Ok tt w'
    /\ LiveWorkspace._keyframes (live w') =
         LiveWorkspace._keyframes (live w) ++
         (if is_recording w then results else [])
    /\ is_recording w' = is_recording w
    /\ is_active w' = is_active w
    /\ tasks w' = tasks w
    /\ effects w' = effects w.
Proof.
  intros results w.
  destruct (capture_run results w) as (w' & E & K & R & A & _ & _ & T & F).
  exists w'. repeat split; assumption.
Qed.

(** ** A recording from start to stop *)

Lemma add_recording_layer_attached (restore_active : bool) (w : World) :
  exists l w',
    _add_recording_layer restore_active w = Ok l w'
    /\ LiveWorkspace._recording_layer (live w') = Some l
    /\ attached l (document w') = true.
Proof.
  unfold _add_recording_layer, bind, get, when.
  destruct (LiveWorkspace._recording_layer (live w)) as [l | ] eqn:L.
  - destruct (attached l (document w)) eqn:A; cbn [negb].
    + unfold ret. rewrite L. do 2 eexists. split; [reflexivity | ].
      split; assumption.
    + unfold update_live, modify. cbn.
      destruct restore_active; do 2 eexists; (split; [reflexivity | ]);
        (split; [reflexivity | ]); unfold attached; cbn;
        now rewrite node_eqb_refl.
  - unfold ret. rewrite L.
    destruct restore_active; do 2 eexists; (split; [reflexivity | ]);
      (split; [reflexivity | ]); unfold attached; cbn;
      now rewrite node_eqb_refl.
Qed.

(** Switching recording on leaves an attached recording layer. *)
Lemma start_recording_layer (n : nat) (w : World) :
  is_recording w = false ->
  exists w' l,
    toggle_record (S (S (S n))) true w = Ok tt w'
    /\ LiveWorkspace._recording_layer (live w') = Some l
    /\ attached l (document w') = true.
Proof.
  intros R. cbn [toggle_record]. unfold bind at 1. unfold get at 1.
  rewrite R. cbn [Bool.eqb negb when].
  unfold bind at 1. unfold update_live at 1. unfold modify at 1.
  set (w1 := with_live (LiveWorkspace.with_is_recording true (live w)) w).
  unfold bind at 1. cbn [toggle]. unfold bind at 1. unfold get at 1.
  replace (is_active w1) with (is_active w) by reflexivity.
  destruct (is_active w) eqn:A; cbn [Bool.eqb negb when].
  - unfold ret at 1.
    destruct (add_recording_layer_attached true w1) as (l & w' & E & Hl & Ha).
    unfold bind. rewrite E. exists w', l. repeat split; assumption.
  - unfold bind at 1. unfold update_live at 1. unfold modify at 1.
    set (w2 := with_live (LiveWorkspace.with_is_active true (live w1)) w1).
    destruct (generate_live_spec w2) as (w3 & c & E3 & _).
    rewrite E3.
    destruct (add_recording_layer_attached true w3) as (l & w' & E & Hl & Ha).
    unfold bind. rewrite E. exists w', l. repeat split; assumption.
Qed.

(** Switching recording off in an active session that has captured frames
    and whose recording layer is in the document. *)
Lemma stop_recording_spec (n : nat) (w : World) (l : Node)
    (frame : Image * Bounds.t) (frames : list (Image * Bounds.t)) :
  is_recording w = true ->
  is_active w = true ->
  LiveWorkspace._recording_layer (live w) = Some l ->
  attached l (document w) = true ->
  LiveWorkspace._keyframes (live w) = frame :: frames ->
  exists w',
    toggle_record (S (S (S n))) false w = Ok tt w'
    /\ tasks w' = tasks w ++ [co_insert_frames l (frame :: frames)]
    /\ effects w' = effects w ++ [run (co_insert_frames l (frame :: frames))]
    /\ LiveWorkspace._keyframes (live w') = []
    /\ is_active w' = false
    /\ is_recording w' = false
    /\ document w' = document w.
Proof.
  intros R A L At K.
  cbn [toggle_record]. unfold bind at 1. unfold get at 1.
  rewrite R. cbn [Bool.eqb negb when].
  unfold bind at 1. unfold update_live at 1. unfold modify at 1.
  set (w1 := with_live (LiveWorkspace.with_is_recording false (live w)) w).
  unfold bind at 1. cbn [toggle]. unfold bind at 1. unfold get at 1.
  replace (is_active w1) with true by (symmetry; exact A).
  cbn [Bool.eqb negb when].
  unfold bind at 1. unfold update_live at 1. unfold modify at 1.
  set (w2 := with_live (LiveWorkspace.with_is_active false (live w1)) w1).
  cbn [toggle_record]. unfold bind at 1. unfold get at 1.
  replace (is_recording w2) with false by reflexivity.
  cbn [Bool.eqb negb when]. unfold ret at 1.
  unfold _insert_frames. unfold bind at 1. unfold get at 1.
  replace (LiveWorkspace._keyframes (live w2)) with (frame :: frames)
    by (symmetry; exact K).
  unfold _add_recording_layer, bind, get, when.
  replace (LiveWorkspace._recording_layer (live w2)) with (Some l)
    by (symmetry; exact L).
  replace (document w2) with (document w) by reflexivity.
  rewrite At. cbn [negb]. unfold ret.
  replace (LiveWorkspace._recording_layer (live w2)) with (Some l)
    by (symmetry; exact L).
  unfold eventloop_run, effect, update_live, modify, bind.
  eexists. split; [reflexivity | ]. repeat split; reflexivity.
Qed.

(** X21. A recording from start to stop.  Recording is switched on in a
    session that is not recording and has an empty buffer; the results
    shown while it runs are captured; when recording is switched off, one
    task is handed to the event loop that holds exactly these results, in
    the order they were shown, for the recording layer that was there when
    the recording started; the buffer is empty again and the live session
    has stopped with the recording. *)
Theorem recording_hands_its_frames_to_one_task :
  forall w frame frames,
    is_recording w = false ->
    LiveWorkspace._keyframes (live w) = [] ->
    exists w1 w2 w3 layer,
      set_is_recording true w = Ok tt w1
      /\ LiveWorkspace._recording_layer (live w1) = Some layer
      /\ for_each (frame :: frames)
           (fun shown => set_result (fst shown) (snd shown)) w1 = Ok tt w2
      /\ set_is_recording false w2 = Ok tt w3
      /\ tasks w3 = tasks w1 ++ [co_insert_frames layer (frame :: frames)]
      /\ LiveWorkspace._keyframes (live w3) = []
      /\ is_recording w3 = false
      /\ is_active w3 = false.
Proof.
  intros w frame frames R K.
  destruct (toggle_record_on_spec 997 w R)
    as (w1 & E1 & A1 & R1 & _ & _ & _ & K1).
  destruct (start_recording_layer 997 w R) as (w1' & l & E1' & L1 & At1).
  rewrite E1 in E1'. inversion E1'; subst w1'. clear E1'.
  destruct (capture_run (frame :: frames) w1)
    as (w2 & E2 & K2 & R2 & A2 & L2 & D2 & T2 & _).
  rewrite R1, K1, K in K2. cbn [app] in K2.
  destruct (stop_recording_spec 997 w2 l frame frames)
    as (w3 & E3 & T3 & _ & K3 & A3 & R3 & _).
  { now rewrite R2. }
  { now rewrite A2. }
  { now rewrite L2. }
  { now rewrite D2. }
  { exact K2. }
  exists w1, w2, w3, l.
  split; [exact E1 | ]. split; [exact L1 | ]. split; [exact E2 | ].
  split; [exact E3 | ]. split; [now rewrite T3, T2 | ].
  repeat split; assumption.
Qed.

Lemma recording_hands_its_frames_to_one_task_witness :
  is_recording Example.world = false
  /\ LiveWorkspace._keyframes (live Example.world) = []
  /\ exists w1 w2 w3 layer,
       set_is_recording true Example.world = Ok tt w1
       /\ LiveWorkspace._recording_layer (live w1) = Some layer
       /\ for_each ExampleRecording.frames
            (fun shown => set_result (fst shown) (snd shown)) w1 = Ok tt w2
       /\ set_is_recording false w2 = Ok tt w3
       /\ tasks w3 =
            tasks w1 ++ [co_insert_frames layer ExampleRecording.frames]
       /\ LiveWorkspace._keyframes (live w3) = []
       /\ is_recording w3 = false
       /\ is_active w3 = false.
Proof.
  split; [reflexivity | ]. split; [reflexivity | ].
  exact (recording_hands_its_frames_to_one_task Example.world
           (Example.picture, Example.canvas)
           [(Example.picture2, Example.region)] eq_refl eq_refl).
Defined.

(** ** From the worker's answers to the router's lookup *)

Lemma batch_jobs_cons kind pos neg bounds strength seed stride k id ids :
  batch_jobs kind pos neg bounds strength seed stride k (id :: ids) =
  Job.mk (Some id) kind JobState.queued
    (JobParams.mk bounds pos neg strength (seed + Z.of_nat k * stride))
    None []
  :: batch_jobs kind pos neg bounds strength seed stride (S k) ids.
Proof. reflexivity. Qed.

Lemma nth_error_batch_jobs kind pos neg bounds strength seed stride :
  forall answered k i id,
    nth_error answered i = Some id ->
    nth_error (batch_jobs kind pos neg bounds strength seed stride k answered)
      i =
    Some (Job.mk (Some id) kind JobState.queued
            (JobParams.mk bounds pos neg strength
               (seed + Z.of_nat (k + i) * stride)) None []).
Proof.
  induction answered as [ | a answered IH]; intros k [ | i] id H;
    try discriminate; rewrite batch_jobs_cons; cbn [nth_error] in *.
  - inversion H; subst. now rewrite Nat.add_0_r.
  - rewrite (IH (S k) i id H).
    replace (S k + i)%nat with (k + S i)%nat by lia. reflexivity.
Qed.

Lemma find_app_none {A} (p : A -> bool) (l rest : list A) :
  (forall a, In a l -> p a = false) ->
  List.find p (l ++ rest) = List.find p rest.
Proof.
  induction l as [ | a l IH]; intros H; [reflexivity | ].
  cbn [app List.find]. rewrite (H a) by (now left).
  apply IH. intros b Hb. apply H. now right.
Qed.

(** Among new job records with distinct ids, stored after the old ones,
    the lookup of the [k]-th id stops at the [k]-th new record. *)
Lemma find_new_record (id : string) :
  forall (answered : list string) (news objs : list Job.t) (k : nat),
    map Job.id news = map Some answered ->
    NoDup answered ->
    nth_error answered k = Some id ->
    List.find
      (fun r => match nth_error (objs ++ news) r with
                | Some j => id_eqb (Job.id j) (Some id)
                | None => false
                end)
      (seq (List.length objs) (List.length news)) =
    Some (List.length objs + k)%nat.
Proof.
  induction answered as [ | a answered IH]; intros news objs k Hids Hnd Hk.
  - destruct k; discriminate.
  - destruct news as [ | j news]; [discriminate | ].
    cbn [map] in Hids. inversion Hids as [[Hj Hrest]].
    cbn [List.length seq List.find].
    rewrite nth_error_app2, Nat.sub_diag by lia. cbn [nth_error].
    rewrite Hj. cbn [id_eqb].
    inversion Hnd as [ | ? ? Hnotin Hnd']; subst.
    destruct k as [ | k]; cbn [nth_error] in Hk.
    + inversion Hk; subst. rewrite String.eqb_refl.
      now rewrite Nat.add_0_r.
    + destruct (String.eqb_spec a id) as [-> | _].
      { exfalso. apply Hnotin. eapply nth_error_In. exact Hk. }
      replace (objs ++ j :: news) with ((objs ++ [j]) ++ news)
        by (now rewrite <- app_assoc).
      replace (S (List.length objs)) with (List.length (objs ++ [j]))
        by (rewrite length_app; cbn; lia).
      rewrite (IH news (objs ++ [j]) k Hrest Hnd' Hk).
      rewrite length_app. cbn [List.length]. f_equal. lia.
Qed.

Lemma batch_jobs_ids kind pos neg bounds strength seed stride :
  forall answered k,
    map Job.id (batch_jobs kind pos neg bounds strength seed stride k answered)
    = map Some answered.
Proof.
  induction answered as [ | a answered IH]; intros k; [reflexivity | ].
  rewrite batch_jobs_cons. cbn [map Job.id]. now rewrite IH.
Qed.

(** X22. The jobs of a request are found again by the ids the worker
    handed out.  When the queue tracks only existing job objects, the ids
    answered are distinct and none of them is the id of a tracked job, then
    after the request has run, the router's lookup of the [k]-th id answered
    gives the [k]-th job recorded for the request: it is queued, has that
    id and the seed [seed + k * settings.batch_size]. *)
Theorem recorded_jobs_are_found_by_their_ids :
  forall bounds cond strength image mask seed answered is_live w job k id,
    _generate_job (Model.style (model w)) (job_bounds bounds mask) cond
      strength image (job_mask bounds mask) seed is_live w = Ok job w ->
    Forall (fun r => (r < List.length (job_objects w))%nat) (entries w) ->
    NoDup answered ->
    (forall other, In other answered -> find other w = None) ->
    nth_error answered k = Some id ->
    exists w',
      resume_all
        (co_generate bounds cond strength image mask seed
           (Z.of_nat (List.length answered)) is_live)
        (started :: map enqueued answered) w = Ok None w'
      /\ find id w' = Some (List.length (job_objects w) + k)%nat
      /\ job_at (List.length (job_objects w) + k)%nat w' =
           Some (Job.mk (Some id) (job_kind_of is_live) JobState.queued
                   (JobParams.mk (job_bounds bounds mask)
                      (Conditioning.prompt cond)
                      (Conditioning.negative_prompt cond) strength
                      (seed + Z.of_nat k * Settings.batch_size (settings w)))
                   None []).
Proof.
  intros bounds cond strength image mask seed answered is_live w job k id
    J Hvalid Hnd Hnew Hk.
  destruct (generate_run bounds cond strength image mask seed answered
              is_live w job J) as (w' & Hrun & Hobj & Hent & _).
  exists w'. split; [exact Hrun | ].
  set (news := batch_jobs (job_kind_of is_live) (Conditioning.prompt cond)
                 (Conditioning.negative_prompt cond) (job_bounds bounds mask)
                 strength seed (Settings.batch_size (settings w)) 0 answered)
    in *.
  assert (Hlen : List.length news = List.length answered)
    by apply batch_jobs_length.
  split.
  - unfold find, job_at. rewrite Hent, Hobj, <- Hlen.
    rewrite find_app_none.
    + apply (find_new_record id answered news (job_objects w) k);
        [apply batch_jobs_ids | exact Hnd | exact Hk].
    + intros r Hr.
      rewrite Forall_forall in Hvalid.
      rewrite nth_error_app1 by (apply Hvalid; exact Hr).
      assert (Hin : In id answered) by (eapply nth_error_In; exact Hk).
      specialize (Hnew id Hin). unfold find in Hnew.
      exact (find_none _ _ Hnew r Hr).
  - unfold job_at. rewrite Hobj.
    rewrite nth_error_app2 by lia.
    replace (List.length (job_objects w) + k - List.length (job_objects w))%nat
      with k by lia.
    unfold news. rewrite (nth_error_batch_jobs _ _ _ _ _ _ _ answered 0 k id Hk).
    reflexivity.
Qed.

Lemma recorded_jobs_are_found_by_their_ids_witness :
  Forall (fun r => (r < List.length (job_objects ExampleQueues.busy))%nat)
    (entries ExampleQueues.busy)
  /\ NoDup ["x"; "y"]
  /\ nth_error ["x"; "y"] 1 = Some "y"
  /\ exists w',
       resume_all
         (co_generate Example.canvas Example.cond Float.one None None 42
            (Z.of_nat (List.length ["x"; "y"])) false)
         (started :: map enqueued ["x"; "y"]) ExampleQueues.busy = Ok None w'
       /\ find "y" w' = Some 3%nat
       /\ option_map (fun j => JobParams.seed (Job.params j))
            (job_at 3%nat w') = Some 52.
Proof.
  assert (V : Forall
                (fun r => (r < List.length (job_objects ExampleQueues.busy))%nat)
                (entries ExampleQueues.busy)).
  { repeat constructor. }
  assert (D : NoDup ["x"; "y"]).
  { repeat constructor; cbn; intuition discriminate. }
  split; [exact V | ]. split; [exact D | ]. split; [reflexivity | ].
  destruct (recorded_jobs_are_found_by_their_ids Example.canvas Example.cond
              Float.one None None 42 ["x"; "y"] false ExampleQueues.busy
              (Workflow.mk
                 (Workflow.generate "style" (Bounds.extent Example.canvas)
                    Example.cond false) 42)
              1%nat "y")
    as (w' & R & F & J); [reflexivity | exact V | exact D | | reflexivity | ].
  { intros other [<- | [<- | []]]; reflexivity. }
  exists w'. split; [exact R | ]. split; [exact F | ].
  change (job_at 3%nat w')
    with (job_at (List.length (job_objects ExampleQueues.busy) + 1)%nat w').
  rewrite J. reflexivity.
Defined.
